(** * The golden-dataset harness of fonemas (golden_dataset.py)

    A shallow embedding of [GoldenDataset] and [main] from
    [golden_dataset.py], and the properties of the harness that the
    specification states about it.

    Modelling choices, all taken from the source:
    - a Python [str] is the list of its Unicode code points;
    - JSON-shaped data (golden entries, transcription results, diffs) is
      a tree of [value]s whose dicts are finite maps keyed by [str];
      the harness puts only strings, lists and dicts in it, so numbers
      and booleans are left out of [value];
    - exceptions are an error result, each with the text of its
      [str(e)]; [try ... except Exception] is written out with the
      state that the handler finds;
    - the transcription engine [fonemas.Transcription] is not part of
      the harness: it is a parameter, a function of its argument and of
      an engine state, that returns a transcription or raises;
    - the corpus file and the golden file are two slots of the [world];
      the corpus file is kept as its decoded lines, the golden file as
      what [json.load] gives on it, a list of entries or an exception;
    - [json.dump] is a parameter: it writes the whole text, after which
      [json.load] gives the data back, or it raises and leaves a part
      of the text;
    - standard output is a stream that encodes its text as UTF-8; its
      error handler is a parameter, "strict" or "surrogateescape", the
      two that CPython gives it. [print] raises UnicodeEncodeError on
      a text that holds a surrogate code point that the handler does
      not write, and on no other text. The text of a [print] is kept
      where it holds an object of the run; a [print] of text of the
      source and of numbers cannot raise and is left out. *)

From Stdlib Require Import Ascii String.
From stdpp Require Import gmap list fin_maps sorting.

(** ** Python strings *)

Abbreviation str := (list N).

(** An ASCII literal of the source as a [str]. *)
Definition lit (s : string) : str := N_of_ascii <$> list_ascii_of_string s.

(** [ch.isspace()] of CPython ([_PyUnicode_IsWhitespace]). *)
Definition isspace (c : N) : bool :=
  (((9 <=? c) && (c <=? 13)) || ((28 <=? c) && (c <=? 32))
   || (c =? 133) || (c =? 160) || (c =? 5760)
   || ((8192 <=? c) && (c <=? 8202))
   || (c =? 8232) || (c =? 8233) || (c =? 8239) || (c =? 8287)
   || (c =? 12288))%N.

Fixpoint lstrip (s : str) : str :=
  match s with
  | c :: s' => if isspace c then lstrip s' else s
  | [] => []
  end.

Definition rstrip (s : str) : str := reverse (lstrip (reverse s)).

(** [s.strip()] *)
Definition strip (s : str) : str := rstrip (lstrip s).

(** [s.startswith(p)] *)
Definition startswith (s p : str) : bool := bool_decide (take (length p) s = p).

(** [str(n)] of an int that is not negative. *)
Fixpoint decimal_digits (fuel : nat) (n : N) (acc : str) : str :=
  match fuel with
  | O => acc
  | S fuel' =>
      let acc' := (48 + n mod 10)%N :: acc in
      if (n / 10 =? 0)%N then acc' else decimal_digits fuel' (n / 10)%N acc'
  end.

Definition decimal (n : nat) : str := decimal_digits (S n) (N.of_nat n) [].

(** The [width] last digits of [c] in lowercase hexadecimal: [%02x]
    and [%04x]. *)
Definition hex_digit (d : N) : N := (if d <? 10 then 48 + d else 87 + d)%N.

Fixpoint hex (width : nat) (c : N) : str :=
  match width with
  | O => []
  | S width' => hex width' (c / 16)%N ++ [hex_digit (c mod 16)%N]
  end.

(** A surrogate code point, U+D800 to U+DFFF. *)
Definition surrogate (c : N) : bool := ((55296 <=? c) && (c <=? 57343))%N.

(** [repr(s)] of CPython ([unicode_repr]): double quotes when [s] holds
    a single quote and no double quote, single quotes otherwise; the
    quote and the backslash are escaped, and so are the characters
    that are not printable. Below U+0100 those are the controls, U+00A0
    and U+00AD; above, a surrogate is escaped and any other character
    is kept, where CPython asks its Unicode tables. Every key that the
    harness subscripts with is ASCII. *)
Definition repr_char (quote c : N) : str :=
  (if (c =? quote) || (c =? 92) then [92; c]
   else if c =? 9 then lit "\t"
   else if c =? 10 then lit "\n"
   else if c =? 13 then lit "\r"
   else if (c <? 32) || ((127 <=? c) && (c <=? 160)) || (c =? 173)
        then lit "\x" ++ hex 2 c
   else if surrogate c then lit "\u" ++ hex 4 c
   else [c])%N.

Definition repr (s : str) : str :=
  let quote :=
    if bool_decide (39%N ∈ s) && negb (bool_decide (34%N ∈ s))
    then 34%N else 39%N in
  [quote] ++ (s ≫= repr_char quote) ++ [quote].

(** ** Python values *)

#[local] Unset Elimination Schemes.
Inductive value : Type :=
  | VNone
  | VStr (s : str)
  | VList (l : list value)
  | VDict (d : gmap str value).
#[local] Set Elimination Schemes.

Abbreviation dict := (gmap str value).

(** [==] on these values is structural; dicts are compared key by key,
    which is equality of finite maps. *)
#[global] Instance value_eq_dec : EqDecision value.
Proof.
  refine (fix go (v1 v2 : value) {struct v1} : Decision (v1 = v2) :=
    let _ : EqDecision value := @go in
    match v1, v2 with
    | VNone, VNone => left _
    | VStr s1, VStr s2 => cast_if (decide (s1 = s2))
    | VList l1, VList l2 => cast_if (decide (l1 = l2))
    | VDict d1, VDict d2 => cast_if (decide (d1 = d2))
    | _, _ => right _
    end); congruence.
Defined.

(** [bool(v)] *)
Definition truthy (v : value) : bool :=
  match v with
  | VNone => false
  | VStr s => negb (bool_decide (s = []))
  | VList l => negb (bool_decide (l = []))
  | VDict d => negb (bool_decide (d = ∅))
  end.

(** ** Exceptions *)

(** The subclasses of [Exception] that occur; each carries the text of
    [str(e)], which for [KeyError(key)] is [repr(key)]. *)
Inductive exn : Type :=
  | KeyError (text : str)
  | TypeError (msg : str)
  | AttributeError (msg : str)
  | ZeroDivisionError
  | FileNotFoundError (msg : str)
  | UnicodeEncodeError (msg : str)
  | Exception (msg : str).

(** [str(e)] *)
Definition exn_str (e : exn) : str :=
  match e with
  | KeyError text => text
  | TypeError msg => msg
  | AttributeError msg => msg
  | ZeroDivisionError => lit "division by zero"
  | FileNotFoundError msg => msg
  | UnicodeEncodeError msg => msg
  | Exception msg => msg
  end.

Inductive result (A : Type) : Type :=
  | Ok (a : A)
  | Raise (e : exn).
Arguments Ok {A} a.
Arguments Raise {A} e.

#[global] Instance result_ret : MRet result := λ A a, Ok a.
#[global] Instance result_bind : MBind result := λ A B k r,
  match r with
  | Ok a => k a
  | Raise e => Raise e
  end.

(** A [for] loop over a list that threads an accumulator and stops at
    the first exception. *)
Fixpoint for_each {A B} (l : list A) (acc : B) (body : B → A → result B)
    : result B :=
  match l with
  | [] => Ok acc
  | x :: l' => acc' ← body acc x; for_each l' acc' body
  end.

(** [d[key]] on a dict *)
Definition dict_getitem (d : dict) (key : str) : result value :=
  match d !! key with
  | Some v => Ok v
  | None => Raise (KeyError (repr key))
  end.

(** [v[key]] for a [str] key, on any value (messages of CPython 3.11). *)
Definition getitem (v : value) (key : str) : result value :=
  match v with
  | VDict d => dict_getitem d key
  | VNone => Raise (TypeError (lit "'NoneType' object is not subscriptable"))
  | VStr _ => Raise (TypeError (lit "string indices must be integers, not 'str'"))
  | VList _ =>
      Raise (TypeError (lit "list indices must be integers or slices, not str"))
  end.

(** [p in t] on two strings: [p] occurs in [t]. *)
Definition str_contains (t p : str) : bool :=
  bool_decide (Exists (λ i, take (length p) (drop i t) = p)
                 (seq 0 (S (length t)))).

(** [key in v] for a [str] key, on any value (message of CPython 3.11). *)
Definition py_in (key : str) (v : value) : result bool :=
  match v with
  | VDict d => Ok (bool_decide (is_Some (d !! key)))
  | VList l => Ok (bool_decide (VStr key ∈ l))
  | VStr t => Ok (str_contains t key)
  | VNone => Raise (TypeError (lit "argument of type 'NoneType' is not iterable"))
  end.

(** ** Standard output *)

(** The error handler of the stream, [sys.stdout.errors]: "strict", or
    "surrogateescape" under the C and POSIX locales and in the UTF-8
    mode of CPython. *)
Inductive errors_handler : Type :=
  | Strict
  | SurrogateEscape.

(** The surrogates that "surrogateescape" writes as one byte, U+DC80 to
    U+DCFF. *)
Definition escaped (handler : errors_handler) (c : N) : bool :=
  match handler with
  | Strict => false
  | SurrogateEscape => ((56448 <=? c) && (c <=? 56575))%N
  end.

(** The code points that the stream cannot write. *)
Definition refused (handler : errors_handler) (c : N) : bool :=
  surrogate c && negb (escaped handler c).

(** The number of surrogates that [s] starts with. *)
Fixpoint surrogate_run (s : str) : nat :=
  match s with
  | c :: s' => if surrogate c then S (surrogate_run s') else 0
  | [] => 0
  end.

(** [str(e)] of the UnicodeEncodeError of the UTF-8 codec for the
    surrogate [c] at [start], followed by [more] surrogates. *)
Definition surrogates_not_allowed (start : nat) (c : N) (more : nat) : str :=
  match more with
  | O => lit "'utf-8' codec can't encode character '\u" ++ hex 4 c
         ++ lit "' in position " ++ decimal start
         ++ lit ": surrogates not allowed"
  | S _ => lit "'utf-8' codec can't encode characters in position "
           ++ decimal start ++ lit "-" ++ decimal (start + more)
           ++ lit ": surrogates not allowed"
  end.

(** The encoder of the stream on the text of one [write], from the
    character at [pos] on: it stops at the first code point that the
    stream cannot write, and reports it with the surrogates that
    follow it. *)
Fixpoint utf8_encode_from (handler : errors_handler) (pos : nat) (text : str)
    : result unit :=
  match text with
  | [] => Ok tt
  | c :: text' =>
      if refused handler c
      then Raise (UnicodeEncodeError
                    (surrogates_not_allowed pos c (surrogate_run text')))
      else utf8_encode_from handler (S pos) text'
  end.

Definition utf8_encode (handler : errors_handler) (text : str) : result unit :=
  utf8_encode_from handler 0 text.

(** [print(f"{prefix}{obj}{suffix}")], where [prefix] and [suffix] are
    text of the source and numbers. [str(obj)] is [obj] itself for a
    [str]; for a list, a dict or [None] it is their [repr], in which
    every character that is not printable is escaped, the surrogates
    among them, so that the text can be encoded. *)
Definition print_line (handler : errors_handler) (prefix : str) (obj : value)
    (suffix : str) : result unit :=
  match obj with
  | VStr s => utf8_encode handler (prefix ++ s ++ suffix)
  | _ => Ok tt
  end.

(** ** The keys and literals of the source *)

Definition k_input : str := lit "input".
Definition k_error : str := lit "error".
Definition k_phonology : str := lit "phonology".
Definition k_phonetics : str := lit "phonetics".
Definition k_sampa : str := lit "sampa".
Definition k_words : str := lit "words".
Definition k_syllables : str := lit "syllables".
Definition k_expected : str := lit "expected".
Definition k_actual : str := lit "actual".

#[global] Arguments k_input : simpl never.
#[global] Arguments k_error : simpl never.
#[global] Arguments k_phonology : simpl never.
#[global] Arguments k_phonetics : simpl never.
#[global] Arguments k_sampa : simpl never.
#[global] Arguments k_words : simpl never.
#[global] Arguments k_syllables : simpl never.
#[global] Arguments k_expected : simpl never.
#[global] Arguments k_actual : simpl never.

Definition sections : list str := [k_phonology; k_phonetics; k_sampa].
Definition fields : list str := [k_words; k_syllables].

Definition section_missing : value :=
  VDict {[ k_error := VStr (lit "Section missing in actual output") ]}.

(** ** compare_results *)

(** The body of the inner loop [for key in ['words', 'syllables']]. *)
Definition compare_field (expected actual : dict) (section : str)
    (section_diffs : dict) (key : str) : result dict :=
  expected_val ← (s ← dict_getitem expected section; getitem s key);
  actual_val ← (s ← dict_getitem actual section; getitem s key);
  if decide (expected_val ≠ actual_val)
  then Ok (<[key := VDict {[ k_expected := expected_val;
                              k_actual := actual_val ]}]> section_diffs)
  else Ok section_diffs.

(** The body of the outer loop [for section in [...]]. *)
Definition compare_section (expected actual : dict)
    (differences : dict) (section : str) : result dict :=
  if decide (actual !! section = None)
  then Ok (<[section := section_missing]> differences)
  else
    section_diffs ← for_each fields ∅ (compare_field expected actual section);
    if truthy (VDict section_diffs)
    then Ok (<[section := VDict section_diffs]> differences)
    else Ok differences.

Definition compare_results (expected actual : dict) : result value :=
  differences ← for_each sections ∅ (compare_section expected actual);
  Ok (VDict differences).

(** ** _print_differences *)

(** The two data lines of one differing field. *)
Definition print_diff (handler : errors_handler) (indent : str) (diff : value)
    : result unit :=
  expected_val ← getitem diff k_expected;
  _ ← print_line handler (indent ++ lit "    expected: ") expected_val [];
  actual_val ← getitem diff k_actual;
  print_line handler (indent ++ lit "    actual:   ") actual_val [].

(** [section_diffs.items()] of a value that is not a dict. *)
Definition no_items (v : value) : exn :=
  match v with
  | VNone => AttributeError (lit "'NoneType' object has no attribute 'items'")
  | VStr _ => AttributeError (lit "'str' object has no attribute 'items'")
  | _ => AttributeError (lit "'list' object has no attribute 'items'")
  end.

(** The body of the loop over the sections. The items of
    [section_diffs] are visited in the order in which compare_results
    inserts them, [words] before [syllables]; it inserts no other
    key. *)
Definition print_section_diffs (handler : errors_handler) (indent : str)
    (section_diffs : value) : result unit :=
  has_error ← py_in k_error section_diffs;
  if has_error : bool
  then
    error ← getitem section_diffs k_error;
    print_line handler (indent ++ lit "  Error: ") error []
  else
    match section_diffs with
    | VDict sd =>
        for_each fields tt
          (λ _ key, match sd !! key with
                    | Some diff => print_diff handler indent diff
                    | None => Ok tt
                    end)
    | _ => Raise (no_items section_diffs)
    end.

(** [_print_differences(differences, indent)] on the stream. Its
    argument is a dict that compare_results built: the items are
    visited in the order in which compare_results inserts them, that of
    [sections]; it inserts no other key. *)
Definition _print_differences (handler : errors_handler) (indent : str)
    (differences : value) : result unit :=
  match differences with
  | VDict d =>
      for_each sections tt
        (λ _ section, match d !! section with
                      | Some section_diffs =>
                          print_section_diffs handler indent section_diffs
                      | None => Ok tt
                      end)
  | _ => Raise (no_items differences)
  end.

(** ** The transcription engine *)

(** What the harness reads off a [Transcription] object: three sections,
    each with its [words] and [syllables]. *)
Record section_result : Type :=
  { words : list str; syllables : list str }.

Record transcription : Type :=
  { phonology : section_result;
    phonetics : section_result;
    sampa : section_result }.

Definition section_value (s : section_result) : value :=
  VDict {[ k_words := VList (VStr <$> words s);
           k_syllables := VList (VStr <$> syllables s) ]}.

(** ** The harness *)

(** The fields of a [GoldenDataset] object. *)
Record GoldenDataset : Type :=
  { corpus_path : str; golden_path : str }.

(** A failure record of [run_tests]: [{index, sentence, differences}] or
    [{index, sentence, error}]. *)
Inductive failure : Type :=
  | FailureDiff (index : nat) (sentence : value) (differences : value)
  | FailureError (index : nat) (sentence : value) (error : str).

(** The [results] dict of [run_tests]. *)
Record RunSummary : Type :=
  { total : nat;
    passed : nat;
    failed : nat;
    errors : nat;
    failures : list failure }.

(** How the process ends: [sys.exit(code)], or an exception that nothing
    catches. *)
Inductive outcome : Type :=
  | SysExit (code : Z)
  | Uncaught (e : exn).

(** The exit status the operating system sees (CPython ends with
    status 1 on an uncaught exception). *)
Definition exit_status (o : outcome) : Z :=
  match o with
  | SysExit code => code
  | Uncaught _ => 1%Z
  end.

(** [c.lower()] on the ASCII range; no character outside it lowers to a
    letter of "generate" or "test". *)
Definition lower_char (c : N) : N :=
  (if (65 <=? c) && (c <=? 90) then c + 32 else c)%N.

(** [s.lower()], as far as the harness looks at it: whether it is
    "generate" or "test", and where it holds a surrogate. U+0130 is the
    one character that lowers to two. *)
Definition lower (s : str) : str :=
  s ≫= λ c, if (c =? 304)%N then [105%N; 775%N] else [lower_char c].

(** The lines of the failures that print_test_summary shows. *)
Definition print_failure (handler : errors_handler) (f : failure)
    : result unit :=
  match f with
  | FailureError index sentence error =>
      _ ← print_line handler
            ([10%N] ++ lit "  [" ++ decimal index ++ lit "] ") sentence [];
      print_line handler (lit "    Error: ") (VStr error) []
  | FailureDiff index sentence differences =>
      _ ← print_line handler
            ([10%N] ++ lit "  [" ++ decimal index ++ lit "] ") sentence [];
      _print_differences handler (lit "    ") differences
  end.

(** [verbose = "--verbose" in sys.argv or "-v" in sys.argv] *)
Definition verbose_flag (argv : list str) : bool :=
  bool_decide (lit "--verbose" ∈ argv) || bool_decide (lit "-v" ∈ argv).

Section Harness.
Context {Eng : Type}.

(** [Transcription(sentence)]: the engine, from its argument and its
    own state to a transcription or an exception, and its next state. *)
Variable Transcription : value → Eng → result transcription * Eng.

(** [json.dump(golden_data, f, ensure_ascii=False, indent=2)] on the
    golden file, opened for writing as UTF-8: [None] when it writes the
    whole text, and [Some (e, e')] when it raises [e], which leaves a
    part of the text in the file, on which [json.load] raises [e']. *)
Variable json_dump : list dict → option (exn * exn).

(** [sys.stdout.errors] *)
Variable stdout_errors : errors_handler.

Record world : Type :=
  { engine_state : Eng;
    corpus_file : option (list str);
    golden_file : option (result (list dict)) }.

Definition M (A : Type) : Type := world → result A * world.

#[global] Instance M_ret : MRet M := λ A a w, (Ok a, w).
#[global] Instance M_bind : MBind M := λ A B k m w,
  match m w with
  | (Ok a, w') => k a w'
  | (Raise e, w') => (Raise e, w')
  end.

Definition lift {A} (r : result A) : M A := λ w, (r, w).

(** [try: body  except Exception as e: handler e] *)
Definition try_except {A} (body : M A) (handler : exn → M A) : M A := λ w,
  match body w with
  | (Ok a, w') => (Ok a, w')
  | (Raise e, w') => handler e w'
  end.

(** [for i, x in enumerate(l, i): acc = body i x acc] *)
Fixpoint for_enumerate {A B} (i : nat) (l : list A) (acc : B)
    (body : nat → A → B → M B) : M B :=
  match l with
  | [] => mret acc
  | x :: l' => acc' ← body i x acc; for_enumerate (S i) l' acc' body
  end.

Definition call_engine (sentence : value) : M transcription := λ w,
  let (r, st) := Transcription sentence (engine_state w) in
  (r, {| engine_state := st;
         corpus_file := corpus_file w;
         golden_file := golden_file w |}).

(** *** read_corpus *)

(** The loop over the lines of the open file. *)
Definition read_corpus_lines (lines : list str) : list str :=
  foldl (λ sentences line,
           let line := strip line in
           if truthy (VStr line) && negb (startswith line (lit "#"))
           then sentences ++ [line]
           else sentences)
        [] lines.

Definition read_corpus (self : GoldenDataset) : M (list str) := λ w,
  match corpus_file w with
  | Some lines => (Ok (read_corpus_lines lines), w)
  | None =>
      (Raise (FileNotFoundError
                (lit "[Errno 2] No such file or directory: "
                 ++ repr (corpus_path self))), w)
  end.

(** *** transcribe_sentence *)

Definition transcribe_sentence (sentence : value) : M dict :=
  t ← call_engine sentence;
  mret ({[ k_input := sentence;
           k_phonology := section_value (phonology t);
           k_phonetics := section_value (phonetics t);
           k_sampa := section_value (sampa t) ]} : dict).

(** *** generate_golden_data *)

(** The body of the loop over the sentences. The handler prints the
    sentence and the exception before it appends the error entry. *)
Definition generate_entry (i : nat) (sentence : str)
    (golden_data : list dict) : M (list dict) :=
  try_except
    (result ← transcribe_sentence (VStr sentence);
     mret (golden_data ++ [result]))
    (λ e,
       _ ← lift (print_line stdout_errors
                   (lit "ERROR processing sentence " ++ decimal i ++ lit ": ")
                   (VStr sentence) []);
       _ ← lift (print_line stdout_errors (lit "  Exception: ")
                   (VStr (exn_str e)) []);
       mret (golden_data ++
             [ ({[ k_input := VStr sentence;
                   k_error := VStr (exn_str e) ]} : dict) ])).

Definition generate_golden_data (self : GoldenDataset) : M (list dict) :=
  sentences ← read_corpus self;
  for_enumerate 1 sentences [] generate_entry.

(** *** save_golden_data, load_golden_data *)

(** Opening the file for writing empties it; what it holds afterwards
    is what [json.dump] has written. The directories of the path are
    not part of the [world]. *)
Definition save_golden_data (self : GoldenDataset)
    (golden_data : list dict) : M unit := λ w,
  match json_dump golden_data with
  | Some (e, e') =>
      (Raise e, {| engine_state := engine_state w;
                   corpus_file := corpus_file w;
                   golden_file := Some (Raise e') |})
  | None =>
      (print_line stdout_errors ([10%N] ++ lit "Golden dataset saved to: ")
         (VStr (golden_path self)) [],
       {| engine_state := engine_state w;
          corpus_file := corpus_file w;
          golden_file := Some (Ok golden_data) |})
  end.

Definition load_golden_data (self : GoldenDataset) : M (list dict) := λ w,
  match golden_file w with
  | Some loaded => (loaded, w)
  | None =>
      (Raise (FileNotFoundError
                (lit "Golden dataset not found at " ++ golden_path self
                 ++ lit ". Run 'python golden_dataset.py generate' first.")),
       w)
  end.

(** *** run_tests *)

(** The [except Exception as e] clause of the loop, on the [results] as
    the [try] block has left them. *)
Definition run_tests_except (verbose : bool) (i : nat) (sentence : value)
    (e : exn) (results : RunSummary) : M RunSummary :=
  let results :=
    {| total := total results;
       passed := passed results;
       failed := failed results;
       errors := errors results + 1;
       failures := failures results
                   ++ [FailureError i sentence (exn_str e)] |} in
  if verbose
  then
    _ ← lift (print_line stdout_errors
                (lit "ERROR [" ++ decimal i ++ lit "]: ") sentence []);
    _ ← lift (print_line stdout_errors (lit "  Exception: ")
                (VStr (exn_str e)) []);
    mret results
  else mret results.

(** The end of the [try] block, from [if differences:] on. It updates
    [results] in place and then prints when [verbose] is set: the pair
    is [results] as the block leaves them, and how the block ends. *)
Definition run_tests_record (verbose : bool) (i : nat)
    (sentence differences : value) (results : RunSummary)
    : RunSummary * result unit :=
  if truthy differences
  then ({| total := total results;
           passed := passed results;
           failed := failed results + 1;
           errors := errors results;
           failures := failures results
                       ++ [FailureDiff i sentence differences] |},
        if verbose
        then
          _ ← print_line stdout_errors
                (lit "FAIL [" ++ decimal i ++ lit "]: ") sentence [];
          _print_differences stdout_errors (lit "  ") differences
        else Ok tt)
  else ({| total := total results;
           passed := passed results + 1;
           failed := failed results;
           errors := errors results;
           failures := failures results |},
        if verbose
        then print_line stdout_errors
               (lit "PASS [" ++ decimal i ++ lit "]: ") sentence []
        else Ok tt).

(** The body of the loop over the golden entries. *)
Definition run_tests_entry (verbose : bool) (i : nat) (expected : dict)
    (results : RunSummary) : M RunSummary :=
  sentence ← lift (dict_getitem expected k_input);
  if decide (is_Some (expected !! k_error))
  then
    _ ← lift (if verbose
              then print_line stdout_errors
                     (lit "SKIP [" ++ decimal i ++ lit "]: ")
                     sentence (lit " (error in golden data)")
              else Ok tt);
    mret {| total := total results;
            passed := passed results;
            failed := failed results;
            errors := errors results + 1;
            failures := failures results |}
  else λ w,
    match (actual ← transcribe_sentence sentence;
           lift (compare_results expected actual)) w with
    | (Raise e, w') => run_tests_except verbose i sentence e results w'
    | (Ok differences, w') =>
        match run_tests_record verbose i sentence differences results with
        | (results', Ok _) => (Ok results', w')
        | (results', Raise e) =>
            run_tests_except verbose i sentence e results' w'
        end
    end.

Definition run_tests (self : GoldenDataset) (verbose : bool) : M RunSummary :=
  golden_data ← load_golden_data self;
  for_enumerate 1 golden_data
    {| total := length golden_data;
       passed := 0; failed := 0; errors := 0; failures := [] |}
    (run_tests_entry verbose).

(** *** print_test_summary *)

(** [a / b] of two ints, for its exception only: the quotient is only
    printed. *)
Definition true_div (a b : nat) : result unit :=
  if decide (b = 0) then Raise ZeroDivisionError else Ok tt.

(** The percentage printed with the counts can raise, and so can the
    lines of the first ten failures; the value returned is the exit
    code. *)
Definition print_test_summary (results : RunSummary) : result Z :=
  _ ← true_div (passed results) (total results);
  _ ← for_each (take 10 (failures results)) tt
        (λ _ f, print_failure stdout_errors f);
  Ok (if decide (failed results = 0 ∧ errors results = 0)
      then 0%Z else 1%Z).

(** *** main *)

(** [dataset = GoldenDataset()] *)
Definition dataset : GoldenDataset :=
  {| corpus_path := lit "fonemas/sharvard.txt";
     golden_path := lit "tests/golden_data.json" |}.

Definition main (argv : list str) : world → outcome * world := λ w,
  match argv with
  | _ :: arg :: _ =>
      let command := lower arg in
      if decide (command = lit "generate") then
        match (golden_data ← generate_golden_data dataset;
               save_golden_data dataset golden_data) w with
        | (Ok _, w') => (SysExit 0, w')
        | (Raise e, w') => (Uncaught e, w')
        end
      else if decide (command = lit "test") then
        match (results ← run_tests dataset (verbose_flag argv);
               lift (print_test_summary results)) w with
        | (Ok exit_code, w') => (SysExit exit_code, w')
        | (Raise e, w') => (Uncaught e, w')
        end
      else
        match print_line stdout_errors (lit "Unknown command: ")
                (VStr command) [] with
        | Ok _ => (SysExit 1, w)
        | Raise e => (Uncaught e, w)
        end
  | _ => (SysExit 1, w)
  end.

End Harness.
(** * The pytest suite (tests/test_golden_dataset.py) *)

(** How a test ends. A failed [assert] carries the text of its message
    and, when the message is an f-string that ends with an object, that
    object; any other exception fails the test too. *)
Inductive test_outcome : Type :=
  | TestPassed
  | AssertionError (message : str) (formatted : option value)
  | TestSkipped
  | TestError (e : exn).

(** The statements of a test one after the other: the first that does
    not pass ends the test. *)
Definition and_then (o : test_outcome) (rest : test_outcome) : test_outcome :=
  match o with
  | TestPassed => rest
  | _ => o
  end.

(** [assert cond, message] *)
Definition assert_ (cond : result bool) (message : str)
    (formatted : option value) : test_outcome :=
  match cond with
  | Ok true => TestPassed
  | Ok false => AssertionError message formatted
  | Raise e => TestError e
  end.

(** [isinstance(v, list)] *)
Definition is_list (v : value) : bool :=
  match v with
  | VList _ => true
  | _ => false
  end.

(** [assert actual[section][key] == expected[section][key], message] *)
Definition assert_field (expected actual : dict) (sentence : value)
    (section key message : str) : test_outcome :=
  assert_ (actual_val ← (s ← dict_getitem actual section; getitem s key);
           expected_val ← (s ← dict_getitem expected section; getitem s key);
           Ok (bool_decide (actual_val = expected_val)))
          message (Some sentence).

(** The asserts of [test_golden_dataset_structure] on one entry. *)
Definition assert_section_structure (entry : dict) (section : str)
    : test_outcome :=
  and_then
    (assert_ (s ← dict_getitem entry section; py_in k_words s)
       (section ++ lit " missing 'words' field") None)
  (and_then
    (assert_ (s ← dict_getitem entry section; py_in k_syllables s)
       (section ++ lit " missing 'syllables' field") None)
  (and_then
    (assert_ (s ← dict_getitem entry section; x ← getitem s k_words;
              Ok (is_list x))
       (section ++ lit ".words should be a list") None)
    (assert_ (s ← dict_getitem entry section; x ← getitem s k_syllables;
              Ok (is_list x))
       (section ++ lit ".syllables should be a list") None))).

Definition assert_entry_structure (entry : dict) : test_outcome :=
  and_then
    (assert_ (py_in k_input (VDict entry))
       (lit "Entry missing 'input' field") None)
  (and_then
    (assert_ (py_in k_phonology (VDict entry))
       (lit "Entry missing 'phonology' field") None)
  (and_then
    (assert_ (py_in k_phonetics (VDict entry))
       (lit "Entry missing 'phonetics' field") None)
  (and_then
    (assert_ (py_in k_sampa (VDict entry))
       (lit "Entry missing 'sampa' field") None)
    (foldr (λ section rest,
              and_then (assert_section_structure entry section) rest)
       TestPassed sections)))).

(** [test_golden_dataset_structure(golden_data)]: the first five
    entries are checked. *)
Definition test_golden_dataset_structure (golden_data : list dict)
    : test_outcome :=
  foldr (λ entry rest, and_then (assert_entry_structure entry) rest)
    TestPassed (take 5 golden_data).

(** [test_golden_dataset_not_empty(golden_data)] *)
Definition test_golden_dataset_not_empty (golden_data : list dict)
    : test_outcome :=
  assert_ (Ok (bool_decide (0 < length golden_data)))
    (lit "Golden dataset is empty") None.

Section PytestSuite.
Context {Eng : Type}.
Variable Transcription : value → Eng → result transcription * Eng.

(** The fixture [golden_data]: the entries of the golden file that have
    no ["error"], a skip when the file is not there, and the exception
    of [json.load] when the file does not hold JSON. The file is
    [golden_data.json] beside the test file, which is the golden file
    of [main] run from the root of the repository. *)
Definition golden_data_fixture (w : @world Eng)
    : test_outcome + list dict :=
  match golden_file w with
  | Some (Ok data) =>
      inr (filter (λ entry : dict, entry !! k_error = None) data)
  | Some (Raise e) => inl (TestError e)
  | None => inl TestSkipped
  end.

(** [transcribe_sentence] of the test file: no ["input"] key. *)
Definition test_transcribe_sentence (sentence : value) : M dict :=
  t ← call_engine Transcription sentence;
  mret ({[ k_phonology := section_value (phonology t);
           k_phonetics := section_value (phonetics t);
           k_sampa := section_value (sampa t) ]} : dict).

(** [test_transcription_matches_golden(entry)] *)
Definition test_transcription_matches_golden (entry : dict)
    : @world Eng → test_outcome * @world Eng := λ w,
  match dict_getitem entry k_input with
  | Raise e => (TestError e, w)
  | Ok sentence =>
      let expected := entry in
      match test_transcribe_sentence sentence w with
      | (Raise e, w') => (TestError e, w')
      | (Ok actual, w') =>
          (and_then
             (assert_field expected actual sentence k_phonology k_words
                (lit "Phonology words mismatch for: "))
          (and_then
             (assert_field expected actual sentence k_phonology k_syllables
                (lit "Phonology syllables mismatch for: "))
          (and_then
             (assert_field expected actual sentence k_phonetics k_words
                (lit "Phonetics words mismatch for: "))
          (and_then
             (assert_field expected actual sentence k_phonetics k_syllables
                (lit "Phonetics syllables mismatch for: "))
          (and_then
             (assert_field expected actual sentence k_sampa k_words
                (lit "SAMPA words mismatch for: "))
             (assert_field expected actual sentence k_sampa k_syllables
                (lit "SAMPA syllables mismatch for: ")))))),
           w')
      end
  end.

End PytestSuite.

(** * Notions used in the statements *)

(** ** Reading a field of a section *)

(** [d[section][key]] when the section is there, is a dict and has the
    key. *)
Definition field (d : dict) (section key : str) : option value :=
  match d !! section with
  | Some (VDict sd) => sd !! key
  | _ => None
  end.

(** What [compare_results] can see of [actual] at a section and a key:
    nothing when the section is absent, else how [actual[section][key]]
    evaluates. *)
Definition observe (actual : dict) (section key : str)
    : option (result value) :=
  (λ s, getitem s key) <$> actual !! section.

(** The record of one differing field. *)
Definition diff_entry (expected_val actual_val : value) : value :=
  VDict {[ k_expected := expected_val; k_actual := actual_val ]}.

(** The [section_diffs] of a section whose two fields are readable on
    both sides. *)
Definition field_diffs (ew aw es as_ : value) : dict :=
  let d := if decide (ew ≠ aw) then {[ k_words := diff_entry ew aw ]} else ∅ in
  if decide (es ≠ as_) then <[k_syllables := diff_entry es as_]> d else d.

(** A dict in which each of the three sections is a dict that has
    [words] and [syllables]: the shape of a transcription result. *)
Definition readable (d : dict) : Prop :=
  ∀ section key, section ∈ sections → key ∈ fields →
    is_Some (field d section key).

(** The [section_diffs] of [section] for two readable dicts. *)
Definition section_diff (expected actual : dict) (section : str) : dict :=
  field_diffs (default VNone (field expected section k_words))
              (default VNone (field actual section k_words))
              (default VNone (field expected section k_syllables))
              (default VNone (field actual section k_syllables)).

Definition add_section_diff (expected actual : dict)
    (differences : dict) (section : str) : dict :=
  if decide (section_diff expected actual section = ∅)
  then differences
  else <[section := VDict (section_diff expected actual section)]> differences.

(** Every section of [d] that is there is a dict. *)
Definition sections_are_dicts (d : dict) : Prop :=
  ∀ section v, section ∈ sections → d !! section = Some v →
    ∃ sd, v = VDict sd.

(** A result that is a value or a [KeyError]. *)
Definition ok_or_key_error {A} (r : result A) : Prop :=
  match r with
  | Ok _ | Raise (KeyError _) => True
  | Raise _ => False
  end.

Definition raises_key_error {A} (r : result A) : Prop :=
  ∃ key, r = Raise (KeyError key).

(** [read_corpus] in the words of the specification: the trimmed lines
    that are not empty and do not start with [#], in file order. *)
Definition corpus_sentences (lines : list str) : list str :=
  filter (λ line, line ≠ [] ∧ head line ≠ Some 35%N) (strip <$> lines).

(** [t] is [s] without the white space at its two ends. *)
Definition trimmed (s t : str) : Prop :=
  ∃ l r, s = l ++ t ++ r ∧
    Forall (λ c, isspace c = true) l ∧ Forall (λ c, isspace c = true) r ∧
    (∀ c, head t = Some c → isspace c = false) ∧
    (∀ c, last t = Some c → isspace c = false).

(** The two variants of a golden entry. *)
Definition is_error_entry (entry : dict) : Prop := is_Some (entry !! k_error).

Definition is_full_result (entry : dict) : Prop :=
  entry !! k_error = None ∧ is_Some (entry !! k_input) ∧ readable entry.

Definition has_input (entry : dict) : Prop := is_Some (entry !! k_input).

(** The dict that [transcribe_sentence] builds from a transcription. *)
Definition result_entry (sentence : value) (t : transcription) : dict :=
  {[ k_input := sentence;
     k_phonology := section_value (phonology t);
     k_phonetics := section_value (phonetics t);
     k_sampa := section_value (sampa t) ]}.

Definition error_entry (sentence : value) (e : exn) : dict :=
  {[ k_input := sentence; k_error := VStr (exn_str e) ]}.

(** The golden entry for a sentence, from what the engine answered. *)
Definition golden_entry (sentence : str) (r : result transcription) : dict :=
  match r with
  | Ok t => result_entry (VStr sentence) t
  | Raise e => error_entry (VStr sentence) e
  end.

Definition raised {A} (r : result A) : Prop :=
  match r with Ok _ => False | Raise _ => True end.

#[global] Instance raised_dec {A} (r : result A) : Decision (raised r).
Proof. destruct r; cbn; apply _. Defined.

(** The arguments that [run_tests] passes to the engine: the inputs of
    the entries that are not the error variant. *)
Definition transcribed_inputs (golden_data : list dict) : list value :=
  omap (λ entry, if decide (is_error_entry entry) then None
                 else entry !! k_input) golden_data.

(** The four updates that [run_tests] makes to its [results]. *)
Definition count_skipped (results : RunSummary) : RunSummary :=
  {| total := total results;
     passed := passed results;
     failed := failed results;
     errors := errors results + 1;
     failures := failures results |}.

Definition count_passed (results : RunSummary) : RunSummary :=
  {| total := total results;
     passed := passed results + 1;
     failed := failed results;
     errors := errors results;
     failures := failures results |}.

Definition count_failed (i : nat) (sentence differences : value)
    (results : RunSummary) : RunSummary :=
  {| total := total results;
     passed := passed results;
     failed := failed results + 1;
     errors := errors results;
     failures := failures results ++ [FailureDiff i sentence differences] |}.

Definition count_exception (i : nat) (sentence : value) (e : exn)
    (results : RunSummary) : RunSummary :=
  {| total := total results;
     passed := passed results;
     failed := failed results;
     errors := errors results + 1;
     failures := failures results ++ [FailureError i sentence (exn_str e)] |}.

(** What [run_tests] does with an entry that is not the error variant,
    from the answer of the engine. *)
Definition count_compared (i : nat) (expected : dict) (sentence : value)
    (r : result transcription) (results : RunSummary) : RunSummary :=
  match r with
  | Raise e => count_exception i sentence e results
  | Ok t =>
      match compare_results expected (result_entry sentence t) with
      | Raise e => count_exception i sentence e results
      | Ok differences =>
          if truthy differences
          then count_failed i sentence differences results
          else count_passed results
      end
  end.

#[global] Instance is_error_entry_dec (entry : dict) :
  Decision (is_error_entry entry).
Proof. unfold is_error_entry. apply _. Defined.

#[global] Instance readable_dec (d : dict) : Decision (readable d).
Proof.
  refine (cast_if (decide (Forall (λ section,
            Forall (λ key, is_Some (field d section key)) fields) sections))).
  - intros section key Hs Hk.
    rewrite Forall_forall in f. specialize (f section Hs).
    rewrite Forall_forall in f. by apply f.
  - intros Hr. apply n. apply Forall_forall. intros section Hs.
    apply Forall_forall. intros key Hk. by apply Hr.
Defined.

#[global] Instance sections_are_dicts_dec (d : dict) :
  Decision (sections_are_dicts d).
Proof.
  refine (cast_if (decide (Forall (λ section,
            Is_true match d !! section with
                    | Some (VDict _) | None => true
                    | Some _ => false
                    end) sections))).
  - intros section v Hs Hv. rewrite Forall_forall in f.
    specialize (f section Hs). rewrite Hv in f.
    destruct v as [| | |sd]; try done. by exists sd.
  - intros Hd. apply n. apply Forall_forall. intros section Hs.
    destruct (d !! section) as [v|] eqn:Hv; [|done].
    by destruct (Hd section v Hs Hv) as [sd ->].
Defined.

#[global] Instance has_input_dec (entry : dict) : Decision (has_input entry).
Proof. unfold has_input. apply _. Defined.

#[global] Instance is_full_result_dec (entry : dict) :
  Decision (is_full_result entry).
Proof. unfold is_full_result. apply _. Defined.

(** A text that UTF-8 can encode: it holds no surrogate. The lines of a
    file that was decoded as UTF-8 are such texts. *)
Definition encodable (s : str) : Prop := Forall (λ c, surrogate c = false) s.

#[global] Instance encodable_dec (s : str) : Decision (encodable s).
Proof. unfold encodable. apply _. Defined.

(** A text that a stream with the error handler [handler] can write. *)
Definition writable (handler : errors_handler) (s : str) : Prop :=
  Forall (λ c, refused handler c = false) s.

#[global] Instance writable_dec (handler : errors_handler) (s : str) :
  Decision (writable handler s).
Proof. unfold writable. apply _. Defined.

(** An object that [print] can write: a [str] has to be writable. *)
Definition printable (handler : errors_handler) (v : value) : Prop :=
  match v with
  | VStr s => writable handler s
  | _ => True
  end.

#[global] Instance printable_dec (handler : errors_handler) (v : value) :
  Decision (printable handler v).
Proof. destruct v; cbn; apply _. Defined.

(** An answer of the engine that generate_golden_data can report: the
    text of an exception has to be writable. *)
Definition reportable (handler : errors_handler) (r : result transcription)
    : Prop :=
  match r with
  | Ok _ => True
  | Raise e => writable handler (exn_str e)
  end.

#[global] Instance reportable_dec (handler : errors_handler)
    (r : result transcription) : Decision (reportable handler r).
Proof. destruct r; cbn; apply _. Defined.

(** Every [str] of a value is encodable, the keys of its dicts too. *)
Fixpoint encodable_value (v : value) : bool :=
  match v with
  | VNone => true
  | VStr s => forallb (λ c, negb (surrogate c)) s
  | VList l => forallb encodable_value l
  | VDict d =>
      map_fold (λ key x b, forallb (λ c, negb (surrogate c)) key
                           && encodable_value x && b)
        true d
  end.


(** "Adiós": its fourth character is U+00F3. *)
Definition adios : str := lit "Adi" ++ [243%N] ++ lit "s".

Section Engine.
Context {Eng : Type}.
Variable Transcription : value → Eng → result transcription * Eng.

(** The engine called on each argument in turn: its answers and its
    last state. *)
Fixpoint engine_run (args : list value) (st : Eng)
    : list (result transcription) * Eng :=
  match args with
  | [] => ([], st)
  | x :: args' =>
      let (r, st') := Transcription x st in
      let (rs, st'') := engine_run args' st' in
      (r :: rs, st'')
  end.

(** The answer of a deterministic engine depends on its argument only. *)
Definition deterministic : Prop :=
  ∀ x st st', (Transcription x st).1 = (Transcription x st').1.

Definition with_engine_state (st : Eng) (w : @world Eng) : @world Eng :=
  {| engine_state := st;
     corpus_file := corpus_file w;
     golden_file := golden_file w |}.
End Engine.

(** * Example data *)

Definition ola : section_result :=
  {| words := [lit "ola"]; syllables := [lit "o"; lit "la"] |}.

(** The golden entry of the specification's scenario. *)
Definition hola : dict :=
  result_entry (VStr (lit "Hola."))
    {| phonology := ola; phonetics := ola; sampa := ola |}.

(** The same with one more syllable in [phonology]. *)
Definition hola_s : dict :=
  <[k_phonology :=
      section_value {| words := [lit "ola"];
                       syllables := [lit "o"; lit "la"; lit "s"] |}]> hola.

Definition buenos_dias : section_result :=
  {| words := [lit "bwenos"; lit "dias"];
     syllables := [lit "bwe"; lit "nos"; lit "di"; lit "as"] |}.

Definition dias_buenos : section_result :=
  {| words := [lit "dias"; lit "bwenos"];
     syllables := [lit "bwe"; lit "nos"; lit "di"; lit "as"] |}.

Definition saludo : dict :=
  result_entry (VStr (lit "Buenos dias"))
    {| phonology := buenos_dias; phonetics := buenos_dias;
       sampa := buenos_dias |}.

(** The same with the two [words] of [phonetics] swapped. *)
Definition saludo_swapped : dict :=
  result_entry (VStr (lit "Buenos dias"))
    {| phonology := buenos_dias; phonetics := dias_buenos;
       sampa := buenos_dias |}.

(** [hola] with one more section and one more field in [sampa]. *)
Definition hola_extra : dict :=
  <[lit "stress" := VList [VStr (lit "o")]]>
    (<[k_sampa :=
         VDict {[ k_words := VList [VStr (lit "ola")];
                  k_syllables := VList [VStr (lit "o"); VStr (lit "la")];
                  lit "tones" := VNone ]}]> hola).

(** [hola] without its [sampa] section, and without the [syllables] of
    its [phonetics]. *)
Definition hola_no_sampa : dict := delete k_sampa hola.

Definition hola_no_syllables : dict :=
  <[k_phonetics := VDict {[ k_words := VList [VStr (lit "ola")] ]}]> hola.

(** An engine that counts its calls, raises on "bad" and on what is not
    a [str], and else answers from the sentence alone. *)
Definition toy_transcription (s : str) : transcription :=
  {| phonology := {| words := [s]; syllables := [s; s] |};
     phonetics := {| words := [s]; syllables := [] |};
     sampa := {| words := []; syllables := [s] |} |}.

Definition toy_engine (sentence : value) (calls : nat)
    : result transcription * nat :=
  match sentence with
  | VStr s =>
      if decide (s = lit "bad")
      then (Raise (Exception (lit "boom")), S calls)
      else (Ok (toy_transcription s), S calls)
  | _ => (Raise (TypeError (lit "not a str")), S calls)
  end.

Definition toy_lines : list str :=
  [lit "Hola." ++ [10%N]; lit "# comment" ++ [10%N]; [10%N];
   lit "  bad" ++ [10%N]; adios].

Definition toy_world : @world nat :=
  {| engine_state := 0; corpus_file := Some toy_lines; golden_file := None |}.

(** The corpus of the specification's scenario. *)
Definition scenario_world : @world nat :=
  {| engine_state := 0;
     corpus_file := Some [lit "Hola."; lit "# comment"; lit ""; adios];
     golden_file := None |}.

Definition toy_golden : list dict :=
  [ result_entry (VStr (lit "Hola.")) (toy_transcription (lit "Hola."));
    error_entry (VStr (lit "bad")) (Exception (lit "boom"));
    result_entry (VStr adios) (toy_transcription (lit "Adios")) ].

Definition toy_test_world : @world nat :=
  {| engine_state := 0; corpus_file := None; golden_file := Some (Ok toy_golden) |}.

Definition empty_test_world : @world nat :=
  {| engine_state := 0; corpus_file := None; golden_file := Some (Ok []) |}.

(** A [json.dump] for the examples: it raises when a [str] of the data
    holds a surrogate. *)
Definition toy_json_dump (golden_data : list dict) : option (exn * exn) :=
  if forallb (λ entry, encodable_value (VDict entry)) golden_data
  then None
  else Some (UnicodeEncodeError (lit "surrogates not allowed"),
             Exception (lit "Expecting value")).

(** U+D800 alone. *)
Definition lone : str := [55296%N].

(** U+DC80 alone: the byte 0x80 of a command line, as [sys.argv] holds
    it. *)
Definition escaped_byte : str := [56448%N].



(** An engine that raises on "bad" an exception whose text is U+D800. *)
Definition lone_engine (sentence : value) (calls : nat)
    : result transcription * nat :=
  match sentence with
  | VStr s =>
      if decide (s = lit "bad")
      then (Raise (Exception lone), S calls)
      else (Ok (toy_transcription s), S calls)
  | _ => (Raise (TypeError (lit "not a str")), S calls)
  end.

(** * Further notions *)

(** How [d[section][key]] evaluates. *)
Definition read_field (d : dict) (section key : str) : result value :=
  s ← dict_getitem d section; getitem s key.

(** The ["index"] and the ["sentence"] of a failure record. *)
Definition failure_index (f : failure) : nat :=
  match f with
  | FailureDiff index _ _ | FailureError index _ _ => index
  end.

Definition failure_sentence (f : failure) : value :=
  match f with
  | FailureDiff _ sentence _ | FailureError _ sentence _ => sentence
  end.

(** The dict that [transcribe_sentence] of the test file builds. *)
Definition test_result_entry (t : transcription) : dict :=
  {[ k_phonology := section_value (phonology t);
     k_phonetics := section_value (phonetics t);
     k_sampa := section_value (sampa t) ]}.

(** A sentence as [read_corpus] returns them. *)
Definition clean_sentence (s : str) : Prop :=
  s ≠ [] ∧ head s ≠ Some 35%N ∧ strip s = s ∧
  (∀ c, head s = Some c → isspace c = false) ∧
  (∀ c, last s = Some c → isspace c = false).

(** A dict with an ["input"] and no section. *)
Definition hola_input_only : dict := {[ k_input := VStr (lit "Hola.") ]}.

(** A golden entry for "bad", on which the example engine raises. *)
Definition toy_entry_bad : dict :=
  result_entry (VStr (lit "bad")) (toy_transcription (lit "bad")).

(** The three "Section missing" records. *)
Definition all_sections_missing : dict :=
  {[ k_phonology := section_missing;
     k_phonetics := section_missing;
     k_sampa := section_missing ]}.

(** The message of [load_golden_data] for the golden file of [main]. *)
Definition golden_missing_message : str :=
  lit "Golden dataset not found at tests/golden_data.json. Run 'python golden_dataset.py generate' first.".

(** A golden dataset of three entries: no ["input"] in the second. *)
Definition toy_golden_no_input : list dict :=
  [ result_entry (VStr (lit "Hola.")) (toy_transcription (lit "Hola."));
    {[ k_error := VStr (lit "boom") ]};
    result_entry (VStr adios) (toy_transcription adios) ].

Definition toy_no_input_world : @world nat :=
  {| engine_state := 0; corpus_file := None;
     golden_file := Some (Ok toy_golden_no_input) |}.

(** A golden entry for "Hola." whose [sampa] has lost its [syllables]. *)
Definition toy_entry_no_syllables : dict :=
  <[k_sampa := VDict {[ k_words := VList [] ]}]>
    (result_entry (VStr (lit "Hola.")) (toy_transcription (lit "Hola."))).

(** * Properties *)

(** ** The keys are pairwise distinct *)

(** Two literal keys differ. *)
Ltac key_ne :=
  solve [ done
        | let H := fresh in intros H; vm_compute in H; discriminate H ].

Lemma words_ne_syllables_key : k_words ≠ k_syllables.
Proof. key_ne. Qed.

Lemma elem_of_sections (section : str) :
  section ∈ sections ↔
  section = k_phonology ∨ section = k_phonetics ∨ section = k_sampa.
Proof. unfold sections. rewrite !elem_of_cons, elem_of_nil. tauto. Qed.

Lemma elem_of_fields (key : str) :
  key ∈ fields ↔ key = k_words ∨ key = k_syllables.
Proof. unfold fields. rewrite !elem_of_cons, elem_of_nil. tauto. Qed.

Lemma field_Some (d : dict) (section key : str) (v : value) :
  field d section key = Some v →
  ∃ sd, d !! section = Some (VDict sd) ∧ sd !! key = Some v.
Proof.
  unfold field. destruct (d !! section) as [[| | |sd]|]; try discriminate.
  intros H. by exists sd.
Qed.

Lemma getitem_field (d : dict) (section key : str) (v : value) :
  field d section key = Some v →
  (s ← dict_getitem d section; getitem s key) = Ok v.
Proof.
  intros (sd & Hs & Hk)%field_Some. unfold dict_getitem. rewrite Hs.
  cbn. unfold dict_getitem. by rewrite Hk.
Qed.

Lemma compare_field_readable (expected actual : dict) (section key : str)
    (section_diffs : dict) (ev av : value) :
  field expected section key = Some ev →
  field actual section key = Some av →
  compare_field expected actual section section_diffs key =
  Ok (if decide (ev ≠ av)
      then <[key := diff_entry ev av]> section_diffs
      else section_diffs).
Proof.
  intros He Ha. unfold compare_field.
  rewrite (getitem_field _ _ _ _ He), (getitem_field _ _ _ _ Ha). cbn.
  by destruct (decide (ev ≠ av)).
Qed.

Lemma compare_section_readable (expected actual differences : dict)
    (section : str) (ew aw es as_ : value) :
  field expected section k_words = Some ew →
  field actual section k_words = Some aw →
  field expected section k_syllables = Some es →
  field actual section k_syllables = Some as_ →
  compare_section expected actual differences section =
  Ok (if decide (field_diffs ew aw es as_ = ∅)
      then differences
      else <[section := VDict (field_diffs ew aw es as_)]> differences).
Proof.
  intros Hew Haw Hes Has. unfold compare_section.
  destruct (decide (actual !! section = None)) as [Hn|_].
  { unfold field in Haw. by rewrite Hn in Haw. }
  unfold fields. cbn [for_each].
  rewrite (compare_field_readable _ _ _ _ _ _ _ Hew Haw). cbn.
  rewrite (compare_field_readable _ _ _ _ _ _ _ Hes Has). cbn.
  replace (if decide (es ≠ as_)
           then <[k_syllables:=diff_entry es as_]>
                  (if decide (ew ≠ aw)
                   then <[k_words:=diff_entry ew aw]> ∅ else ∅)
           else if decide (ew ≠ aw) then <[k_words:=diff_entry ew aw]> ∅ else ∅)
    with (field_diffs ew aw es as_).
  2:{ unfold field_diffs. rewrite insert_empty. done. }
  unfold truthy.
  destruct (decide (field_diffs ew aw es as_ = ∅)) as [->|Hne].
  - by rewrite bool_decide_eq_true_2.
  - by rewrite bool_decide_eq_false_2.
Qed.

Lemma field_diffs_same (w s : value) : field_diffs w w s s = ∅.
Proof. unfold field_diffs. by rewrite !decide_False by auto. Qed.

Lemma field_diffs_syllables (w es as_ : value) :
  es ≠ as_ →
  field_diffs w w es as_ = {[ k_syllables := diff_entry es as_ ]}.
Proof.
  intros H. unfold field_diffs.
  rewrite (decide_False (P := w ≠ w)) by auto.
  rewrite decide_True by done. by rewrite insert_empty.
Qed.

Lemma field_diffs_words (ew aw es as_ : value) :
  ew ≠ aw →
  field_diffs ew aw es as_ !! k_words = Some (diff_entry ew aw).
Proof.
  intros H. unfold field_diffs. rewrite (decide_True (P := ew ≠ aw)) by done.
  destruct (decide (es ≠ as_)).
  - rewrite lookup_insert_ne by key_ne. apply lookup_singleton_eq.
  - apply lookup_singleton_eq.
Qed.

(** ** compare_results on readable dicts *)

Lemma compare_section_section_diff (expected actual differences : dict)
    (section : str) :
  readable expected → readable actual → section ∈ sections →
  compare_section expected actual differences section =
  Ok (add_section_diff expected actual differences section).
Proof.
  intros He Ha Hs. unfold add_section_diff, section_diff.
  destruct (He section k_words) as [ew Hew]; [done|apply elem_of_fields; auto|].
  destruct (He section k_syllables) as [es Hes]; [done|apply elem_of_fields; auto|].
  destruct (Ha section k_words) as [aw Haw]; [done|apply elem_of_fields; auto|].
  destruct (Ha section k_syllables) as [as_ Has]; [done|apply elem_of_fields; auto|].
  rewrite Hew, Hes, Haw, Has. cbn [default].
  by apply compare_section_readable.
Qed.

Lemma for_each_ext {A B} (l : list A) (acc : B) (f g : B → A → result B) :
  (∀ acc' x, x ∈ l → f acc' x = g acc' x) →
  for_each l acc f = for_each l acc g.
Proof.
  revert acc. induction l as [|x l IH]; intros acc H; [done|].
  cbn [for_each]. rewrite H by (apply elem_of_cons; auto).
  destruct (g acc x) as [acc'|e]; cbn; [|done].
  apply IH. intros acc'' y Hy. apply H. apply elem_of_cons; auto.
Qed.

Lemma for_each_pure {A B} (l : list A) (acc : B) (f : B → A → B) :
  for_each l acc (λ acc' x, Ok (f acc' x)) = Ok (foldl f acc l).
Proof.
  revert acc. induction l as [|x l IH]; intros acc; [done|].
  cbn. apply IH.
Qed.

Lemma compare_results_readable (expected actual : dict) :
  readable expected → readable actual →
  compare_results expected actual =
  Ok (VDict (foldl (add_section_diff expected actual) ∅ sections)).
Proof.
  intros He Ha. unfold compare_results.
  rewrite (for_each_ext _ _ _
             (λ acc x, Ok (add_section_diff expected actual acc x))).
  - by rewrite for_each_pure.
  - intros acc x Hx. by apply compare_section_section_diff.
Qed.

Lemma compare_results_is_dict (expected actual : dict) (v : value) :
  compare_results expected actual = Ok v → ∃ d, v = VDict d.
Proof.
  unfold compare_results.
  destruct (for_each sections ∅ (compare_section expected actual)) as [d|e];
    cbn; intros H; [|discriminate].
  exists d. congruence.
Qed.

Lemma section_diff_same (expected actual : dict) (section : str) :
  field expected section k_words = field actual section k_words →
  field expected section k_syllables = field actual section k_syllables →
  section_diff expected actual section = ∅.
Proof.
  intros Hw Hs. unfold section_diff. rewrite Hw, Hs. apply field_diffs_same.
Qed.

Lemma add_section_diff_other (expected actual differences : dict)
    (section s : str) :
  s ≠ section →
  add_section_diff expected actual differences s !! section =
  differences !! section.
Proof.
  intros Hne. unfold add_section_diff.
  destruct (decide (section_diff expected actual s = ∅)); [done|].
  by rewrite lookup_insert_ne.
Qed.

Lemma add_section_diff_lookup (expected actual differences : dict)
    (section : str) :
  section_diff expected actual section ≠ ∅ →
  add_section_diff expected actual differences section !! section =
  Some (VDict (section_diff expected actual section)).
Proof.
  intros Hne. unfold add_section_diff. rewrite decide_False by done.
  apply lookup_insert_eq.
Qed.

Lemma foldl_add_section_diff_lookup (expected actual : dict) (section : str) :
  section ∈ sections →
  section_diff expected actual section ≠ ∅ →
  foldl (add_section_diff expected actual) ∅ sections !! section =
  Some (VDict (section_diff expected actual section)).
Proof.
  intros Hs Hne. unfold sections. cbn [foldl].
  apply elem_of_sections in Hs as [->|[->| ->]].
  - rewrite !add_section_diff_other by key_ne.
    by apply add_section_diff_lookup.
  - rewrite !add_section_diff_other by key_ne.
    by apply add_section_diff_lookup.
  - by apply add_section_diff_lookup.
Qed.

(** ** What compare_results reads of [actual] *)

Lemma getitem_observe (actual : dict) (section key : str) :
  (s ← dict_getitem actual section; getitem s key) =
  default (Raise (KeyError (repr section))) (observe actual section key).
Proof.
  unfold observe, dict_getitem. by destruct (actual !! section).
Qed.

Lemma observe_None (actual : dict) (section key : str) :
  observe actual section key = None ↔ actual !! section = None.
Proof. unfold observe. by destruct (actual !! section). Qed.

Lemma compare_field_observe (expected actual1 actual2 : dict)
    (section key : str) (section_diffs : dict) :
  observe actual1 section key = observe actual2 section key →
  compare_field expected actual1 section section_diffs key =
  compare_field expected actual2 section section_diffs key.
Proof.
  intros H. unfold compare_field. by rewrite !(getitem_observe _ section key), H.
Qed.

Lemma compare_section_observe (expected actual1 actual2 differences : dict)
    (section : str) :
  (∀ key, key ∈ fields →
     observe actual1 section key = observe actual2 section key) →
  compare_section expected actual1 differences section =
  compare_section expected actual2 differences section.
Proof.
  intros H. unfold compare_section.
  assert (actual1 !! section = None ↔ actual2 !! section = None) as Hiff.
  { rewrite <- !(observe_None _ section k_words).
    rewrite (H k_words); [done|]. apply elem_of_fields; auto. }
  rewrite (for_each_ext fields ∅ (compare_field expected actual1 section)
             (compare_field expected actual2 section)).
  - destruct (decide (actual1 !! section = None)),
      (decide (actual2 !! section = None)); tauto || done.
  - intros acc key Hkey. apply compare_field_observe. by apply H.
Qed.

(** C10. The result of compare_results depends on [actual] only through
    the presence of the three sections and the values of their [words]
    and [syllables]: two actual results that agree there, whatever
    other sections or fields they hold, compare the same against any
    expected result. *)
Theorem compare_results_noninterference (expected actual1 actual2 : dict) :
  (∀ section key, section ∈ sections → key ∈ fields →
     observe actual1 section key = observe actual2 section key) →
  compare_results expected actual1 = compare_results expected actual2.
Proof.
  intros H. unfold compare_results.
  rewrite (for_each_ext sections ∅ (compare_section expected actual1)
             (compare_section expected actual2)); [done|].
  intros acc section Hs. apply compare_section_observe. intros key. by apply H.
Qed.

(** ** Exceptions of compare_results *)

Lemma for_each_ok_or_key_error {A B} (l : list A) (acc : B)
    (body : B → A → result B) :
  (∀ acc' x, x ∈ l → ok_or_key_error (body acc' x)) →
  ok_or_key_error (for_each l acc body).
Proof.
  revert acc. induction l as [|x l IH]; intros acc H; [done|].
  cbn [for_each]. pose proof (H acc x) as Hx.
  destruct (body acc x) as [acc'|e]; cbn.
  - apply IH. intros acc'' y Hy. apply H, elem_of_cons; auto.
  - apply Hx, elem_of_cons; auto.
Qed.

Lemma for_each_raises_key_error {A B} (l : list A) (acc : B)
    (body : B → A → result B) (x0 : A) :
  (∀ acc' x, x ∈ l → ok_or_key_error (body acc' x)) →
  x0 ∈ l → (∀ acc', raises_key_error (body acc' x0)) →
  raises_key_error (for_each l acc body).
Proof.
  revert acc. induction l as [|x l IH]; intros acc H Hin Hx0.
  { by apply elem_of_nil in Hin. }
  cbn [for_each]. pose proof (H acc x) as Hx.
  destruct (body acc x) as [acc'|e] eqn:Hb; cbn.
  - apply elem_of_cons in Hin as [->|Hin].
    + destruct (Hx0 acc) as [key Hk]. congruence.
    + apply IH; [|done..]. intros acc'' y Hy. apply H, elem_of_cons; auto.
  - destruct e; try (exfalso; apply Hx, elem_of_cons; auto; fail).
    by eexists.
Qed.

Lemma getitem_dicts (d : dict) (section key : str) :
  sections_are_dicts d → section ∈ sections →
  (s ← dict_getitem d section; getitem s key) =
  match d !! section with
  | None => Raise (KeyError (repr section))
  | Some _ => match field d section key with
              | Some v => Ok v
              | None => Raise (KeyError (repr key))
              end
  end.
Proof.
  intros Hd Hs. unfold field, dict_getitem.
  destruct (d !! section) as [v|] eqn:Hv; [|done].
  destruct (Hd section v Hs Hv) as [sd ->]. cbn. unfold dict_getitem.
  by destruct (sd !! key).
Qed.

Lemma compare_field_ok_or_key_error (expected actual : dict)
    (section key : str) (section_diffs : dict) :
  sections_are_dicts expected → sections_are_dicts actual →
  section ∈ sections →
  ok_or_key_error (compare_field expected actual section section_diffs key).
Proof.
  intros He Ha Hs. unfold compare_field.
  rewrite (getitem_dicts expected), (getitem_dicts actual) by done.
  destruct (expected !! section); [|done].
  destruct (field expected section key); [|done]. cbn.
  destruct (actual !! section); [|done].
  destruct (field actual section key); [|done]. cbn.
  by destruct (decide _).
Qed.

Lemma compare_field_raises_key_error (expected actual : dict)
    (section key : str) (section_diffs : dict) :
  sections_are_dicts expected → sections_are_dicts actual →
  section ∈ sections →
  field expected section key = None ∨ field actual section key = None →
  raises_key_error (compare_field expected actual section section_diffs key).
Proof.
  intros He Ha Hs Hnone. unfold compare_field.
  rewrite (getitem_dicts expected), (getitem_dicts actual) by done.
  destruct (expected !! section); [|by eexists].
  destruct (field expected section key) as [ev|]; [|by eexists]. cbn.
  destruct Hnone as [?|Hnone]; [done|]. rewrite Hnone.
  destruct (actual !! section); by eexists.
Qed.

Lemma compare_section_ok_or_key_error (expected actual differences : dict)
    (section : str) :
  sections_are_dicts expected → sections_are_dicts actual →
  section ∈ sections →
  ok_or_key_error (compare_section expected actual differences section).
Proof.
  intros He Ha Hs. unfold compare_section.
  destruct (decide (actual !! section = None)); [done|].
  pose proof (for_each_ok_or_key_error fields ∅
                (compare_field expected actual section)) as H.
  destruct (for_each fields ∅ (compare_field expected actual section))
    as [sd|e]; cbn [mbind result_bind].
  - by destruct (truthy (VDict sd)).
  - apply H. intros acc key _. by apply compare_field_ok_or_key_error.
Qed.

Lemma compare_section_raises_key_error (expected actual differences : dict)
    (section key : str) :
  sections_are_dicts expected → sections_are_dicts actual →
  section ∈ sections → is_Some (actual !! section) → key ∈ fields →
  field expected section key = None ∨ field actual section key = None →
  raises_key_error (compare_section expected actual differences section).
Proof.
  intros He Ha Hs [v Hv] Hkey Hnone. unfold compare_section.
  rewrite decide_False by congruence.
  destruct (for_each_raises_key_error fields ∅
              (compare_field expected actual section) key) as [k Hk].
  - intros acc k _. by apply compare_field_ok_or_key_error.
  - done.
  - intros acc. by apply compare_field_raises_key_error.
  - rewrite Hk. by eexists.
Qed.

Lemma compare_section_missing (expected actual differences : dict)
    (section : str) :
  actual !! section = None →
  compare_section expected actual differences section =
  Ok (<[section := section_missing]> differences).
Proof. intros H. unfold compare_section. by rewrite decide_True. Qed.

Lemma compare_section_other (expected actual differences d' : dict)
    (s section : str) :
  s ≠ section →
  compare_section expected actual differences s = Ok d' →
  d' !! section = differences !! section.
Proof.
  intros Hne. unfold compare_section.
  destruct (decide (actual !! s = None)).
  - intros [= <-]. by rewrite lookup_insert_ne.
  - destruct (for_each fields ∅ (compare_field expected actual s)) as [sd|e];
      cbn [mbind result_bind]; [|discriminate].
    destruct (truthy (VDict sd)); intros [= <-]; [|done].
    by rewrite lookup_insert_ne.
Qed.

Lemma compare_results_missing (expected actual d : dict) (section : str) :
  section ∈ sections → actual !! section = None →
  compare_results expected actual = Ok (VDict d) →
  d !! section = Some section_missing.
Proof.
  intros Hs Hnone. unfold compare_results, sections. cbn [for_each].
  destruct (compare_section expected actual ∅ k_phonology) as [d1|] eqn:H1;
    cbn; [|discriminate].
  destruct (compare_section expected actual d1 k_phonetics) as [d2|] eqn:H2;
    cbn; [|discriminate].
  destruct (compare_section expected actual d2 k_sampa) as [d3|] eqn:H3;
    cbn; [|discriminate].
  intros [= <-].
  apply elem_of_sections in Hs as [->|[->| ->]].
  - rewrite (compare_section_other _ _ d2 d3 k_sampa k_phonology)
      by key_ne.
    rewrite (compare_section_other _ _ d1 d2 k_phonetics k_phonology)
      by key_ne.
    rewrite compare_section_missing in H1 by done.
    injection H1 as <-. apply lookup_insert_eq.
  - rewrite (compare_section_other _ _ d2 d3 k_sampa k_phonetics)
      by key_ne.
    rewrite compare_section_missing in H2 by done.
    injection H2 as <-. apply lookup_insert_eq.
  - rewrite compare_section_missing in H3 by done.
    injection H3 as <-. apply lookup_insert_eq.
Qed.

(** C9, as the code has it. A section that is absent from [actual] is
    reported as "Section missing", whatever [expected] holds for it.
    When the sections that are there are dicts, a section that is
    present in [actual] and absent from [expected], or that lacks
    [words] or [syllables] on either side, makes compare_results raise
    a KeyError. *)
Theorem compare_results_key_error (expected actual : dict) (section : str) :
  sections_are_dicts expected → sections_are_dicts actual →
  section ∈ sections →
  (actual !! section = None →
   ∀ d, compare_results expected actual = Ok (VDict d) →
        d !! section = Some section_missing) ∧
  (is_Some (actual !! section) →
   (expected !! section = None ∨
    ∃ key, key ∈ fields ∧
      (field expected section key = None ∨ field actual section key = None)) →
   ∃ key, compare_results expected actual = Raise (KeyError key)).
Proof.
  intros He Ha Hs. split.
  { intros Hnone d Hd. by eapply compare_results_missing. }
  intros Hsome Hlack.
  assert (∃ key, key ∈ fields ∧
            (field expected section key = None ∨
             field actual section key = None)) as (key & Hkey & Hnone).
  { destruct Hlack as [Hnone|?]; [|done].
    exists k_words. split; [apply elem_of_fields; auto|].
    left. unfold field. by rewrite Hnone. }
  destruct (for_each_raises_key_error sections ∅
              (compare_section expected actual) section) as [k Hk].
  - intros acc s Hin. by apply compare_section_ok_or_key_error.
  - done.
  - intros acc. by eapply compare_section_raises_key_error.
  - exists k. unfold compare_results. by rewrite Hk.
Qed.

(** ** Sensitivity of compare_results *)

Lemma foldl_add_section_diff_single (expected actual : dict) (section : str) :
  section ∈ sections →
  section_diff expected actual section ≠ ∅ →
  (∀ s, s ∈ sections → s ≠ section → section_diff expected actual s = ∅) →
  foldl (add_section_diff expected actual) ∅ sections =
  {[ section := VDict (section_diff expected actual section) ]}.
Proof.
  intros Hs Hne Hothers. unfold sections. cbn [foldl]. unfold add_section_diff.
  apply elem_of_sections in Hs as [->|[->| ->]].
  - rewrite (Hothers k_phonetics), (Hothers k_sampa);
      try (apply elem_of_sections; auto); try key_ne.
    rewrite (decide_False (P := section_diff _ _ k_phonology = ∅)) by done.
    rewrite !decide_True by done. by rewrite insert_empty.
  - rewrite (Hothers k_phonology), (Hothers k_sampa);
      try (apply elem_of_sections; auto); try key_ne.
    rewrite (decide_False (P := section_diff _ _ k_phonetics = ∅)) by done.
    rewrite !decide_True by done. by rewrite insert_empty.
  - rewrite (Hothers k_phonology), (Hothers k_phonetics);
      try (apply elem_of_sections; auto); try key_ne.
    rewrite (decide_False (P := section_diff _ _ k_sampa = ∅)) by done.
    rewrite !decide_True by done. by rewrite insert_empty.
Qed.

(** C4. When two readable results differ only in the [syllables] of one
    section, compare_results returns the dict that holds that section
    only, with the [syllables] entry only, made of the expected and the
    actual value. And the comparison is sensitive to order: when the
    actual [words] of a section are a reordering of the expected ones
    and not the same list, the result is not empty and records the two
    lists under that section's [words]. *)
Theorem compare_results_diff_sensitivity (expected actual : dict)
    (section : str) :
  readable expected → readable actual → section ∈ sections →
  (∀ es as_,
     field expected section k_syllables = Some es →
     field actual section k_syllables = Some as_ →
     es ≠ as_ →
     (∀ s key, s ∈ sections → key ∈ fields →
        (s, key) ≠ (section, k_syllables) →
        field expected s key = field actual s key) →
     compare_results expected actual =
     Ok (VDict {[ section :=
                    VDict {[ k_syllables := diff_entry es as_ ]} ]})) ∧
  (∀ ws ws',
     field expected section k_words = Some (VList ws) →
     field actual section k_words = Some (VList ws') →
     ws ≡ₚ ws' → ws ≠ ws' →
     ∃ d sd,
       compare_results expected actual = Ok (VDict d) ∧
       truthy (VDict d) = true ∧
       d !! section = Some (VDict sd) ∧
       sd !! k_words = Some (diff_entry (VList ws) (VList ws'))).
Proof.
  intros He Ha Hs. rewrite (compare_results_readable _ _ He Ha). split.
  - intros es as_ Hes Has Hne Hsame.
    assert (section_diff expected actual section =
            {[ k_syllables := diff_entry es as_ ]}) as Hsd.
    { unfold section_diff. rewrite Hes, Has.
      rewrite (Hsame section k_words Hs);
        [|apply elem_of_fields; auto
         |intros [= H]; revert H; apply words_ne_syllables_key].
      cbn [default]. by apply field_diffs_syllables. }
    rewrite (foldl_add_section_diff_single _ _ section Hs).
    + by rewrite Hsd.
    + rewrite Hsd. apply insert_non_empty.
    + intros s Hin Hsne. apply section_diff_same.
      * apply Hsame; [done|apply elem_of_fields; auto|congruence].
      * apply Hsame; [done|apply elem_of_fields; auto|congruence].
  - intros ws ws' Hws Hws' _ Hne.
    assert (section_diff expected actual section !! k_words =
            Some (diff_entry (VList ws) (VList ws'))) as Hw.
    { unfold section_diff. rewrite Hws, Hws'. cbn [default].
      apply field_diffs_words. congruence. }
    assert (section_diff expected actual section ≠ ∅) as Hsd.
    { intros Hempty. by rewrite Hempty, lookup_empty in Hw. }
    pose proof (foldl_add_section_diff_lookup _ _ _ Hs Hsd) as Hd.
    eexists _, _. split; [done|]. split; [|done].
    unfold truthy. rewrite bool_decide_eq_false_2; [done|].
    intros Hempty. by rewrite Hempty, lookup_empty in Hd.
Qed.

(** ** Python strings: strip *)

Lemma lstrip_spec (s : str) :
  ∃ l, s = l ++ lstrip s ∧ Forall (λ c, isspace c = true) l ∧
       ∀ c, head (lstrip s) = Some c → isspace c = false.
Proof.
  induction s as [|c s (l & Heq & Hl & Hhead)]; cbn [lstrip].
  { exists []. by repeat split. }
  destruct (isspace c) eqn:Hc.
  - exists (c :: l). repeat split; [by rewrite Heq at 1|by constructor|done].
  - exists []. repeat split; [constructor|]. by intros c' [= <-].
Qed.

Lemma rstrip_spec (s : str) :
  ∃ r, s = rstrip s ++ r ∧ Forall (λ c, isspace c = true) r ∧
       ∀ c, last (rstrip s) = Some c → isspace c = false.
Proof.
  unfold rstrip. destruct (lstrip_spec (reverse s)) as (l & Heq & Hl & Hhead).
  exists (reverse l). repeat split.
  - rewrite <- reverse_app, <- Heq. by rewrite reverse_involutive.
  - by apply Forall_reverse.
  - intros c. rewrite last_reverse. apply Hhead.
Qed.

Lemma strip_trimmed (s : str) : trimmed s (strip s).
Proof.
  unfold trimmed, strip.
  destruct (lstrip_spec s) as (l & Heq & Hl & Hhead).
  destruct (rstrip_spec (lstrip s)) as (r & Heq' & Hr & Hlast).
  exists l, r. repeat split; [|done|done| |done].
  - by rewrite <- Heq'.
  - intros c Hc. apply Hhead. rewrite Heq'.
    destruct (rstrip (lstrip s)); [done|]. by injection Hc as ->.
Qed.

(** ** read_corpus *)

Lemma kept_line (line : str) :
  truthy (VStr line) && negb (startswith line (lit "#")) = true ↔
  line ≠ [] ∧ head line ≠ Some 35%N.
Proof.
  unfold truthy, startswith. destruct line as [|c line].
  { cbn. split; [done|]. by intros [? _]. }
  rewrite bool_decide_eq_false_2 by done. cbn.
  rewrite negb_true_iff, bool_decide_eq_false, take_0.
  split.
  - intros H. split; [done|]. intros [= ->]. by apply H.
  - intros [_ H] [= ->]. by apply H.
Qed.

Lemma read_corpus_lines_sentences (lines : list str) :
  read_corpus_lines lines = corpus_sentences lines.
Proof.
  unfold read_corpus_lines, corpus_sentences.
  enough (∀ acc,
    foldl (λ sentences line,
             let line := strip line in
             if truthy (VStr line) && negb (startswith line (lit "#"))
             then sentences ++ [line] else sentences) acc lines =
    acc ++ filter (λ line, line ≠ [] ∧ head line ≠ Some 35%N) (strip <$> lines))
    as H by apply (H []).
  induction lines as [|line lines IH]; intros acc; cbn [foldl fmap list_fmap].
  { by rewrite filter_nil, app_nil_r. }
  rewrite IH, filter_cons. cbn zeta.
  destruct (decide (strip line ≠ [] ∧ head (strip line) ≠ Some 35%N)) as [Hk|Hk].
  - apply kept_line in Hk. rewrite Hk. by rewrite <- app_assoc.
  - rewrite <- kept_line in Hk. apply not_true_is_false in Hk. by rewrite Hk.
Qed.

(** ** Golden entries *)

Lemma result_entry_input (sentence : value) (t : transcription) :
  result_entry sentence t !! k_input = Some sentence.
Proof. by vm_compute. Qed.

Lemma result_entry_error (sentence : value) (t : transcription) :
  result_entry sentence t !! k_error = None.
Proof. by vm_compute. Qed.

Lemma result_entry_readable (sentence : value) (t : transcription) :
  readable (result_entry sentence t).
Proof.
  intros section key Hs Hk.
  apply elem_of_sections in Hs as [->|[->| ->]];
    apply elem_of_fields in Hk as [->| ->];
    eexists; vm_compute; reflexivity.
Qed.

Lemma error_entry_input (sentence : value) (e : exn) :
  error_entry sentence e !! k_input = Some sentence.
Proof. by vm_compute. Qed.

Lemma error_entry_error (sentence : value) (e : exn) :
  error_entry sentence e !! k_error = Some (VStr (exn_str e)).
Proof.
  unfold error_entry. rewrite lookup_insert_ne by key_ne.
  apply lookup_singleton_eq.
Qed.

Lemma golden_entry_input (sentence : str) (r : result transcription) :
  golden_entry sentence r !! k_input = Some (VStr sentence).
Proof. destruct r; [apply result_entry_input|apply error_entry_input]. Qed.

Lemma golden_entry_error (sentence : str) (r : result transcription) :
  is_error_entry (golden_entry sentence r) ↔ raised r.
Proof.
  unfold is_error_entry. destruct r as [t|e]; cbn [golden_entry raised].
  - rewrite result_entry_error. split; [by intros [? ?]|done].
  - by rewrite error_entry_error.
Qed.

Lemma golden_entry_full (sentence : str) (r : result transcription) :
  is_full_result (golden_entry sentence r) ↔ ¬ raised r.
Proof.
  unfold is_full_result. destruct r as [t|e]; cbn [golden_entry raised].
  - split; [tauto|]. intros _.
    split; [apply result_entry_error|].
    split; [by rewrite result_entry_input|apply result_entry_readable].
  - rewrite error_entry_error. split; [by intros [? _]|tauto].
Qed.

Lemma compare_results_same (expected : dict) :
  readable expected → compare_results expected expected = Ok (VDict ∅).
Proof.
  intros He. rewrite compare_results_readable by done.
  unfold sections. cbn [foldl]. unfold add_section_diff.
  by rewrite !section_diff_same, !decide_True by done.
Qed.

Lemma filter_complement_length {A} (P : A → Prop) `{!∀ x, Decision (P x)}
    (l : list A) :
  length (filter P l) + length (filter (λ x, ¬ P x) l) = length l.
Proof.
  induction l as [|x l IH]; [done|].
  rewrite !filter_cons.
  destruct (decide (P x));
    [rewrite decide_False by tauto|rewrite decide_True by done];
    cbn; lia.
Qed.

Lemma zip_golden_entry_counts (sentences : list str)
    (responses : list (result transcription)) :
  length sentences = length responses →
  length (filter is_error_entry (zip_with golden_entry sentences responses))
    = length (filter raised responses) ∧
  length (filter is_full_result (zip_with golden_entry sentences responses))
    = length (filter (λ r, ¬ raised r) responses).
Proof.
  revert responses.
  induction sentences as [|sentence sentences IH]; intros [|r responses] Hlen;
    try done.
  injection Hlen as Hlen. destruct (IH responses Hlen) as [IHe IHf].
  cbn [zip_with]. rewrite !filter_cons.
  pose proof (golden_entry_error sentence r).
  pose proof (golden_entry_full sentence r).
  destruct (decide (raised r)).
  - rewrite decide_True by tauto.
    rewrite (decide_False (P := is_full_result _)) by tauto.
    rewrite (decide_False (P := ¬ raised r)) by tauto.
    cbn. by rewrite IHe, IHf.
  - rewrite decide_False by tauto.
    rewrite (decide_True (P := is_full_result _)) by tauto.
    rewrite (decide_True (P := ¬ raised r)) by tauto.
    cbn. by rewrite IHe, IHf.
Qed.

(** ** Standard output *)

(** A decidable proposition that evaluates to true. *)
Ltac by_compute := apply (bool_decide_unpack _); vm_compute; exact I.

Lemma encodable_app (s t : str) :
  encodable (s ++ t) ↔ encodable s ∧ encodable t.
Proof. apply Forall_app. Qed.

Lemma writable_app (handler : errors_handler) (s t : str) :
  writable handler (s ++ t) ↔ writable handler s ∧ writable handler t.
Proof. apply Forall_app. Qed.

(** A text without a surrogate can be written, whatever the error
    handler. *)
Lemma encodable_writable (handler : errors_handler) (s : str) :
  encodable s → writable handler s.
Proof.
  intros H. eapply Forall_impl; [exact H|].
  intros c Hc. unfold refused. by rewrite Hc.
Qed.

(** With "strict", the texts that can be written are the texts without
    a surrogate. *)
Lemma writable_strict (s : str) : writable Strict s ↔ encodable s.
Proof.
  unfold writable, encodable, refused. rewrite !Forall_forall.
  split; intros H c Hc; specialize (H c Hc); cbn [escaped negb] in *;
    by rewrite ?andb_true_r in *.
Qed.

Lemma decimal_digits_encodable (fuel : nat) (n : N) (acc : str) :
  encodable acc → encodable (decimal_digits fuel n acc).
Proof.
  revert n acc. induction fuel as [|fuel IH]; intros n acc Hacc; [done|].
  cbn [decimal_digits].
  assert (encodable ((48 + n mod 10)%N :: acc)) as Hacc'.
  { constructor; [|done]. unfold surrogate.
    pose proof (N.mod_lt n 10 ltac:(done)) as Hlt.
    apply andb_false_intro1, N.leb_gt. lia. }
  destruct (n / 10 =? 0)%N; [done|]. by apply IH.
Qed.

Lemma decimal_encodable (n : nat) : encodable (decimal n).
Proof. apply decimal_digits_encodable. constructor. Qed.

Lemma lit_encodable (s : string) : encodable (lit s).
Proof.
  unfold lit, encodable. apply Forall_fmap, Forall_forall. intros a _.
  cbn. unfold surrogate. pose proof (N_ascii_bounded a).
  apply andb_false_intro1, N.leb_gt. lia.
Qed.

Lemma utf8_encode_from_writable (handler : errors_handler) (pos : nat)
    (text : str) :
  writable handler text → utf8_encode_from handler pos text = Ok tt.
Proof.
  intros H. revert pos. induction H as [|c text Hc _ IH]; intros pos; [done|].
  cbn [utf8_encode_from]. rewrite Hc. apply IH.
Qed.

Lemma utf8_encode_from_raises (handler : errors_handler) (pos : nat)
    (text : str) :
  ¬ writable handler text →
  ∃ msg, utf8_encode_from handler pos text = Raise (UnicodeEncodeError msg).
Proof.
  revert pos. induction text as [|c text IH]; intros pos H.
  { exfalso. apply H. constructor. }
  cbn [utf8_encode_from]. destruct (refused handler c) eqn:Hc; [by eexists|].
  apply IH. intros Ht. apply H. by constructor.
Qed.

Lemma print_line_ok (handler : errors_handler) (prefix : str) (obj : value)
    (suffix : str) :
  writable handler prefix → printable handler obj → writable handler suffix →
  print_line handler prefix obj suffix = Ok tt.
Proof.
  intros Hp Ho Hs. destruct obj as [|s|l|d]; try done.
  unfold print_line, utf8_encode. apply utf8_encode_from_writable.
  apply writable_app. split; [done|]. by apply writable_app.
Qed.

(** The side conditions of [print_line_ok] on the lines of the
    harness. *)
Ltac solve_printable :=
  lazymatch goal with
  | |- writable _ (_ ++ _) => apply writable_app; split; solve_printable
  | |- writable _ (lit _) => apply encodable_writable, lit_encodable
  | |- writable _ (decimal _) => apply encodable_writable, decimal_encodable
  | |- writable _ [] => unfold writable; constructor
  | |- writable _ [10%N] => apply encodable_writable; by_compute
  | |- printable _ (VStr _) => cbn [printable]; solve_printable
  | |- _ => first [assumption | done]
  end.

Lemma print_line_raises (handler : errors_handler) (prefix s suffix : str) :
  ¬ writable handler s →
  ∃ msg,
    print_line handler prefix (VStr s) suffix = Raise (UnicodeEncodeError msg).
Proof.
  intros H. unfold print_line, utf8_encode. apply utf8_encode_from_raises.
  intros Hall. apply writable_app in Hall as [_ Hall].
  apply writable_app in Hall as [Hs _]. auto.
Qed.

Lemma print_line_str (handler : errors_handler) (prefix s : str) :
  writable handler prefix →
  print_line handler prefix (VStr s) [] = Ok tt ↔ writable handler s.
Proof.
  intros Hp. split.
  - intros Hok. destruct (decide (writable handler s)) as [|Hn]; [done|].
    destruct (print_line_raises handler prefix s [] Hn) as [msg Hr]. congruence.
  - intros Hs. apply print_line_ok; [done|done|constructor].
Qed.

(** The lines of a file stay writable when they are stripped. *)
Lemma strip_writable (handler : errors_handler) (line : str) :
  writable handler line → writable handler (strip line).
Proof.
  intros H. destruct (strip_trimmed line) as (l & r & Heq & _).
  rewrite Heq in H.
  by apply writable_app in H as (_ & (? & _)%writable_app).
Qed.

Lemma corpus_sentences_writable (handler : errors_handler) (lines : list str) :
  Forall (writable handler) lines →
  Forall (writable handler) (corpus_sentences lines).
Proof.
  intros H. unfold corpus_sentences. apply Forall_forall.
  intros s [_ Hin]%list_elem_of_filter.
  apply list_elem_of_fmap in Hin as (line & -> & Hin).
  apply strip_writable. rewrite Forall_forall in H. by apply H.
Qed.

(** ** The loops of the harness *)

Section HarnessProperties.
Context {Eng : Type}.
Variable Transcription : value → Eng → result transcription * Eng.
Variable json_dump : list dict → option (exn * exn).
Variable stdout_errors : errors_handler.
Implicit Types w : @world Eng.

Lemma with_engine_state_id w : with_engine_state (engine_state w) w = w.
Proof. by destruct w. Qed.

Lemma transcribe_sentence_run (sentence : value) w :
  transcribe_sentence Transcription sentence w =
  (match (Transcription sentence (engine_state w)).1 with
   | Ok t => Ok (result_entry sentence t)
   | Raise e => Raise e
   end,
   with_engine_state (Transcription sentence (engine_state w)).2 w).
Proof.
  unfold transcribe_sentence, call_engine, mbind, M_bind.
  by destruct (Transcription sentence (engine_state w)) as [[t|e] st].
Qed.

(** *** generate_golden_data *)

(** What the handler of generate_golden_data prints. *)
Lemma generate_entry_run (i : nat) (sentence : str)
    (golden_data : list dict) w :
  generate_entry Transcription stdout_errors i sentence golden_data w =
  (match (Transcription (VStr sentence) (engine_state w)).1 with
   | Ok t => Ok (golden_data ++ [result_entry (VStr sentence) t])
   | Raise e =>
       _ ← print_line stdout_errors
           (lit "ERROR processing sentence " ++ decimal i
                       ++ lit ": ") (VStr sentence) [];
       _ ← print_line stdout_errors (lit "  Exception: ") (VStr (exn_str e)) [];
       Ok (golden_data ++ [error_entry (VStr sentence) e])
   end,
   with_engine_state (Transcription (VStr sentence) (engine_state w)).2 w).
Proof.
  unfold generate_entry, try_except, mbind at 1 2, M_bind.
  rewrite transcribe_sentence_run.
  destruct (Transcription (VStr sentence) (engine_state w)) as [[t|e] st];
    [done|].
  cbn [fst snd]. unfold mbind, M_bind, lift, result_bind.
  destruct (print_line stdout_errors
      (lit "ERROR processing sentence " ++ decimal i
                        ++ lit ": ") (VStr sentence) []); [|done].
  by destruct (print_line stdout_errors
      (lit "  Exception: ") (VStr (exn_str e)) []).
Qed.

Lemma generate_entry_reported (i : nat) (sentence : str)
    (golden_data : list dict) w :
  writable stdout_errors sentence →
  reportable stdout_errors (Transcription (VStr sentence) (engine_state w)).1 →
  generate_entry Transcription stdout_errors i sentence golden_data w =
  (Ok (golden_data ++
       [golden_entry sentence
          (Transcription (VStr sentence) (engine_state w)).1]),
   with_engine_state (Transcription (VStr sentence) (engine_state w)).2 w).
Proof.
  intros Hs Hr. rewrite generate_entry_run.
  destruct ((Transcription (VStr sentence) (engine_state w)).1) as [t|e];
    [done|].
  cbn [reportable] in Hr. by rewrite !print_line_ok by solve_printable.
Qed.

Lemma generate_entry_Ok (i : nat) (sentence : str)
    (golden_data golden_data' : list dict) w w' :
  generate_entry Transcription stdout_errors i sentence golden_data w
    = (Ok golden_data', w') →
  golden_data' = golden_data ++
    [golden_entry sentence
       (Transcription (VStr sentence) (engine_state w)).1] ∧
  w' = with_engine_state (Transcription (VStr sentence) (engine_state w)).2 w.
Proof.
  rewrite generate_entry_run.
  destruct ((Transcription (VStr sentence) (engine_state w)).1) as [t|e].
  { by intros [= <- <-]. }
  destruct (print_line stdout_errors _ (VStr sentence) []); [|discriminate].
  cbn [mbind result_bind].
  destruct (print_line stdout_errors _ (VStr (exn_str e)) []); [|discriminate].
  by intros [= <- <-].
Qed.

Lemma generate_entry_aborts (i : nat) (sentence : str)
    (golden_data : list dict) w (e : exn) :
  writable stdout_errors sentence →
  (Transcription (VStr sentence) (engine_state w)).1 = Raise e →
  ¬ writable stdout_errors (exn_str e) →
  ∃ msg,
    utf8_encode stdout_errors (lit "  Exception: " ++ exn_str e)
      = Raise (UnicodeEncodeError msg) ∧
    generate_entry Transcription stdout_errors i sentence golden_data w =
    (Raise (UnicodeEncodeError msg),
     with_engine_state (Transcription (VStr sentence) (engine_state w)).2 w).
Proof.
  intros Hs Hr He. rewrite generate_entry_run, Hr.
  rewrite (print_line_ok _ _ (VStr sentence)) by solve_printable.
  destruct (print_line_raises stdout_errors (lit "  Exception: ")
              (exn_str e) [] He)
    as [msg Hmsg].
  exists msg. split.
  - unfold print_line in Hmsg. by rewrite app_nil_r in Hmsg.
  - cbn [mbind result_bind]. by rewrite Hmsg.
Qed.

Lemma engine_run_cons (x : value) (args : list value) (st : Eng) :
  engine_run Transcription (x :: args) st =
  ((Transcription x st).1
     :: (engine_run Transcription args (Transcription x st).2).1,
   (engine_run Transcription args (Transcription x st).2).2).
Proof.
  cbn [engine_run]. destruct (Transcription x st) as [r st'].
  cbn [fst snd]. by destruct (engine_run Transcription args st').
Qed.

Lemma engine_run_length (args : list value) (st : Eng) :
  length (engine_run Transcription args st).1 = length args.
Proof.
  revert st. induction args as [|x args IH]; intros st; [done|].
  rewrite engine_run_cons. cbn. by rewrite IH.
Qed.

Lemma generate_loop (i : nat) (sentences : list str)
    (golden_data : list dict) w :
  Forall (writable stdout_errors) sentences →
  Forall (reportable stdout_errors)
    (engine_run Transcription (VStr <$> sentences) (engine_state w)).1 →
  for_enumerate i sentences golden_data
      (generate_entry Transcription stdout_errors) w =
  (Ok (golden_data ++
       zip_with golden_entry sentences
         (engine_run Transcription (VStr <$> sentences) (engine_state w)).1),
   with_engine_state
     (engine_run Transcription (VStr <$> sentences) (engine_state w)).2 w).
Proof.
  intros Hs. revert i golden_data w.
  induction Hs as [|sentence sentences Hs _ IH]; intros i golden_data w Hr.
  { cbn. by rewrite app_nil_r, with_engine_state_id. }
  cbn [fmap list_fmap] in Hr. rewrite engine_run_cons in Hr.
  apply Forall_cons in Hr as [Hr Hrs].
  cbn [for_enumerate]. unfold mbind at 1, M_bind at 1.
  rewrite generate_entry_reported by done. rewrite IH by done.
  cbn [fmap list_fmap]. rewrite engine_run_cons. cbn.
  by rewrite <- app_assoc.
Qed.

Lemma generate_loop_Ok (i : nat) (sentences : list str)
    (golden_data golden_data' : list dict) w w' :
  for_enumerate i sentences golden_data
      (generate_entry Transcription stdout_errors) w
    = (Ok golden_data', w') →
  golden_data' = golden_data ++
    zip_with golden_entry sentences
      (engine_run Transcription (VStr <$> sentences) (engine_state w)).1 ∧
  w' = with_engine_state
         (engine_run Transcription (VStr <$> sentences) (engine_state w)).2 w.
Proof.
  revert i golden_data w.
  induction sentences as [|sentence sentences IH]; intros i golden_data w.
  { cbn. intros [= <- <-]. by rewrite app_nil_r, with_engine_state_id. }
  cbn [for_enumerate]. unfold mbind at 1, M_bind at 1.
  destruct (generate_entry Transcription stdout_errors i sentence golden_data w)
    as [[golden_data1|e] w1] eqn:Hentry; [|discriminate].
  apply generate_entry_Ok in Hentry as [-> ->].
  intros [-> ->]%IH. cbn [fmap list_fmap]. rewrite engine_run_cons. cbn.
  by rewrite <- app_assoc.
Qed.

Lemma generate_loop_aborts (i : nat) (pre : list str) (sentence : str)
    (post : list str) (golden_data : list dict) w (e : exn) :
  Forall (writable stdout_errors) pre → writable stdout_errors sentence →
  Forall (reportable stdout_errors)
    (engine_run Transcription (VStr <$> pre) (engine_state w)).1 →
  (Transcription (VStr sentence)
     (engine_run Transcription (VStr <$> pre) (engine_state w)).2).1
    = Raise e →
  ¬ writable stdout_errors (exn_str e) →
  ∃ msg,
    utf8_encode stdout_errors (lit "  Exception: " ++ exn_str e)
      = Raise (UnicodeEncodeError msg) ∧
    for_enumerate i (pre ++ sentence :: post) golden_data
      (generate_entry Transcription stdout_errors) w =
    (Raise (UnicodeEncodeError msg),
     with_engine_state
       (Transcription (VStr sentence)
          (engine_run Transcription (VStr <$> pre) (engine_state w)).2).2 w).
Proof.
  intros Hpre. revert i golden_data w.
  induction Hpre as [|s pre Hs _ IH]; intros i golden_data w Hsent Hr He Hn.
  - cbn [fmap list_fmap engine_run fst snd] in *.
    cbn [app for_enumerate]. unfold mbind at 1, M_bind at 1.
    destruct (generate_entry_aborts i sentence golden_data w e Hsent He Hn)
      as (msg & Hmsg & ->).
    by exists msg.
  - cbn [fmap list_fmap] in Hr, He. rewrite engine_run_cons in Hr, He.
    cbn [fst snd] in Hr, He. apply Forall_cons in Hr as [Hr Hrs].
    cbn [app for_enumerate]. unfold mbind at 1, M_bind at 1.
    rewrite generate_entry_reported by done.
    destruct (IH (S i)
                (golden_data ++
                 [golden_entry s (Transcription (VStr s) (engine_state w)).1])
                (with_engine_state
                   (Transcription (VStr s) (engine_state w)).2 w)
                Hsent Hrs He Hn) as (msg & Hmsg & ->).
    exists msg. split; [done|]. cbn [fmap list_fmap].
    rewrite engine_run_cons. done.
Qed.

Lemma generate_golden_data_run (self : GoldenDataset) w (lines : list str) :
  corpus_file w = Some lines →
  Forall (writable stdout_errors) lines →
  Forall (reportable stdout_errors)
    (engine_run Transcription (VStr <$> corpus_sentences lines)
       (engine_state w)).1 →
  generate_golden_data Transcription stdout_errors self w =
  (Ok (zip_with golden_entry (corpus_sentences lines)
         (engine_run Transcription (VStr <$> corpus_sentences lines)
            (engine_state w)).1),
   with_engine_state
     (engine_run Transcription (VStr <$> corpus_sentences lines)
        (engine_state w)).2 w).
Proof.
  intros Hc Hl Hr.
  unfold generate_golden_data, mbind at 1, M_bind at 1, read_corpus.
  rewrite Hc, read_corpus_lines_sentences.
  by rewrite generate_loop by (done || by apply corpus_sentences_writable).
Qed.

Lemma generate_golden_data_Ok (self : GoldenDataset) w (lines : list str)
    (golden_data : list dict) w' :
  corpus_file w = Some lines →
  generate_golden_data Transcription stdout_errors self w
      = (Ok golden_data, w') →
  golden_data =
    zip_with golden_entry (corpus_sentences lines)
      (engine_run Transcription (VStr <$> corpus_sentences lines)
         (engine_state w)).1 ∧
  w' = with_engine_state
         (engine_run Transcription (VStr <$> corpus_sentences lines)
            (engine_state w)).2 w.
Proof.
  intros Hc.
  unfold generate_golden_data, mbind at 1, M_bind at 1, read_corpus.
  rewrite Hc, read_corpus_lines_sentences. by intros [-> ->]%generate_loop_Ok.
Qed.

(** *** run_tests *)

Lemma run_tests_entry_skipped (verbose : bool) (i : nat) (expected : dict)
    (sentence : value) (results : RunSummary) w :
  expected !! k_input = Some sentence → is_error_entry expected →
  (verbose = true → printable stdout_errors sentence) →
  run_tests_entry Transcription stdout_errors verbose i expected results w =
  (Ok (count_skipped results), w).
Proof.
  intros Hi He Hp. unfold run_tests_entry, mbind, M_bind, lift, dict_getitem.
  rewrite Hi. rewrite decide_True by done.
  destruct verbose; [|done].
  specialize (Hp eq_refl). by rewrite print_line_ok by solve_printable.
Qed.

Lemma run_tests_entry_compared (i : nat) (expected : dict)
    (sentence : value) (results : RunSummary) w :
  expected !! k_input = Some sentence → ¬ is_error_entry expected →
  run_tests_entry Transcription stdout_errors false i expected results w =
  (Ok (count_compared i expected sentence
         (Transcription sentence (engine_state w)).1 results),
   with_engine_state (Transcription sentence (engine_state w)).2 w).
Proof.
  intros Hi He.
  unfold run_tests_entry, mbind at 1, M_bind at 1, lift at 1, dict_getitem.
  rewrite Hi. rewrite decide_False by done.
  unfold mbind, M_bind, lift. rewrite transcribe_sentence_run.
  unfold count_compared.
  destruct (Transcription sentence (engine_state w)) as [[t|e] st]; [|done].
  cbn [fst snd].
  destruct (compare_results expected (result_entry sentence t)) as [v|e];
    [|done].
  unfold run_tests_record. by destruct (truthy v).
Qed.

Lemma run_tests_entry_passed (verbose : bool) (i : nat) (expected : dict)
    (sentence : value) (t : transcription) (results : RunSummary) w :
  expected !! k_input = Some sentence → ¬ is_error_entry expected →
  (Transcription sentence (engine_state w)).1 = Ok t →
  compare_results expected (result_entry sentence t) = Ok (VDict ∅) →
  (verbose = true → printable stdout_errors sentence) →
  run_tests_entry Transcription stdout_errors verbose i expected results w =
  (Ok (count_passed results),
   with_engine_state (Transcription sentence (engine_state w)).2 w).
Proof.
  intros Hi He Ht Hc Hp.
  unfold run_tests_entry, mbind at 1, M_bind at 1, lift at 1, dict_getitem.
  rewrite Hi. rewrite decide_False by done.
  unfold mbind, M_bind, lift. rewrite transcribe_sentence_run, Ht, Hc.
  unfold run_tests_record. cbn [truthy negb].
  rewrite bool_decide_eq_true_2 by done. cbn [negb].
  destruct verbose; [|done].
  specialize (Hp eq_refl). by rewrite print_line_ok by solve_printable.
Qed.


Lemma run_tests_entry_no_input (verbose : bool) (i : nat) (expected : dict)
    (results : RunSummary) w :
  expected !! k_input = None →
  run_tests_entry Transcription stdout_errors verbose i expected results w =
  (Raise (KeyError (repr k_input)), w).
Proof.
  intros Hi. unfold run_tests_entry, mbind, M_bind, lift, dict_getitem.
  by rewrite Hi.
Qed.

Lemma count_compared_counts (i : nat) (expected : dict) (sentence : value)
    (r : result transcription) (results : RunSummary) :
  let results' := count_compared i expected sentence r results in
  total results' = total results ∧
  passed results' + failed results' + errors results' =
    S (passed results + failed results + errors results) ∧
  errors results ≤ errors results' ∧
  length (failures results') + failed results + errors results =
    length (failures results) + failed results' + errors results'.
Proof.
  unfold count_compared. destruct r as [t|e].
  - destruct (compare_results expected (result_entry sentence t)) as [v|e].
    + destruct (truthy v); cbn; rewrite ?length_app; cbn; lia.
    + cbn. rewrite length_app. cbn. lia.
  - cbn. rewrite length_app. cbn. lia.
Qed.

Lemma transcribed_inputs_skipped (expected : dict) (golden_data : list dict) :
  is_error_entry expected →
  transcribed_inputs (expected :: golden_data) =
  transcribed_inputs golden_data.
Proof.
  intros He. unfold transcribed_inputs. cbn [omap list_omap].
  by rewrite decide_True.
Qed.

Lemma transcribed_inputs_compared (expected : dict) (sentence : value)
    (golden_data : list dict) :
  expected !! k_input = Some sentence → ¬ is_error_entry expected →
  transcribed_inputs (expected :: golden_data) =
  sentence :: transcribed_inputs golden_data.
Proof.
  intros Hi He. unfold transcribed_inputs. cbn [omap list_omap].
  rewrite decide_False by done. by rewrite Hi.
Qed.

Lemma run_tests_loop (i : nat) (golden_data : list dict)
    (results : RunSummary) w :
  Forall has_input golden_data →
  ∃ results',
    for_enumerate i golden_data results
      (run_tests_entry Transcription stdout_errors false) w =
    (Ok results',
     with_engine_state
       (engine_run Transcription (transcribed_inputs golden_data)
          (engine_state w)).2 w) ∧
    total results' = total results ∧
    passed results' + failed results' + errors results' =
      passed results + failed results + errors results
      + length golden_data ∧
    errors results + length (filter is_error_entry golden_data)
      ≤ errors results' ∧
    length (failures results')
      + length (filter is_error_entry golden_data)
      + failed results + errors results =
    length (failures results) + failed results' + errors results'.
Proof.
  intros Hin. revert i results w.
  induction Hin as [|expected golden_data [sentence Hi] _ IH];
    intros i results w.
  { exists results. cbn. rewrite with_engine_state_id.
    repeat split; lia. }
  cbn [for_enumerate]. unfold mbind, M_bind. rewrite filter_cons.
  destruct (decide (is_error_entry expected)) as [He|He].
  - rewrite (run_tests_entry_skipped false _ _ _ _ _ Hi He) by done.
    rewrite (transcribed_inputs_skipped _ _ He).
    destruct (IH (S i) (count_skipped results) w)
      as (results' & -> & Ht & Hsum & Herr & Hfail).
    exists results'. cbn in *. repeat split; lia.
  - rewrite (run_tests_entry_compared _ _ _ _ _ Hi He).
    rewrite (transcribed_inputs_compared _ _ _ Hi He), engine_run_cons.
    pose proof (count_compared_counts i expected sentence
                  (Transcription sentence (engine_state w)).1 results)
      as (Ht0 & Hsum0 & Herr0 & Hfail0).
    destruct (IH (S i)
                (count_compared i expected sentence
                   (Transcription sentence (engine_state w)).1 results)
                (with_engine_state
                   (Transcription sentence (engine_state w)).2 w))
      as (results' & -> & Ht & Hsum & Herr & Hfail).
    exists results'. cbn in *. repeat split; lia.
Qed.

(** X18. Without [verbose], on a golden dataset whose entries all have
    their [input], run_tests returns a summary with [total] the number
    of entries and [total = passed + failed + errors]. The entries of
    the error variant are counted in [errors] and in neither of the
    other two counts, they are not in the list of failures, and the
    engine is called on the inputs of the other entries only, in their
    order. *)
Theorem run_tests_counts (self : GoldenDataset) w
    (golden_data : list dict) :
  golden_file w = Some (Ok golden_data) →
  Forall has_input golden_data →
  ∃ results w',
    run_tests Transcription stdout_errors self false w = (Ok results, w') ∧
    total results = length golden_data ∧
    total results = passed results + failed results + errors results ∧
    length (filter is_error_entry golden_data) ≤ errors results ∧
    passed results + failed results
      ≤ length (filter (λ entry, ¬ is_error_entry entry) golden_data) ∧
    length (failures results)
      + length (filter is_error_entry golden_data)
      = failed results + errors results ∧
    engine_state w' =
      (engine_run Transcription (transcribed_inputs golden_data)
         (engine_state w)).2.
Proof.
  intros Hg Hin.
  unfold run_tests, mbind at 1, M_bind at 1, load_golden_data. rewrite Hg.
  destruct (run_tests_loop 1 golden_data
              {| total := length golden_data; passed := 0; failed := 0;
                 errors := 0; failures := [] |} w Hin)
    as (results & -> & Ht & Hsum & Herr & Hfail).
  pose proof (filter_complement_length is_error_entry golden_data).
  eexists _, _. split; [done|]. cbn in *. repeat split; lia.
Qed.


(** C7. read_corpus returns the trimmed lines of the corpus file that
    are not empty and do not start with [#], in the order of the file
    and with their repetitions, where trimming removes the white
    space at the two ends of a line; on the corpus "Hola.",
    "# comment", "", "Adiós" it returns "Hola.", "Adiós". *)
Theorem read_corpus_sentences (self : GoldenDataset) w (lines : list str) :
  corpus_file w = Some lines →
  read_corpus self w = (Ok (corpus_sentences lines), w) ∧
  (∀ line, trimmed line (strip line)) ∧
  (lines = [lit "Hola."; lit "# comment"; lit ""; adios] →
   read_corpus self w = (Ok [lit "Hola."; adios], w)).
Proof.
  intros Hc. split; [|split].
  - unfold read_corpus. by rewrite Hc, read_corpus_lines_sentences.
  - apply strip_trimmed.
  - intros ->. unfold read_corpus. rewrite Hc. by vm_compute.
Qed.

(** X19. When standard output can write the lines of the corpus, as it
    can every text without a surrogate, and the text of every
    exception that the engine raises, generate_golden_data returns one
    entry per sentence of the corpus, in corpus order: entry [i] has sentence [i] as its
    [input], and is made from that sentence and from what the engine
    answered to it alone, the error variant with [str(e)] when the
    engine raised and the full result otherwise. So there are as many
    error entries as sentences on which the engine raised: when that
    is one sentence, one entry is the error variant and the other
    N - 1 are full results. *)
Theorem generate_golden_data_entries (self : GoldenDataset) w
    (lines : list str) :
  corpus_file w = Some lines →
  Forall (writable stdout_errors) lines →
  let sentences := corpus_sentences lines in
  let responses :=
    (engine_run Transcription (VStr <$> sentences) (engine_state w)).1 in
  Forall (reportable stdout_errors) responses →
  ∃ golden_data w',
    generate_golden_data Transcription stdout_errors self w
        = (Ok golden_data, w') ∧
    length golden_data = length sentences ∧
    (∀ i sentence, sentences !! i = Some sentence →
       ∃ entry, golden_data !! i = Some entry ∧
                entry !! k_input = Some (VStr sentence)) ∧
    golden_data = zip_with golden_entry sentences responses ∧
    length (filter is_error_entry golden_data)
      = length (filter raised responses) ∧
    length (filter is_full_result golden_data)
      = length sentences - length (filter raised responses) ∧
    (length (filter raised responses) = 1 →
     length (filter is_error_entry golden_data) = 1 ∧
     length (filter is_full_result golden_data) = length sentences - 1).
Proof.
  intros Hc Hl. cbn zeta. intros Hr.
  rewrite (generate_golden_data_run self w lines Hc Hl Hr).
  eexists _, _. split; [done|].
  set (sentences := corpus_sentences lines).
  set (responses :=
         (engine_run Transcription (VStr <$> sentences) (engine_state w)).1).
  assert (length sentences = length responses) as Hlen.
  { unfold responses. by rewrite engine_run_length, length_fmap. }
  destruct (zip_golden_entry_counts sentences responses Hlen) as [He Hf].
  pose proof (filter_complement_length raised responses) as Hcompl.
  assert (length (zip_with golden_entry sentences responses)
          = length sentences) as Hzip.
  { rewrite length_zip_with. lia. }
  repeat split; try lia; try done.
  intros i sentence Hi.
  destruct (lookup_lt_is_Some_2 responses i) as [r Hr'].
  { rewrite <- Hlen. by eapply lookup_lt_Some. }
  exists (golden_entry sentence r). split; [|apply golden_entry_input].
  rewrite lookup_zip_with, Hi. cbn. by rewrite Hr'.
Qed.

(** C5. An exception of the engine whose text standard output cannot
    write ends generate_golden_data: the handler prints the exception
    before it appends the error entry, the UnicodeEncodeError of that
    [print] is raised inside the handler, and no dataset is returned.
    The sentences after that one are not given to the engine. The
    sentences and the exceptions before that one are texts that
    standard output can write. *)
Theorem generate_golden_data_aborts (self : GoldenDataset) w
    (lines pre : list str) (sentence : str) (post : list str) (e : exn) :
  corpus_file w = Some lines →
  Forall (writable stdout_errors) lines →
  corpus_sentences lines = pre ++ sentence :: post →
  Forall (reportable stdout_errors)
    (engine_run Transcription (VStr <$> pre) (engine_state w)).1 →
  (Transcription (VStr sentence)
     (engine_run Transcription (VStr <$> pre) (engine_state w)).2).1
    = Raise e →
  ¬ writable stdout_errors (exn_str e) →
  ∃ msg w',
    generate_golden_data Transcription stdout_errors self w =
      (Raise (UnicodeEncodeError msg), w') ∧
    utf8_encode stdout_errors (lit "  Exception: " ++ exn_str e)
      = Raise (UnicodeEncodeError msg) ∧
    engine_state w' =
      (engine_run Transcription (VStr <$> pre ++ [sentence])
         (engine_state w)).2.
Proof.
  intros Hc Hl Hsplit Hr He Hn.
  assert (Forall (writable stdout_errors) (pre ++ sentence :: post)) as Hs.
  { rewrite <- Hsplit. by apply corpus_sentences_writable. }
  apply Forall_app in Hs as [Hpre [Hsent _]%Forall_cons].
  destruct (generate_loop_aborts 1 pre sentence post [] w e
              Hpre Hsent Hr He Hn) as (msg & Hmsg & Hloop).
  exists msg. eexists. split; [|split; [exact Hmsg|]].
  - unfold generate_golden_data, mbind at 1, M_bind at 1, read_corpus.
    rewrite Hc, read_corpus_lines_sentences, Hsplit. exact Hloop.
  - cbn [engine_state with_engine_state]. clear.
    generalize (engine_state w). induction pre as [|s pre IH]; intros st.
    + cbn [app fmap list_fmap]. rewrite engine_run_cons. done.
    + cbn [app fmap list_fmap]. rewrite !engine_run_cons. cbn [fst snd].
      apply IH.
Qed.

(** *** Generating, then testing *)

Lemma run_tests_loop_generated (verbose : bool) (i : nat)
    (sentences : list str) (st : Eng) (results : RunSummary) w :
  deterministic Transcription →
  Forall (writable stdout_errors) sentences →
  let golden_data :=
    zip_with golden_entry sentences
      (engine_run Transcription (VStr <$> sentences) st).1 in
  ∃ results' w',
    for_enumerate i golden_data results
      (run_tests_entry Transcription stdout_errors verbose) w =
    (Ok results', w') ∧
    total results' = total results ∧
    passed results' = passed results
      + length (filter (λ entry, ¬ is_error_entry entry) golden_data) ∧
    failed results' = failed results ∧
    errors results' = errors results
      + length (filter is_error_entry golden_data) ∧
    failures results' = failures results.
Proof.
  intros Hdet Hs. cbn zeta. revert i st results w.
  induction Hs as [|sentence sentences Hs _ IH]; intros i st results w.
  { exists results, w. cbn. repeat split; lia. }
  cbn [fmap list_fmap]. rewrite engine_run_cons. cbn [fst zip_with].
  set (r := (Transcription (VStr sentence) st).1).
  cbn [for_enumerate]. unfold mbind, M_bind. rewrite !filter_cons.
  pose proof (golden_entry_error sentence r) as Herr.
  pose proof (golden_entry_input sentence r) as Hinput.
  destruct (decide (is_error_entry (golden_entry sentence r))) as [He|He].
  - rewrite (run_tests_entry_skipped verbose _ _ _ _ _ Hinput He) by done.
    rewrite decide_False by tauto.
    destruct (IH (S i) (Transcription (VStr sentence) st).2
                (count_skipped results) w)
      as (results' & w' & -> & Ht & Hp & Hf & Hes & Hfl).
    exists results', w'. cbn in *. repeat split; try done; lia.
  - rewrite decide_True by done.
    destruct r as [t|e] eqn:Hr; [|exfalso; by apply He, Herr].
    cbn [golden_entry] in *.
    rewrite (run_tests_entry_passed verbose i _ (VStr sentence) t results w
               Hinput He); [| |by apply compare_results_same,
                                  result_entry_readable|done].
    2:{ rewrite (Hdet (VStr sentence) (engine_state w) st). exact Hr. }
    destruct (IH (S i) (Transcription (VStr sentence) st).2
                (count_passed results)
                (with_engine_state
                   (Transcription (VStr sentence) (engine_state w)).2 w))
      as (results' & w' & -> & Ht & Hp & Hf & Hes & Hfl).
    exists results', w'. cbn in *. repeat split; try done; lia.
Qed.

Lemma save_golden_data_Ok (self : GoldenDataset) (golden_data : list dict)
    w w' :
  save_golden_data json_dump stdout_errors self golden_data w = (Ok tt, w') →
  json_dump golden_data = None ∧
  w' = {| engine_state := engine_state w;
          corpus_file := corpus_file w;
          golden_file := Some (Ok golden_data) |}.
Proof.
  unfold save_golden_data.
  destruct (json_dump golden_data) as [[e e']|]; [discriminate|].
  by intros [= _ <-].
Qed.

Lemma generate_save_run (self : GoldenDataset) w (lines : list str) :
  corpus_file w = Some lines →
  Forall (writable stdout_errors) lines →
  Forall (reportable stdout_errors)
    (engine_run Transcription (VStr <$> corpus_sentences lines)
       (engine_state w)).1 →
  json_dump
    (zip_with golden_entry (corpus_sentences lines)
       (engine_run Transcription (VStr <$> corpus_sentences lines)
          (engine_state w)).1) = None →
  writable stdout_errors (golden_path self) →
  (golden_data ← generate_golden_data Transcription stdout_errors self;
   _ ← save_golden_data json_dump stdout_errors self golden_data;
   mret golden_data) w =
  (Ok (zip_with golden_entry (corpus_sentences lines)
         (engine_run Transcription (VStr <$> corpus_sentences lines)
            (engine_state w)).1),
   {| engine_state :=
        (engine_run Transcription (VStr <$> corpus_sentences lines)
           (engine_state w)).2;
      corpus_file := Some lines;
      golden_file :=
        Some (Ok (zip_with golden_entry (corpus_sentences lines)
                    (engine_run Transcription
                       (VStr <$> corpus_sentences lines)
                       (engine_state w)).1)) |}).
Proof.
  intros Hc Hl Hr Hdump Hpath. unfold mbind at 1, M_bind at 1.
  rewrite (generate_golden_data_run self w lines Hc Hl Hr).
  unfold mbind, M_bind, save_golden_data. rewrite Hdump.
  rewrite print_line_ok by solve_printable. cbn. by rewrite Hc.
Qed.

(** C6. With a deterministic engine, when generating the golden
    dataset and saving it succeed, running the tests against it, with
    or without [verbose], gives a summary with no failure: every entry
    that is not the error variant is counted as passed, and only the
    entries of the error variant are counted as errors. The lines of
    the corpus are texts that standard output can write, as every text
    without a surrogate is. *)
Theorem generate_then_test (self : GoldenDataset) (verbose : bool) w
    (lines : list str) (golden_data : list dict) w1 :
  deterministic Transcription →
  corpus_file w = Some lines →
  Forall (writable stdout_errors) lines →
  (golden_data ← generate_golden_data Transcription stdout_errors self;
   _ ← save_golden_data json_dump stdout_errors self golden_data;
   mret golden_data) w = (Ok golden_data, w1) →
  ∃ results w2,
    run_tests Transcription stdout_errors self verbose w1 = (Ok results, w2) ∧
    total results = length golden_data ∧
    failed results = 0 ∧
    passed results
      = length (filter (λ entry, ¬ is_error_entry entry) golden_data) ∧
    errors results = length (filter is_error_entry golden_data) ∧
    failures results = [].
Proof.
  intros Hdet Hc Hl. unfold mbind at 1, M_bind at 1.
  destruct (generate_golden_data Transcription stdout_errors self w)
    as [[generated|e] w0] eqn:Hgen; [|discriminate].
  apply (generate_golden_data_Ok self w lines) in Hgen as [-> ->]; [|done].
  unfold mbind at 1, M_bind at 1.
  destruct (save_golden_data json_dump stdout_errors
      self _ _) as [[[]|e] w0] eqn:Hsave;
    [|discriminate].
  apply save_golden_data_Ok in Hsave as [_ ->].
  intros [= <- <-].
  unfold run_tests, mbind at 1, M_bind at 1, load_golden_data.
  cbn [golden_file].
  destruct (run_tests_loop_generated verbose 1 (corpus_sentences lines)
              (engine_state w)
              {| total := length
                            (zip_with golden_entry (corpus_sentences lines)
                               (engine_run Transcription
                                  (VStr <$> corpus_sentences lines)
                                  (engine_state w)).1);
                 passed := 0; failed := 0; errors := 0; failures := [] |}
              {| engine_state :=
                   engine_state
                     (with_engine_state
                        (engine_run Transcription
                           (VStr <$> corpus_sentences lines)
                           (engine_state w)).2 w);
                 corpus_file :=
                   corpus_file
                     (with_engine_state
                        (engine_run Transcription
                           (VStr <$> corpus_sentences lines)
                           (engine_state w)).2 w);
                 golden_file :=
                   Some (Ok (zip_with golden_entry (corpus_sentences lines)
                               (engine_run Transcription
                                  (VStr <$> corpus_sentences lines)
                                  (engine_state w)).1)) |}
              Hdet (corpus_sentences_writable _ lines Hl))
    as (results & w2 & Hrun & Ht & Hp & Hf & He & Hfl).
  exists results, w2. split; [exact Hrun|].
  cbn in *. repeat split; try done; lia.
Qed.

(** *** The pass condition *)

(** C1, as the code has it. compare_results always returns a dict,
    never [None]. When [words] and [syllables] of every section are
    equal on the two sides, that dict is the empty dict; and run_tests
    counts an entry as passed when the dict is empty and as failed
    when it is not. *)
Theorem compare_results_no_difference (expected actual : dict) :
  (∀ v, compare_results expected actual = Ok v →
        v ≠ VNone ∧ ∃ d, v = VDict d) ∧
  ((∀ section key, section ∈ sections → key ∈ fields →
      ∃ v, field expected section key = Some v ∧
           field actual section key = Some v) →
   compare_results expected actual = Ok (VDict ∅)) ∧
  (∀ i sentence t results w d,
     expected !! k_input = Some sentence →
     ¬ is_error_entry expected →
     (Transcription sentence (engine_state w)).1 = Ok t →
     actual = result_entry sentence t →
     compare_results expected actual = Ok (VDict d) →
     (run_tests_entry Transcription stdout_errors
         false i expected results w).1 =
     Ok (if decide (d = ∅) then count_passed results
         else count_failed i sentence (VDict d) results)).
Proof.
  split; [|split].
  - intros v Hv. destruct (compare_results_is_dict _ _ _ Hv) as [d ->].
    split; [done|by exists d].
  - intros Hsame.
    assert (readable expected) as He.
    { intros section key Hs Hk.
      destruct (Hsame section key Hs Hk) as (v & Hv & _). by exists v. }
    assert (readable actual) as Ha.
    { intros section key Hs Hk.
      destruct (Hsame section key Hs Hk) as (v & _ & Hv). by exists v. }
    rewrite compare_results_readable by done.
    unfold sections. cbn [foldl]. unfold add_section_diff.
    assert (∀ section, section ∈ sections →
              section_diff expected actual section = ∅) as Hd.
    { intros section Hs. apply section_diff_same.
      - destruct (Hsame section k_words Hs) as (v & -> & ->);
          [apply elem_of_fields; auto|done].
      - destruct (Hsame section k_syllables Hs) as (v & -> & ->);
          [apply elem_of_fields; auto|done]. }
    by rewrite !Hd, !decide_True by (done || apply elem_of_sections; auto).
  - intros i sentence t results w d Hi He Ht -> Hd.
    rewrite (run_tests_entry_compared _ _ _ _ _ Hi He). cbn [fst].
    unfold count_compared. rewrite Ht, Hd. unfold truthy.
    destruct (decide (d = ∅)) as [->|Hne].
    + by rewrite bool_decide_eq_true_2.
    + by rewrite bool_decide_eq_false_2.
Qed.

(** *** The exit status of the test command *)

Lemma lower_test : lower (lit "test") = lit "test".
Proof. by vm_compute. Qed.

Lemma main_test (prog : str) (rest : list str) w :
  main Transcription json_dump stdout_errors (prog :: lit "test" :: rest) w =
  match (results ← run_tests Transcription stdout_errors dataset
                     (verbose_flag (prog :: lit "test" :: rest));
         lift (print_test_summary stdout_errors results)) w with
  | (Ok exit_code, w') => (SysExit exit_code, w')
  | (Raise e, w') => (Uncaught e, w')
  end.
Proof.
  unfold main. rewrite lower_test.
  rewrite decide_False by key_ne. by rewrite decide_True.
Qed.

Lemma run_tests_empty (self : GoldenDataset) (verbose : bool) w :
  golden_file w = Some (Ok []) →
  run_tests Transcription stdout_errors self verbose w =
  (Ok {| total := 0; passed := 0; failed := 0; errors := 0;
         failures := [] |}, w).
Proof.
  intros Hg. unfold run_tests, mbind, M_bind, load_golden_data.
  by rewrite Hg.
Qed.

(** C8. On a summary with [total = 0], print_test_summary raises
    ZeroDivisionError; so when the golden dataset that is loaded is
    empty, the test command ends with that exception uncaught, and
    not with [sys.exit(0)]. *)
Theorem print_test_summary_empty_dataset :
  (∀ results, total results = 0 →
     print_test_summary stdout_errors results = Raise ZeroDivisionError) ∧
  (∀ w prog rest, golden_file w = Some (Ok []) →
     main Transcription json_dump stdout_errors (prog :: lit "test" :: rest) w =
     (Uncaught ZeroDivisionError, w)).
Proof.
  split.
  - intros results Ht. unfold print_test_summary, true_div.
    by rewrite (decide_True (P := total results = 0)).
  - intros w prog rest Hg. rewrite main_test.
    unfold mbind, M_bind. by rewrite (run_tests_empty dataset _ w Hg).
Qed.

(** C2, at the empty golden dataset. The summary of the run has
    [failed = 0] and [errors = 0], and the process ends with exit
    status 1: print_test_summary raises before it returns the exit
    code. *)
Theorem main_test_exit_status_empty (prog : str) (rest : list str)
    (st : Eng) (corpus : option (list str)) :
  let w := {| engine_state := st; corpus_file := corpus;
              golden_file := Some (Ok []) |} in
  ∃ results,
    (∀ verbose,
       (run_tests Transcription stdout_errors
           dataset verbose w).1 = Ok results) ∧
    failed results = 0 ∧ errors results = 0 ∧
    print_test_summary stdout_errors results = Raise ZeroDivisionError ∧
    exit_status
      (main Transcription json_dump stdout_errors
          (prog :: lit "test" :: rest) w).1 = 1%Z.
Proof.
  cbn zeta. eexists. rewrite main_test. unfold mbind, M_bind.
  rewrite run_tests_empty by done.
  split; [intros verbose; by rewrite run_tests_empty by done|].
  by repeat split.
Qed.

Lemma print_test_summary_no_failure (results : RunSummary) :
  total results ≠ 0 → failures results = [] →
  print_test_summary stdout_errors results =
  Ok (if decide (failed results = 0 ∧ errors results = 0)
      then 0%Z else 1%Z).
Proof.
  intros Ht Hf. unfold print_test_summary, true_div.
  rewrite (decide_False (P := total results = 0)) by done.
  by rewrite Hf.
Qed.

(** The exit code is computed after the lines of the failures: a run
    with a failure or an error never gives 0. *)
Lemma print_test_summary_status (results : RunSummary) :
  total results ≠ 0 →
  (failed results = 0 ∧ errors results = 0 → failures results = []) →
  match print_test_summary stdout_errors results with
  | Ok code => code = 0%Z ↔ failed results = 0 ∧ errors results = 0
  | Raise _ => ¬ (failed results = 0 ∧ errors results = 0)
  end.
Proof.
  intros Ht Hf.
  destruct (decide (failed results = 0 ∧ errors results = 0)) as [H0|H0].
  - rewrite print_test_summary_no_failure by auto.
    by rewrite decide_True.
  - unfold print_test_summary, true_div.
    rewrite (decide_False (P := total results = 0)) by done.
    cbn [mbind result_bind].
    destruct (for_each _ _ _); cbn [mbind result_bind]; [|done].
    rewrite decide_False by done. split; [done|tauto].
Qed.

Lemma lower_generate : lower (lit "generate") = lit "generate".
Proof. by vm_compute. Qed.

Lemma main_generate (prog : str) (rest : list str) w :
  main Transcription json_dump stdout_errors
      (prog :: lit "generate" :: rest) w =
  match (golden_data ← generate_golden_data Transcription stdout_errors dataset;
         save_golden_data json_dump stdout_errors dataset golden_data) w with
  | (Ok _, w') => (SysExit 0, w')
  | (Raise e, w') => (Uncaught e, w')
  end.
Proof. unfold main. by rewrite lower_generate, decide_True. Qed.

Lemma save_golden_data_dataset (golden_data : list dict) w :
  save_golden_data json_dump stdout_errors dataset golden_data w =
  match json_dump golden_data with
  | Some (e, e') =>
      (Raise e, {| engine_state := engine_state w;
                   corpus_file := corpus_file w;
                   golden_file := Some (Raise e') |})
  | None =>
      (Ok tt, {| engine_state := engine_state w;
                 corpus_file := corpus_file w;
                 golden_file := Some (Ok golden_data) |})
  end.
Proof.
  unfold save_golden_data. destruct (json_dump golden_data) as [[e e']|];
    [done|].
  by f_equal.
Qed.

(** The empty golden dataset is what the generate command writes for a
    corpus of comments and blank lines; the test command that follows
    ends with the exception uncaught. *)
Lemma main_generate_then_test_empty (prog : str) (st : Eng)
    (golden : option (result (list dict))) :
  json_dump [] = None →
  let w := {| engine_state := st;
              corpus_file := Some [lit "# Sharvard" ++ [10%N]; [10%N]];
              golden_file := golden |} in
  ∃ w',
    main Transcription json_dump stdout_errors [prog; lit "generate"] w
        = (SysExit 0, w') ∧
    golden_file w' = Some (Ok []) ∧
    main Transcription json_dump stdout_errors [prog; lit "test"] w' =
      (Uncaught ZeroDivisionError, w').
Proof.
  intros Hdump. cbn zeta. eexists. split; [|split].
  - rewrite main_generate. unfold mbind, M_bind.
    erewrite generate_golden_data_run;
      [|reflexivity|by_compute|by vm_compute].
    rewrite save_golden_data_dataset.
    replace (zip_with golden_entry _ _) with (@nil dict) by (by vm_compute).
    by rewrite Hdump.
  - reflexivity.
  - rewrite main_test. unfold mbind, M_bind.
    by rewrite run_tests_empty by done.
Qed.

(** X16. Without [verbose], on a golden dataset that is not empty and
    whose entries have their [input], the test command ends with exit
    status 0 exactly when the summary has [failed = 0] and
    [errors = 0]. It ends with [sys.exit] of 0 or 1 when the lines of
    the failures can be printed, and with the exception of [print]
    uncaught otherwise. *)
Theorem main_test_exit_status_nonempty (prog : str) (rest : list str) w
    (golden_data : list dict) :
  golden_file w = Some (Ok golden_data) → golden_data ≠ [] →
  Forall has_input golden_data →
  verbose_flag (prog :: lit "test" :: rest) = false →
  ∃ results w',
    run_tests Transcription stdout_errors dataset false w = (Ok results, w') ∧
    (main Transcription json_dump stdout_errors
        (prog :: lit "test" :: rest) w).2 = w' ∧
    (exit_status
       (main Transcription json_dump stdout_errors
           (prog :: lit "test" :: rest) w).1 = 0%Z
     ↔ failed results = 0 ∧ errors results = 0) ∧
    (for_each (take 10 (failures results)) tt
        (λ _ f, print_failure stdout_errors f)
       = Ok tt →
     main Transcription json_dump stdout_errors (prog :: lit "test" :: rest) w =
     (SysExit (if decide (failed results = 0 ∧ errors results = 0)
               then 0 else 1), w')).
Proof.
  intros Hg Hne Hin Hv. rewrite main_test, Hv.
  unfold mbind at 1 2 3, M_bind at 1 2 3.
  unfold run_tests, mbind at 1 2 3 4, M_bind at 1 2 3 4, load_golden_data.
  rewrite Hg.
  destruct (run_tests_loop 1 golden_data
              {| total := length golden_data; passed := 0; failed := 0;
                 errors := 0; failures := [] |} w Hin)
    as (results & -> & Ht & _ & _ & Hfail).
  cbn in Ht, Hfail. exists results. eexists. split; [done|].
  assert (total results ≠ 0) as Ht0.
  { rewrite Ht. by destruct golden_data. }
  assert (failed results = 0 ∧ errors results = 0 → failures results = [])
    as Hnil.
  { intros [Hf He]. apply length_zero_iff_nil. lia. }
  pose proof (print_test_summary_status results Ht0 Hnil) as Hstatus.
  unfold lift. split; [|split].
  - by destruct (print_test_summary stdout_errors results).
  - destruct (print_test_summary stdout_errors results) as [code|e]; cbn.
    + exact Hstatus.
    + split; [done|]. intros H. by destruct Hstatus.
  - intros Hprint. unfold print_test_summary, true_div.
    rewrite (decide_False (P := total results = 0)) by done.
    cbn [mbind result_bind]. by rewrite Hprint.
Qed.

End HarnessProperties.
(** * The statements on the example data *)

Ltac section_cases H :=
  apply elem_of_sections in H as [->|[->| ->]].
Ltac field_cases H :=
  apply elem_of_fields in H as [->| ->].

Lemma toy_engine_deterministic : deterministic toy_engine.
Proof.
  intros x st st'. unfold toy_engine.
  destruct x as [|s|l|d]; try reflexivity.
  destruct (decide (s = lit "bad")); reflexivity.
Qed.

(** C10 on [hola] and [hola_extra], which has one more section and one
    more field. *)
Lemma compare_results_noninterference_witness :
  compare_results hola_s hola = compare_results hola_s hola_extra.
Proof.
  apply (compare_results_noninterference hola_s hola hola_extra).
  intros section key Hs Hk.
  section_cases Hs; field_cases Hk; vm_compute; reflexivity.
Defined.

(** C9 on [hola] against [hola_no_syllables], either way round, and on
    [hola_no_sampa] against itself. *)
Lemma compare_results_key_error_witness :
  (∃ key, compare_results hola_no_syllables hola = Raise (KeyError key)) ∧
  (∃ key, compare_results hola hola_no_syllables = Raise (KeyError key)) ∧
  (∃ key, compare_results hola_no_sampa hola = Raise (KeyError key)) ∧
  (∀ d, compare_results hola_no_sampa hola_no_sampa = Ok (VDict d) →
        d !! k_sampa = Some section_missing).
Proof.
  split; [|split; [|split]].
  - apply (compare_results_key_error hola_no_syllables hola k_phonetics).
    + by_compute.
    + by_compute.
    + by_compute.
    + by eexists; vm_compute.
    + right. exists k_syllables. split; [by_compute|]. left. by vm_compute.
  - apply (compare_results_key_error hola hola_no_syllables k_phonetics).
    + by_compute.
    + by_compute.
    + by_compute.
    + by eexists; vm_compute.
    + right. exists k_syllables. split; [by_compute|]. right. by vm_compute.
  - apply (compare_results_key_error hola_no_sampa hola k_sampa).
    + by_compute.
    + by_compute.
    + by_compute.
    + by eexists; vm_compute.
    + left. by vm_compute.
  - apply (compare_results_key_error hola_no_sampa hola_no_sampa k_sampa).
    + by_compute.
    + by_compute.
    + by_compute.
    + by vm_compute.
Defined.

(** A counterexample to C9 as stated: [sampa] is absent from the
    expected result, and compare_results returns a dict, the "Section
    missing" record of [sampa], and raises nothing. *)
Lemma compare_results_key_error_counterexample :
  k_sampa ∈ sections ∧ hola_no_sampa !! k_sampa = None ∧
  compare_results hola_no_sampa hola_no_sampa =
    Ok (VDict {[ k_sampa := section_missing ]}) ∧
  ¬ raises_key_error (compare_results hola_no_sampa hola_no_sampa).
Proof.
  assert (compare_results hola_no_sampa hola_no_sampa =
          Ok (VDict {[ k_sampa := section_missing ]})) as H
    by (by vm_compute).
  split; [by_compute|]. split; [by vm_compute|]. split; [done|].
  rewrite H. by intros [key ?].
Qed.

(** C4 on the scenario of the specification, and on two words
    swapped. *)
Lemma compare_results_diff_sensitivity_witness :
  compare_results hola hola_s =
    Ok (VDict {[ k_phonology :=
                   VDict {[ k_syllables :=
                     diff_entry
                       (VList [VStr (lit "o"); VStr (lit "la")])
                       (VList [VStr (lit "o"); VStr (lit "la");
                               VStr (lit "s")]) ]} ]}) ∧
  ∃ d sd,
    compare_results saludo saludo_swapped = Ok (VDict d) ∧
    truthy (VDict d) = true ∧
    d !! k_phonetics = Some (VDict sd) ∧
    sd !! k_words =
      Some (diff_entry
              (VList [VStr (lit "bwenos"); VStr (lit "dias")])
              (VList [VStr (lit "dias"); VStr (lit "bwenos")])).
Proof.
  split.
  - apply (proj1 (compare_results_diff_sensitivity hola hola_s k_phonology
                    ltac:(by_compute) ltac:(by_compute) ltac:(by_compute))).
    + by vm_compute.
    + by vm_compute.
    + by_compute.
    + intros s key Hs Hk Hne.
      section_cases Hs; field_cases Hk; by vm_compute.
  - apply (proj2 (compare_results_diff_sensitivity saludo saludo_swapped
                    k_phonetics ltac:(by_compute) ltac:(by_compute)
                    ltac:(by_compute))).
    + by vm_compute.
    + by vm_compute.
    + apply perm_swap.
    + by_compute.
Defined.

(** A counterexample to C1 as stated: on two equal results,
    compare_results returns the empty dict and not [None]. *)
Lemma compare_results_no_difference_counterexample :
  compare_results hola hola = Ok (VDict ∅) ∧
  compare_results hola hola ≠ Ok VNone.
Proof.
  assert (compare_results hola hola = Ok (VDict ∅)) as H by (by vm_compute).
  split; [done|]. by rewrite H.
Qed.

(** C1 on [hola] against [hola_extra], and on the first entry of the
    example dataset. *)
Lemma compare_results_no_difference_witness :
  compare_results hola hola_extra = Ok (VDict ∅) ∧
  (run_tests_entry toy_engine Strict false 1
     (result_entry (VStr (lit "Hola.")) (toy_transcription (lit "Hola.")))
     {| total := 3; passed := 0; failed := 0; errors := 0; failures := [] |}
     toy_test_world).1 =
  Ok {| total := 3; passed := 1; failed := 0; errors := 0; failures := [] |}.
Proof.
  split.
  - apply (proj1 (proj2 (compare_results_no_difference toy_engine Strict
                           hola hola_extra))).
    intros section key Hs Hk.
    section_cases Hs; field_cases Hk; eexists; split; vm_compute; reflexivity.
  - etrans.
    { apply (proj2 (proj2 (compare_results_no_difference toy_engine Strict
               (result_entry (VStr (lit "Hola."))
                  (toy_transcription (lit "Hola.")))
               (result_entry (VStr (lit "Hola."))
                  (toy_transcription (lit "Hola.")))))
               1 (VStr (lit "Hola.")) (toy_transcription (lit "Hola."))
               {| total := 3; passed := 0; failed := 0; errors := 0;
                  failures := [] |}
               toy_test_world ∅).
      - by vm_compute.
      - intros [v Hv]. vm_compute in Hv. discriminate Hv.
      - by vm_compute.
      - reflexivity.
      - by vm_compute. }
    by vm_compute.
Defined.


(** C7 on the example corpus. *)
Lemma read_corpus_sentences_witness :
  read_corpus dataset toy_world =
    (Ok [lit "Hola."; lit "bad"; adios], toy_world) ∧
  read_corpus dataset scenario_world =
    (Ok [lit "Hola."; adios], scenario_world).
Proof.
  split.
  - apply (read_corpus_sentences dataset toy_world toy_lines). reflexivity.
  - apply (read_corpus_sentences dataset scenario_world
             [lit "Hola."; lit "# comment"; lit ""; adios]); reflexivity.
Defined.

(** C5 on the example corpus, with the engine that raises on "bad" an
    exception whose text is U+D800, and with either error handler: no
    dataset is returned, and "Adiós" is not given to the engine. *)
Lemma generate_golden_data_aborts_witness :
  let aborts handler :=
    ∃ msg w',
      generate_golden_data lone_engine handler dataset toy_world =
        (Raise (UnicodeEncodeError msg), w') ∧
      utf8_encode handler (lit "  Exception: " ++ exn_str (Exception lone))
        = Raise (UnicodeEncodeError msg) ∧
      engine_state w' =
        (engine_run lone_engine (VStr <$> [lit "Hola."] ++ [lit "bad"]) 0).2
  in
  aborts Strict ∧ aborts SurrogateEscape.
Proof.
  cbn zeta. split.
  - apply (generate_golden_data_aborts lone_engine Strict dataset toy_world
             toy_lines [lit "Hola."] (lit "bad") [adios] (Exception lone)).
    + reflexivity.
    + by_compute.
    + by vm_compute.
    + by_compute.
    + by vm_compute.
    + by_compute.
  - apply (generate_golden_data_aborts lone_engine SurrogateEscape dataset
             toy_world toy_lines [lit "Hola."] (lit "bad") [adios]
             (Exception lone)).
    + reflexivity.
    + by_compute.
    + by vm_compute.
    + by_compute.
    + by vm_compute.
    + by_compute.
Defined.

(** C6 on the example corpus. *)
Lemma generate_then_test_witness :
  let golden_data :=
    zip_with golden_entry (corpus_sentences toy_lines)
      (engine_run toy_engine (VStr <$> corpus_sentences toy_lines) 0).1 in
  length golden_data = 3 ∧
  ∀ verbose, ∃ results w2,
    run_tests toy_engine Strict dataset verbose
      {| engine_state := 3; corpus_file := Some toy_lines;
         golden_file := Some (Ok golden_data) |} = (Ok results, w2) ∧
    total results = length golden_data ∧
    failed results = 0 ∧
    passed results
      = length (filter (λ entry, ¬ is_error_entry entry) golden_data) ∧
    errors results = length (filter is_error_entry golden_data) ∧
    failures results = [].
Proof.
  cbn zeta. split; [reflexivity|]. intros verbose.
  apply (generate_then_test toy_engine toy_json_dump Strict dataset verbose
           toy_world toy_lines).
  - exact toy_engine_deterministic.
  - reflexivity.
  - by_compute.
  - apply (generate_save_run toy_engine toy_json_dump Strict dataset toy_world
             toy_lines).
    + reflexivity.
    + by_compute.
    + by_compute.
    + by vm_compute.
    + by_compute.
Defined.

(** C8 on a world whose golden file holds the empty list. *)
Lemma print_test_summary_empty_dataset_witness :
  print_test_summary Strict
    {| total := 0; passed := 0; failed := 0; errors := 0; failures := [] |}
    = Raise ZeroDivisionError ∧
  main toy_engine toy_json_dump Strict [lit "golden_dataset.py"; lit "test"]
    empty_test_world =
    (Uncaught ZeroDivisionError, empty_test_world).
Proof.
  split.
  - apply (proj1
             (print_test_summary_empty_dataset toy_engine toy_json_dump Strict)).
    reflexivity.
  - apply (proj2
             (print_test_summary_empty_dataset toy_engine toy_json_dump Strict)).
    reflexivity.
Defined.

(** * Further properties *)

(** ** compare_results: what passes and what is reported *)

Lemma for_each_raised {A B} (l : list A) (acc : B) (body : B → A → result B)
    (x0 : A) :
  x0 ∈ l → (∀ acc', raised (body acc' x0)) → raised (for_each l acc body).
Proof.
  revert acc. induction l as [|x l IH]; intros acc Hin Hx0.
  { by apply elem_of_nil in Hin. }
  cbn [for_each]. destruct (body acc x) as [acc'|e] eqn:Hb; cbn; [|done].
  apply elem_of_cons in Hin as [->|Hin].
  - specialize (Hx0 acc). by rewrite Hb in Hx0.
  - by apply IH.
Qed.

Lemma read_field_Ok (d : dict) (section key : str) (v : value) :
  read_field d section key = Ok v ↔ field d section key = Some v.
Proof.
  unfold read_field, field, dict_getitem.
  destruct (d !! section) as [[| | |sd]|]; cbn; try (split; discriminate).
  unfold dict_getitem. destruct (sd !! key); split; congruence.
Qed.

Lemma read_field_None (d : dict) (section key : str) :
  field d section key = None → raised (read_field d section key).
Proof.
  intros Hf. destruct (read_field d section key) as [v|e] eqn:Hr; [|done].
  apply read_field_Ok in Hr. congruence.
Qed.

Lemma compare_field_raised (expected actual : dict) (section key : str)
    (section_diffs : dict) :
  field expected section key = None →
  raised (compare_field expected actual section section_diffs key).
Proof.
  intros Hf. apply read_field_None in Hf. unfold compare_field.
  fold (read_field expected section key).
  by destruct (read_field expected section key).
Qed.

Lemma compare_section_raised (expected actual differences : dict)
    (section key : str) :
  is_Some (actual !! section) → key ∈ fields →
  field expected section key = None →
  raised (compare_section expected actual differences section).
Proof.
  intros [v Hv] Hk Hf. unfold compare_section.
  rewrite decide_False by congruence.
  pose proof (for_each_raised fields ∅
                (compare_field expected actual section) key Hk) as Hr.
  destruct (for_each fields ∅ (compare_field expected actual section));
    [|done].
  exfalso. apply Hr. intros acc. by apply compare_field_raised.
Qed.

Lemma compare_results_raised (expected actual : dict) (section key : str) :
  section ∈ sections → key ∈ fields →
  is_Some (actual !! section) → field expected section key = None →
  raised (compare_results expected actual).
Proof.
  intros Hs Hk Ha Hf. unfold compare_results.
  pose proof (for_each_raised sections ∅
                (compare_section expected actual) section Hs) as Hr.
  destruct (for_each sections ∅ (compare_section expected actual)); [|done].
  exfalso. apply Hr. intros acc. by eapply compare_section_raised.
Qed.

Lemma field_diffs_empty (ew aw es as_ : value) :
  field_diffs ew aw es as_ = ∅ ↔ ew = aw ∧ es = as_.
Proof.
  split.
  - unfold field_diffs. intros H.
    destruct (decide (es ≠ as_)) as [Hs|Hs].
    { by apply insert_non_empty in H. }
    destruct (decide (ew ≠ aw)) as [Hw|Hw].
    { by apply singleton_non_empty in H. }
    split; [by destruct (decide (ew = aw))|by destruct (decide (es = as_))].
  - intros [-> ->]. apply field_diffs_same.
Qed.

Lemma field_diffs_lookup (ew aw es as_ : value) (key : str) :
  field_diffs ew aw es as_ !! key =
  if decide (key = k_syllables)
  then (if decide (es ≠ as_) then Some (diff_entry es as_) else None)
  else if decide (key = k_words)
       then (if decide (ew ≠ aw) then Some (diff_entry ew aw) else None)
       else None.
Proof.
  unfold field_diffs.
  destruct (decide (key = k_syllables)) as [->|Hs].
  - destruct (decide (es ≠ as_)); [by rewrite lookup_insert_eq|].
    destruct (decide (ew ≠ aw)); [|done].
    by rewrite lookup_singleton_ne by key_ne.
  - destruct (decide (es ≠ as_)).
    + rewrite lookup_insert_ne by done.
      destruct (decide (key = k_words)) as [->|Hw].
      * destruct (decide (ew ≠ aw)); [by rewrite lookup_singleton_eq|done].
      * destruct (decide (ew ≠ aw)); [by rewrite lookup_singleton_ne|done].
    + destruct (decide (key = k_words)) as [->|Hw].
      * destruct (decide (ew ≠ aw)); [by rewrite lookup_singleton_eq|done].
      * destruct (decide (ew ≠ aw)); [by rewrite lookup_singleton_ne|done].
Qed.

Lemma foldl_add_section_diff_lookup_any (expected actual : dict)
    (section : str) :
  foldl (add_section_diff expected actual) ∅ sections !! section =
  if decide (section ∈ sections ∧ section_diff expected actual section ≠ ∅)
  then Some (VDict (section_diff expected actual section))
  else None.
Proof.
  destruct (decide (section ∈ sections ∧
                    section_diff expected actual section ≠ ∅)) as [[Hs Hd]|Hn].
  { by apply foldl_add_section_diff_lookup. }
  unfold sections. cbn [foldl]. unfold add_section_diff at 1.
  destruct (decide (section_diff expected actual k_sampa = ∅)) as [_|Hd3].
  2:{ destruct (decide (section = k_sampa)) as [->|Hne3].
      { exfalso. apply Hn. split; [apply elem_of_sections; auto|done]. }
      rewrite lookup_insert_ne by done. revert Hn. clear.
      intros Hn. unfold add_section_diff at 1.
      destruct (decide (section_diff expected actual k_phonetics = ∅))
        as [_|Hd2].
      2:{ destruct (decide (section = k_phonetics)) as [->|Hne2].
          { exfalso. apply Hn. split; [apply elem_of_sections; auto|done]. }
          rewrite lookup_insert_ne by done. unfold add_section_diff.
          destruct (decide (section_diff expected actual k_phonology = ∅))
            as [_|Hd1]; [done|].
          destruct (decide (section = k_phonology)) as [->|Hne1].
          { exfalso. apply Hn. split; [apply elem_of_sections; auto|done]. }
          by rewrite lookup_insert_ne by done. }
      unfold add_section_diff.
      destruct (decide (section_diff expected actual k_phonology = ∅))
        as [_|Hd1]; [done|].
      destruct (decide (section = k_phonology)) as [->|Hne1].
      { exfalso. apply Hn. split; [apply elem_of_sections; auto|done]. }
      by rewrite lookup_insert_ne by done. }
  unfold add_section_diff at 1.
  destruct (decide (section_diff expected actual k_phonetics = ∅)) as [_|Hd2].
  2:{ destruct (decide (section = k_phonetics)) as [->|Hne2].
      { exfalso. apply Hn. split; [apply elem_of_sections; auto|done]. }
      rewrite lookup_insert_ne by done. unfold add_section_diff.
      destruct (decide (section_diff expected actual k_phonology = ∅))
        as [_|Hd1]; [done|].
      destruct (decide (section = k_phonology)) as [->|Hne1].
      { exfalso. apply Hn. split; [apply elem_of_sections; auto|done]. }
      by rewrite lookup_insert_ne by done. }
  unfold add_section_diff.
  destruct (decide (section_diff expected actual k_phonology = ∅))
    as [_|Hd1]; [done|].
  destruct (decide (section = k_phonology)) as [->|Hne1].
  { exfalso. apply Hn. split; [apply elem_of_sections; auto|done]. }
  by rewrite lookup_insert_ne by done.
Qed.

Lemma compare_results_equal_fields (expected actual : dict) :
  (∀ section key, section ∈ sections → key ∈ fields →
     is_Some (field actual section key) ∧
     field expected section key = field actual section key) →
  compare_results expected actual = Ok (VDict ∅).
Proof.
  intros Hsame.
  assert (readable actual) as Ha by (intros s k Hs Hk; by apply Hsame).
  assert (readable expected) as He.
  { intros s k Hs Hk. destruct (Hsame s k Hs Hk) as [? ->]. by apply Ha. }
  rewrite compare_results_readable by done.
  unfold sections. cbn [foldl]. unfold add_section_diff.
  assert (∀ section, section ∈ sections →
            section_diff expected actual section = ∅) as Hd.
  { intros section Hs.
    apply section_diff_same; apply Hsame; try done; apply elem_of_fields; auto. }
  by rewrite !Hd, !decide_True by (done || apply elem_of_sections; auto).
Qed.

Lemma section_diff_empty (expected actual : dict) (section key : str) :
  readable expected → readable actual →
  section ∈ sections → key ∈ fields →
  section_diff expected actual section = ∅ →
  field expected section key = field actual section key.
Proof.
  intros He Ha Hs Hk. unfold section_diff.
  destruct (He section k_words) as [ew Hew]; [done|apply elem_of_fields; auto|].
  destruct (He section k_syllables) as [es Hes];
    [done|apply elem_of_fields; auto|].
  destruct (Ha section k_words) as [aw Haw]; [done|apply elem_of_fields; auto|].
  destruct (Ha section k_syllables) as [as_ Has];
    [done|apply elem_of_fields; auto|].
  rewrite Hew, Hes, Haw, Has. cbn [default].
  intros Hd. apply field_diffs_empty in Hd as [Hw Hsy]. unfold id in Hw, Hsy.
  apply elem_of_fields in Hk as [->| ->]; congruence.
Qed.

Lemma compare_results_empty_iff (expected actual : dict) :
  readable actual →
  compare_results expected actual = Ok (VDict ∅) ↔
  ∀ section key, section ∈ sections → key ∈ fields →
    field expected section key = field actual section key.
Proof.
  intros Ha. split.
  - intros Hc.
    assert (readable expected) as He.
    { intros s k Hs Hk. destruct (field expected s k) as [v|] eqn:Hf; [done|].
      exfalso.
      assert (is_Some (actual !! s)) as Hsome.
      { destruct (Ha s k Hs Hk) as [v Hv].
        apply field_Some in Hv as (sd & -> & _). done. }
      pose proof (compare_results_raised expected actual s k Hs Hk Hsome Hf)
        as Hr.
      by rewrite Hc in Hr. }
    rewrite compare_results_readable in Hc by done.
    assert (foldl (add_section_diff expected actual) ∅ sections = ∅) as Hc'
      by (by injection Hc).
    clear Hc. rename Hc' into Hc. intros section key Hs Hk.
    apply section_diff_empty; try done.
    pose proof (foldl_add_section_diff_lookup_any expected actual section)
      as Hl.
    rewrite Hc, lookup_empty in Hl.
    destruct (decide (section_diff expected actual section = ∅)); [done|].
    by rewrite decide_True in Hl.
  - intros Hsame. apply compare_results_equal_fields.
    intros s k Hs Hk. split; [by apply Ha|by apply Hsame].
Qed.

(** X1. Against an actual result that has the three sections with both
    fields, compare_results returns the empty dict exactly when the six
    fields of the expected result are there and equal to those of the
    actual one. *)
Theorem compare_results_pass_iff_equal (expected actual : dict) :
  readable actual →
  (compare_results expected actual = Ok (VDict ∅) ↔
   ∀ section key, section ∈ sections → key ∈ fields →
     field expected section key = field actual section key) ∧
  (compare_results expected actual = Ok (VDict ∅) → readable expected).
Proof.
  intros Ha. split; [by apply compare_results_empty_iff|].
  intros Hc section key Hs Hk.
  rewrite (proj1 (compare_results_empty_iff expected actual Ha) Hc) by done.
  by apply Ha.
Qed.

(** X2. On two results that have the three sections with both fields,
    compare_results does not raise, and its dict holds a record for a
    field exactly when the two values differ, made of the expected and
    the actual value; it has no key but the names of the sections, and
    a section's dict has no key but [words] and [syllables]. *)
Theorem compare_results_reports_exactly (expected actual : dict) :
  readable expected → readable actual →
  ∃ d,
    compare_results expected actual = Ok (VDict d) ∧
    (∀ section key ev av,
       section ∈ sections → key ∈ fields →
       field expected section key = Some ev →
       field actual section key = Some av →
       field d section key =
       if decide (ev ≠ av) then Some (diff_entry ev av) else None) ∧
    (∀ section v,
       d !! section = Some v →
       section ∈ sections ∧
       ∃ sd, v = VDict sd ∧ sd ≠ ∅ ∧
             ∀ key x, sd !! key = Some x → key ∈ fields).
Proof.
  intros He Ha. rewrite compare_results_readable by done.
  eexists. split; [done|]. split.
  - intros section key ev av Hs Hk Hev Hav. unfold field at 1.
    rewrite foldl_add_section_diff_lookup_any.
    destruct (decide (section ∈ sections ∧
                      section_diff expected actual section ≠ ∅))
      as [[_ Hd]|Hn].
    + unfold section_diff. rewrite field_diffs_lookup.
      apply elem_of_fields in Hk as [->| ->].
      * rewrite decide_False by key_ne. rewrite decide_True by done.
        by rewrite Hev, Hav.
      * rewrite decide_True by done. by rewrite Hev, Hav.
    + assert (section_diff expected actual section = ∅) as Hd.
      { destruct (decide (section_diff expected actual section = ∅));
          [done|]. exfalso. by apply Hn. }
      pose proof (section_diff_empty _ _ _ _ He Ha Hs Hk Hd) as Heq.
      rewrite Hev, Hav in Heq. injection Heq as ->.
      by rewrite decide_False by auto.
  - intros section v. rewrite foldl_add_section_diff_lookup_any.
    destruct (decide (section ∈ sections ∧
                      section_diff expected actual section ≠ ∅))
      as [[Hs Hd]|Hn]; [|done].
    intros [= <-]. split; [done|]. eexists. split; [done|]. split; [done|].
    intros key x. unfold section_diff. rewrite field_diffs_lookup.
    destruct (decide (key = k_syllables)) as [->|_].
    { intros _. apply elem_of_fields. auto. }
    destruct (decide (key = k_words)) as [->|_]; [|done].
    intros _. apply elem_of_fields. auto.
Qed.

Lemma compare_field_read_field (expected1 expected2 actual : dict)
    (section key : str) (section_diffs : dict) :
  read_field expected1 section key = read_field expected2 section key →
  compare_field expected1 actual section section_diffs key =
  compare_field expected2 actual section section_diffs key.
Proof.
  intros H. unfold compare_field.
  fold (read_field expected1 section key).
  fold (read_field expected2 section key). by rewrite H.
Qed.

(** X3. compare_results reads the expected result only at the sections
    that the actual result has: two expected results whose fields
    evaluate the same in those sections give the same comparison. When
    the actual result has none of the three sections, the comparison is
    the three "Section missing" records, whatever is expected. *)
Theorem compare_results_expected_read (expected1 expected2 actual : dict) :
  ((∀ section key, section ∈ sections → key ∈ fields →
      is_Some (actual !! section) →
      read_field expected1 section key = read_field expected2 section key) →
   compare_results expected1 actual = compare_results expected2 actual) ∧
  ((∀ section, section ∈ sections → actual !! section = None) →
   compare_results expected1 actual = Ok (VDict all_sections_missing)).
Proof.
  split.
  - intros H. unfold compare_results.
    rewrite (for_each_ext sections ∅ (compare_section expected1 actual)
               (compare_section expected2 actual)); [done|].
    intros acc section Hs. unfold compare_section.
    destruct (decide (actual !! section = None)) as [|Hsome]; [done|].
    rewrite (for_each_ext fields ∅ (compare_field expected1 actual section)
               (compare_field expected2 actual section)); [done|].
    intros acc' key Hk. apply compare_field_read_field, H; try done.
    by destruct (actual !! section).
  - intros Hnone. unfold compare_results, sections. cbn [for_each].
    rewrite !compare_section_missing
      by (apply Hnone, elem_of_sections; auto).
    cbn [mbind result_bind]. rewrite compare_section_missing
      by (apply Hnone, elem_of_sections; auto).
    cbn [mbind result_bind]. rewrite compare_section_missing
      by (apply Hnone, elem_of_sections; auto).
    cbn [mbind result_bind]. by vm_compute.
Qed.

(** ** run_tests: failures, exceptions, files *)

Lemma compare_results_raises_key_error (expected actual : dict)
    (section key : str) :
  sections_are_dicts expected → sections_are_dicts actual →
  section ∈ sections → is_Some (actual !! section) → key ∈ fields →
  field expected section key = None ∨ field actual section key = None →
  raises_key_error (compare_results expected actual).
Proof.
  intros He Ha Hs Hsome Hk Hnone.
  destruct (for_each_raises_key_error sections ∅
              (compare_section expected actual) section) as [k Hr].
  - intros acc s Hin. by apply compare_section_ok_or_key_error.
  - done.
  - intros acc. by eapply compare_section_raises_key_error.
  - exists k. unfold compare_results. by rewrite Hr.
Qed.

Lemma result_entry_sections_are_dicts (sentence : value) (t : transcription) :
  sections_are_dicts (result_entry sentence t).
Proof.
  intros section v Hs Hv.
  apply elem_of_sections in Hs as [->|[->| ->]];
    vm_compute in Hv; injection Hv as <-; by eexists.
Qed.

Lemma count_compared_failures (i : nat) (expected : dict) (sentence : value)
    (r : result transcription) (results : RunSummary) :
  ∃ new,
    failures (count_compared i expected sentence r results) =
      failures results ++ new ∧
    length new ≤ 1 ∧
    Forall (λ f, failure_index f = i ∧ failure_sentence f = sentence) new.
Proof.
  unfold count_compared. destruct r as [t|e].
  - destruct (compare_results expected (result_entry sentence t)) as [v|e].
    + destruct (truthy v).
      * eexists [_]. cbn. split; [done|]. split; [lia|]. by repeat constructor.
      * exists []. cbn. rewrite app_nil_r. split; [done|]. split; [lia|done].
    + eexists [_]. cbn. split; [done|]. split; [lia|]. by repeat constructor.
  - eexists [_]. cbn. split; [done|]. split; [lia|]. by repeat constructor.
Qed.

Section FurtherHarnessProperties.
Context {Eng : Type}.
Variable Transcription : value → Eng → result transcription * Eng.
Variable json_dump : list dict → option (exn * exn).
Variable stdout_errors : errors_handler.
Implicit Types w : @world Eng.

Lemma run_tests_loop_failures (i : nat) (golden_data : list dict)
    (results : RunSummary) w :
  Forall has_input golden_data →
  ∃ results' w' new,
    for_enumerate i golden_data results
      (run_tests_entry Transcription stdout_errors false) w =
      (Ok results', w') ∧
    failures results' = failures results ++ new ∧
    Forall (λ f, i ≤ failure_index f ∧
                 ∃ entry, golden_data !! (failure_index f - i) = Some entry ∧
                          ¬ is_error_entry entry ∧
                          entry !! k_input = Some (failure_sentence f)) new ∧
    StronglySorted lt (failure_index <$> new).
Proof.
  intros Hin. revert i results w.
  induction Hin as [|expected golden_data [sentence Hi] _ IH];
    intros i results w.
  { exists results, w, []. cbn. rewrite app_nil_r.
    repeat split; constructor. }
  cbn [for_enumerate]. unfold mbind, M_bind.
  assert (∀ new : list failure,
    Forall (λ f, S i ≤ failure_index f ∧
                 ∃ entry, golden_data !! (failure_index f - S i) = Some entry ∧
                          ¬ is_error_entry entry ∧
                          entry !! k_input = Some (failure_sentence f)) new →
    Forall (λ f, i ≤ failure_index f ∧
                 ∃ entry, (expected :: golden_data) !! (failure_index f - i)
                            = Some entry ∧
                          ¬ is_error_entry entry ∧
                          entry !! k_input = Some (failure_sentence f)) new ∧
    Forall (lt i) (failure_index <$> new)) as Hshift.
  { intros new Hnew. split.
    - eapply Forall_impl; [exact Hnew|]. intros f [Hle (entry & Hl & He)].
      split; [lia|]. exists entry. split; [|done].
      replace (failure_index f - i) with (S (failure_index f - S i)) by lia.
      done.
    - apply Forall_fmap. eapply Forall_impl; [exact Hnew|].
      intros f [Hle _]. cbn. lia. }
  destruct (decide (is_error_entry expected)) as [He|He].
  - rewrite (run_tests_entry_skipped _ _ false _ _ _ _ _ Hi He) by done.
    destruct (IH (S i) (count_skipped results) w)
      as (results' & w' & new & -> & Hf & Hnew & Hsorted).
    exists results', w', new. split; [done|]. split; [done|].
    split; [by apply Hshift|done].
  - rewrite (run_tests_entry_compared _ _ _ _ _ _ _ Hi He).
    destruct (count_compared_failures i expected sentence
                (Transcription sentence (engine_state w)).1 results)
      as (new1 & Hf1 & Hlen1 & Hnew1).
    destruct (IH (S i)
                (count_compared i expected sentence
                   (Transcription sentence (engine_state w)).1 results)
                (with_engine_state
                   (Transcription sentence (engine_state w)).2 w))
      as (results' & w' & new2 & -> & Hf2 & Hnew2 & Hsorted2).
    destruct (Hshift new2 Hnew2) as [Hnew2' Hlt2].
    exists results', w', (new1 ++ new2). split; [done|].
    split; [by rewrite Hf2, Hf1, <- app_assoc|].
    destruct new1 as [|f [|]]; cbn in Hlen1; try lia.
    { by split. }
    apply Forall_cons in Hnew1 as [[Hfi Hfs] _]. split.
    + constructor; [|done]. split; [lia|]. exists expected.
      rewrite Hfi, Nat.sub_diag. by rewrite Hfs.
    + cbn. constructor; [done|]. by rewrite Hfi.
Qed.

(** X4. Without [verbose], the failure records of run_tests point to
    their entries: on a golden dataset whose entries all have their
    [input], the [index] of every record is the position of an entry,
    counted from 1, that is not the error variant, its [sentence] is
    the [input] of that entry, and the records are in the order of the
    dataset, one at most per entry. *)
Theorem run_tests_failures_indexed (self : GoldenDataset) w
    (golden_data : list dict) :
  golden_file w = Some (Ok golden_data) →
  Forall has_input golden_data →
  ∃ results w',
    run_tests Transcription stdout_errors self false w = (Ok results, w') ∧
    Forall (λ f, 1 ≤ failure_index f ≤ length golden_data ∧
                 ∃ entry, golden_data !! (failure_index f - 1) = Some entry ∧
                          ¬ is_error_entry entry ∧
                          entry !! k_input = Some (failure_sentence f))
      (failures results) ∧
    StronglySorted lt (failure_index <$> failures results).
Proof.
  intros Hg Hin.
  unfold run_tests, mbind at 1, M_bind at 1, load_golden_data. rewrite Hg.
  destruct (run_tests_loop_failures 1 golden_data
              {| total := length golden_data; passed := 0; failed := 0;
                 errors := 0; failures := [] |} w Hin)
    as (results & w' & new & -> & Hf & Hnew & Hsorted).
  cbn in Hf. subst new. exists results, w'. split; [done|]. split; [|done].
  eapply Forall_impl; [exact Hnew|]. intros f [Hle (entry & Hl & He)].
  split; [|by exists entry]. split; [done|].
  apply lookup_lt_Some in Hl. lia.
Qed.

(** X5. Without [verbose], inside the loop of run_tests every exception
    is an error of the entry: when the engine raises, the entry is
    counted in [errors] with [str(e)] in its failure record; and when
    the engine answers but the golden entry, with dicts for sections,
    lacks a section or a field, the KeyError of the comparison is
    counted the same way, not as a failure. *)
Theorem run_tests_entry_exceptions (i : nat) (expected : dict)
    (sentence : value) (results : RunSummary) w :
  expected !! k_input = Some sentence →
  ¬ is_error_entry expected →
  (∀ e, (Transcription sentence (engine_state w)).1 = Raise e →
        (run_tests_entry Transcription stdout_errors
            false i expected results w).1 =
        Ok {| total := total results;
              passed := passed results;
              failed := failed results;
              errors := errors results + 1;
              failures := failures results
                          ++ [FailureError i sentence (exn_str e)] |}) ∧
  (∀ t section key,
     (Transcription sentence (engine_state w)).1 = Ok t →
     sections_are_dicts expected →
     section ∈ sections → key ∈ fields →
     field expected section key = None →
     ∃ key', (run_tests_entry Transcription stdout_errors
         false i expected results w).1 =
             Ok (count_exception i sentence (KeyError key') results)).
Proof.
  intros Hi He. rewrite (run_tests_entry_compared _ _ _ _ _ _ _ Hi He).
  cbn [fst]. unfold count_compared. split.
  - by intros e ->.
  - intros t section key -> Hd Hs Hk Hf.
    destruct (compare_results_raises_key_error expected
                (result_entry sentence t) section key) as [key' ->];
      try done.
    + apply result_entry_sections_are_dicts.
    + destruct (result_entry_readable sentence t section key Hs Hk) as [v Hv].
      apply field_Some in Hv as (sd & -> & _). done.
    + by left.
    + by exists key'.
Qed.

Lemma run_tests_loop_abort (i : nat) (pre : list dict) (bad : dict)
    (post : list dict) (results : RunSummary) w :
  Forall has_input pre → bad !! k_input = None →
  for_enumerate i (pre ++ bad :: post) results
    (run_tests_entry Transcription stdout_errors false) w =
  (Raise (KeyError (repr k_input)),
   with_engine_state
     (engine_run Transcription (transcribed_inputs pre) (engine_state w)).2 w).
Proof.
  intros Hin Hbad. revert i results w.
  induction Hin as [|expected pre [sentence Hi] _ IH]; intros i results w.
  { cbn [app for_enumerate]. unfold mbind, M_bind.
    rewrite (run_tests_entry_no_input _ _ _ _ _ _ _ Hbad).
    cbn. by rewrite with_engine_state_id. }
  cbn [app for_enumerate]. unfold mbind, M_bind.
  destruct (decide (is_error_entry expected)) as [He|He].
  - rewrite (run_tests_entry_skipped _ _ false _ _ _ _ _ Hi He) by done.
    rewrite (transcribed_inputs_skipped _ _ He). apply IH.
  - rewrite (run_tests_entry_compared _ _ _ _ _ _ _ Hi He).
    rewrite (transcribed_inputs_compared _ _ _ Hi He), engine_run_cons.
    rewrite IH. done.
Qed.

(** X6. An entry without ["input"] ends run_tests with KeyError, also
    when the entry has an ["error"]: without [verbose], the entries
    before it have been run through the engine, the ones after it are
    not looked at, and no summary is returned; the test command then
    ends with the exception uncaught. The text of the KeyError is
    ['input'], with its quotes. *)
Theorem run_tests_entry_without_input (pre : list dict) (bad : dict)
    (post : list dict) w (prog : str) (rest : list str) :
  golden_file w = Some (Ok (pre ++ bad :: post)) →
  Forall has_input pre → bad !! k_input = None →
  verbose_flag (prog :: lit "test" :: rest) = false →
  let w' :=
    with_engine_state
      (engine_run Transcription (transcribed_inputs pre) (engine_state w)).2
      w in
  run_tests Transcription stdout_errors dataset false w
    = (Raise (KeyError (lit "'input'")), w') ∧
  main Transcription json_dump stdout_errors (prog :: lit "test" :: rest) w =
    (Uncaught (KeyError (lit "'input'")), w').
Proof.
  intros Hg Hin Hbad Hv. cbn zeta.
  assert (run_tests Transcription stdout_errors dataset false w =
          (Raise (KeyError (lit "'input'")),
           with_engine_state
             (engine_run Transcription (transcribed_inputs pre)
                (engine_state w)).2 w)) as Hrun.
  { unfold run_tests, mbind at 1, M_bind at 1, load_golden_data. rewrite Hg.
    by rewrite run_tests_loop_abort. }
  split; [done|]. rewrite main_test, Hv. unfold mbind, M_bind.
  by rewrite Hrun.
Qed.

Lemma run_tests_except_world (verbose : bool) (i : nat) (sentence : value)
    (e : exn) (results : RunSummary) w :
  (run_tests_except stdout_errors verbose i sentence e results w).2 = w.
Proof.
  unfold run_tests_except, mbind, M_bind, lift, mret, M_ret.
  destruct verbose; repeat case_match; by simplify_eq/=.
Qed.

Lemma run_tests_entry_world (verbose : bool) (i : nat) (expected : dict)
    (results : RunSummary) w :
  ∃ st, (run_tests_entry Transcription stdout_errors
      verbose i expected results w).2
        = with_engine_state st w.
Proof.
  unfold run_tests_entry, mbind at 1, M_bind at 1, lift at 1.
  destruct (dict_getitem expected k_input) as [sentence|e].
  2:{ exists (engine_state w). by rewrite with_engine_state_id. }
  destruct (decide (is_Some (expected !! k_error))).
  { exists (engine_state w). rewrite with_engine_state_id.
    unfold mbind, M_bind, lift, mret, M_ret.
    repeat case_match; by simplify_eq/=. }
  exists (Transcription sentence (engine_state w)).2.
  unfold mbind, M_bind, lift. rewrite transcribe_sentence_run.
  destruct ((Transcription sentence (engine_state w)).1) as [t|e].
  2:{ by rewrite run_tests_except_world. }
  destruct (compare_results expected (result_entry sentence t))
    as [differences|e].
  2:{ by rewrite run_tests_except_world. }
  destruct (run_tests_record stdout_errors
      verbose i sentence differences results)
    as [results' [[]|e]]; [done|].
  by rewrite run_tests_except_world.
Qed.

Lemma run_tests_loop_files (verbose : bool) (i : nat)
    (golden_data : list dict) (results : RunSummary) w :
  corpus_file
    (for_enumerate i golden_data results
       (run_tests_entry Transcription stdout_errors verbose) w).2
    = corpus_file w ∧
  golden_file
    (for_enumerate i golden_data results
       (run_tests_entry Transcription stdout_errors verbose) w).2
    = golden_file w.
Proof.
  revert i results w.
  induction golden_data as [|expected golden_data IH]; intros i results w;
    [done|].
  cbn [for_enumerate]. unfold mbind, M_bind.
  destruct (run_tests_entry_world verbose i expected results w) as [st Hw].
  destruct (run_tests_entry Transcription stdout_errors
      verbose i expected results w)
    as [[results'|e] w1]; cbn [snd] in *; subst w1.
  - destruct (IH (S i) results' (with_engine_state st w)) as [-> ->].
    by split.
  - by split.
Qed.

(** X7. run_tests writes no file: with or without [verbose], whatever
    the golden dataset holds and whatever the engine does, also when
    the run ends with an exception, the corpus file and the golden
    file are afterwards what they were. *)
Theorem run_tests_writes_nothing (self : GoldenDataset) (verbose : bool) w :
  corpus_file (run_tests Transcription stdout_errors self verbose w).2
      = corpus_file w ∧
  golden_file (run_tests Transcription stdout_errors self verbose w).2
      = golden_file w.
Proof.
  unfold run_tests, mbind, M_bind, load_golden_data.
  destruct (golden_file w) as [[golden_data|e]|] eqn:Hg; [|by cbn..].
  destruct (run_tests_loop_files verbose 1 golden_data
              {| total := length golden_data; passed := 0; failed := 0;
                 errors := 0; failures := [] |} w) as [-> ->].
  by split.
Qed.

End FurtherHarnessProperties.

(** ** main *)

Lemma filter_length_0 {A} (P : A → Prop) `{!∀ x, Decision (P x)} (l : list A) :
  length (filter P l) = 0 ↔ Forall (λ x, ¬ P x) l.
Proof.
  induction l as [|x l IH]; [by split|].
  rewrite filter_cons, Forall_cons. destruct (decide (P x)); cbn.
  - split; [lia|tauto].
  - rewrite IH. tauto.
Qed.

Lemma lower_char_refused (handler : errors_handler) (c : N) :
  refused handler (lower_char c) = refused handler c.
Proof.
  unfold lower_char.
  destruct ((65 <=? c) && (c <=? 90))%N eqn:Hc; [|done].
  apply andb_true_iff in Hc as [H1%N.leb_le H2%N.leb_le].
  unfold refused, surrogate.
  rewrite (proj2 (N.leb_gt 55296 (c + 32))) by lia.
  by rewrite (proj2 (N.leb_gt 55296 c)) by lia.
Qed.

(** [lower] keeps the surrogates and makes none. *)
Lemma lower_writable (handler : errors_handler) (s : str) :
  writable handler (lower s) ↔ writable handler s.
Proof.
  unfold lower, writable. induction s as [|c s IH]; [done|].
  cbn [mbind list_bind]. rewrite Forall_app, Forall_cons, IH.
  destruct (c =? 304)%N eqn:Hc.
  - apply N.eqb_eq in Hc as ->.
    split; [intros [_ ?]; by split|].
    intros [_ ?]. split; [|done]. by destruct handler; by_compute.
  - rewrite Forall_singleton, lower_char_refused. done.
Qed.

Section MainProperties.
Context {Eng : Type}.
Variable Transcription : value → Eng → result transcription * Eng.
Variable json_dump : list dict → option (exn * exn).
Variable stdout_errors : errors_handler.
Implicit Types w : @world Eng.


Lemma main_generate_Ok (prog : str) (rest : list str) w (lines : list str)
    w1 :
  corpus_file w = Some lines →
  main Transcription json_dump stdout_errors (prog :: lit "generate" :: rest) w
    = (SysExit 0, w1) →
  w1 = {| engine_state :=
            (engine_run Transcription (VStr <$> corpus_sentences lines)
               (engine_state w)).2;
          corpus_file := Some lines;
          golden_file :=
            Some (Ok (zip_with golden_entry (corpus_sentences lines)
                        (engine_run Transcription
                           (VStr <$> corpus_sentences lines)
                           (engine_state w)).1)) |}.
Proof.
  intros Hc. rewrite main_generate. unfold mbind, M_bind.
  destruct (generate_golden_data Transcription stdout_errors dataset w)
    as [[golden_data|e] w0] eqn:Hgen; [|discriminate].
  apply (generate_golden_data_Ok Transcription stdout_errors
      dataset w lines) in Hgen
    as [-> ->]; [|done].
  rewrite save_golden_data_dataset. cbn. rewrite Hc.
  destruct (json_dump _) as [[e e']|]; [discriminate|]. by intros [= <-].
Qed.

(** X8. The runs that cannot start leave everything as it was. Without
    a command, main exits with status 1. With a command that is
    neither "generate" nor "test" in any letter case, the process ends
    with status 1: by [sys.exit(1)], or, when the command holds a
    surrogate that standard output cannot write, by the
    UnicodeEncodeError of the line that names the command. The test command without a golden file, and the generate
    command without a corpus file, end with FileNotFoundError uncaught
    (the first with the advice to run generate). In all of them the
    engine is not called and no file is written: the golden file is
    not touched. *)
Theorem main_cannot_start w :
  main Transcription json_dump stdout_errors [] w = (SysExit 1, w) ∧
  (∀ prog,
     main Transcription json_dump stdout_errors [prog] w = (SysExit 1, w)) ∧
  (∀ prog arg rest,
     lower arg ≠ lit "generate" → lower arg ≠ lit "test" →
     (main Transcription json_dump stdout_errors (prog :: arg :: rest) w).2
         = w ∧
     exit_status
       (main Transcription json_dump stdout_errors
          (prog :: arg :: rest) w).1 = 1%Z ∧
     (writable stdout_errors arg →
      main Transcription json_dump stdout_errors (prog :: arg :: rest) w
          = (SysExit 1, w)) ∧
     (¬ writable stdout_errors arg →
      ∃ msg,
        main Transcription json_dump stdout_errors (prog :: arg :: rest) w
          = (Uncaught (UnicodeEncodeError msg), w))) ∧
  (∀ prog rest,
     golden_file w = None →
     main Transcription json_dump stdout_errors (prog :: lit "test" :: rest) w =
     (Uncaught (FileNotFoundError golden_missing_message), w)) ∧
  (∀ prog rest,
     corpus_file w = None →
     ∃ msg,
       main Transcription json_dump stdout_errors
         (prog :: lit "generate" :: rest) w
       = (Uncaught (FileNotFoundError msg), w)).
Proof.
  split; [done|]. split; [done|]. split; [|split].
  - intros prog arg rest Hg Ht. unfold main. rewrite !decide_False by done.
    destruct (decide (writable stdout_errors arg)) as [He|He].
    + rewrite print_line_ok;
        [|by_compute|by apply lower_writable|by_compute].
      by repeat split.
    + destruct (print_line_raises stdout_errors (lit "Unknown command: ")
                  (lower arg) [])
        as [msg ->]; [by rewrite lower_writable|].
      repeat split; [done|]. intros _. by exists msg.
  - intros prog rest Hg. rewrite main_test.
    unfold mbind, M_bind, run_tests, mbind, M_bind, load_golden_data.
    rewrite Hg. do 3 f_equal.
  - intros prog rest Hc. rewrite main_generate.
    unfold mbind, M_bind, generate_golden_data, mbind, M_bind, read_corpus.
    rewrite Hc. by eexists.
Qed.


Lemma engine_run_deterministic (args : list value) (st st0 : Eng) :
  deterministic Transcription →
  (engine_run Transcription args st).1 =
  (λ x, (Transcription x st0).1) <$> args.
Proof.
  intros Hdet. revert st. induction args as [|x args IH]; intros st; [done|].
  rewrite engine_run_cons. cbn. by rewrite IH, (Hdet x st st0).
Qed.

(** X10. With a deterministic engine, after a generate command that
    ended with [sys.exit(0)], the test command, with or without
    [verbose], ends with exit status 0 exactly when the corpus has at
    least one sentence and the engine raises on none of them. *)
Theorem main_generate_then_test (prog prog' : str) (rest rest' : list str) w
    (lines : list str) w1 :
  deterministic Transcription →
  corpus_file w = Some lines →
  Forall (writable stdout_errors) lines →
  main Transcription json_dump stdout_errors (prog :: lit "generate" :: rest) w
    = (SysExit 0, w1) →
  exit_status
    (main Transcription json_dump stdout_errors
        (prog' :: lit "test" :: rest') w1).1 = 0%Z ↔
  corpus_sentences lines ≠ [] ∧
  Forall (λ sentence,
            ¬ raised (Transcription (VStr sentence) (engine_state w)).1)
    (corpus_sentences lines).
Proof.
  intros Hdet Hc Hl Hgen.
  rewrite (main_generate_Ok prog rest w lines w1 Hc Hgen).
  rewrite main_test.
  set (sentences := corpus_sentences lines).
  set (responses :=
         (engine_run Transcription (VStr <$> sentences) (engine_state w)).1).
  unfold mbind at 1, M_bind at 1, run_tests, mbind at 1, M_bind at 1,
    load_golden_data. cbn [golden_file].
  destruct (run_tests_loop_generated Transcription stdout_errors
              (verbose_flag (prog' :: lit "test" :: rest')) 1 sentences
              (engine_state w)
              {| total := length (zip_with golden_entry sentences responses);
                 passed := 0; failed := 0; errors := 0; failures := [] |}
              {| engine_state :=
                   (engine_run Transcription (VStr <$> sentences)
                      (engine_state w)).2;
                 corpus_file := Some lines;
                 golden_file :=
                   Some (Ok (zip_with golden_entry sentences responses)) |}
              Hdet (corpus_sentences_writable _ lines Hl))
    as (results & w2 & Hrun & Ht & _ & Hf & He & Hfl).
  fold responses in Hrun, He. rewrite Hrun. cbn in Ht, Hf, He, Hfl.
  assert (length sentences = length responses) as Hlen.
  { unfold responses. by rewrite engine_run_length, length_fmap. }
  rewrite (proj1 (zip_golden_entry_counts sentences responses Hlen)) in He.
  rewrite length_zip_with, <- Hlen, Nat.min_id in Ht.
  assert (errors results = 0 ↔
          Forall (λ sentence,
                    ¬ raised (Transcription (VStr sentence) (engine_state w)).1)
            sentences) as Herr.
  { rewrite He, filter_length_0. unfold responses.
    rewrite (engine_run_deterministic _ _ (engine_state w) Hdet).
    by rewrite <- list_fmap_compose, Forall_fmap. }
  unfold lift.
  destruct (decide (total results = 0)) as [H0|H0].
  - unfold print_test_summary, true_div.
    rewrite (decide_True (P := total results = 0)) by done. cbn.
    split; [done|]. intros [Hne _]. exfalso. apply Hne.
    apply length_zero_iff_nil. lia.
  - rewrite print_test_summary_no_failure by done. cbn.
    destruct (decide (failed results = 0 ∧ errors results = 0)) as [[_ H]|H].
    + split; [|done]. intros _. split; [|by apply Herr].
      intros Hnil. apply H0. by rewrite Ht, Hnil.
    + split; [done|]. intros [_ Hall]. exfalso. apply H.
      split; [done|by apply Herr].
Qed.

End MainProperties.

(** ** read_corpus: the sentences *)

Lemma lstrip_id (s : str) :
  (∀ c, head s = Some c → isspace c = false) → lstrip s = s.
Proof.
  destruct s as [|c s]; [done|]. intros H. cbn. by rewrite (H c).
Qed.

Lemma rstrip_id (s : str) :
  (∀ c, last s = Some c → isspace c = false) → rstrip s = s.
Proof.
  intros H. unfold rstrip. rewrite lstrip_id.
  - apply reverse_involutive.
  - intros c. rewrite head_reverse. apply H.
Qed.

Lemma strip_clean (line : str) :
  strip line ≠ [] → head (strip line) ≠ Some 35%N →
  clean_sentence (strip line).
Proof.
  intros Hne Hhead. destruct (strip_trimmed line) as (l & r & _ & _ & _ & Hh & Hl).
  split; [done|]. split; [done|]. split; [|done].
  unfold strip at 1. rewrite (lstrip_id (strip line)) by done.
  by apply rstrip_id.
Qed.

Lemma corpus_sentences_clean (lines : list str) :
  Forall clean_sentence lines → corpus_sentences lines = lines.
Proof.
  unfold corpus_sentences. induction 1 as [|s lines Hs _ IH]; [done|].
  destruct Hs as (Hne & Hhead & Hstrip & _).
  cbn [fmap list_fmap]. rewrite filter_cons, Hstrip.
  rewrite decide_True by done. by rewrite IH.
Qed.

(** X11. Every sentence that read_corpus returns is not empty, does not
    start with [#], and has no white space at either end, so that
    stripping it again changes nothing; and reading the sentences as a
    corpus gives them back. *)
Theorem read_corpus_lines_clean (lines : list str) :
  Forall clean_sentence (read_corpus_lines lines) ∧
  read_corpus_lines (read_corpus_lines lines) = read_corpus_lines lines.
Proof.
  assert (Forall clean_sentence (read_corpus_lines lines)) as H.
  { rewrite read_corpus_lines_sentences. unfold corpus_sentences.
    apply Forall_forall. intros s [[Hne Hhead] Hin]%list_elem_of_filter.
    apply list_elem_of_fmap in Hin as (line & -> & _). by apply strip_clean. }
  split; [done|].
  rewrite (read_corpus_lines_sentences (read_corpus_lines lines)).
  by apply corpus_sentences_clean.
Qed.

Lemma head_rstrip (t : str) :
  (∀ c, head t = Some c → isspace c = false) → head (rstrip t) = head t.
Proof.
  intros H. destruct (rstrip_spec t) as (r & Heq & Hr & _).
  destruct t as [|c t]; [done|].
  destruct (rstrip (c :: t)) as [|c' t'] eqn:Hrs.
  - cbn in Heq. subst r. apply Forall_cons in Hr as [Hc _].
    by rewrite (H c) in Hc.
  - cbn in Heq. by injection Heq as -> _.
Qed.

Lemma head_strip (line : str) : head (strip line) = head (lstrip line).
Proof.
  unfold strip. apply head_rstrip.
  by destruct (lstrip_spec line) as (l & _ & _ & Hh).
Qed.

(** X12. read_corpus treats each line on its own: the sentences of two
    lists of lines one after the other are the sentences of the first
    followed by those of the second. A line gives its stripped text
    when its first character that is not white space is not [#], and
    nothing when that character is [#] or the line is all white
    space. *)
Theorem read_corpus_lines_per_line (lines1 lines2 : list str) (line : str) :
  read_corpus_lines (lines1 ++ lines2) =
    read_corpus_lines lines1 ++ read_corpus_lines lines2 ∧
  read_corpus_lines [line] =
    match head (lstrip line) with
    | Some c => if decide (c = 35%N) then [] else [strip line]
    | None => []
    end.
Proof.
  rewrite !read_corpus_lines_sentences. unfold corpus_sentences. split.
  - by rewrite fmap_app, filter_app.
  - cbn [fmap list_fmap]. rewrite filter_cons, filter_nil.
    rewrite <- head_strip.
    destruct (strip line) as [|c s] eqn:Hs; cbn [head].
    + by rewrite decide_False by (by intros [? _]).
    + destruct (decide (c = 35%N)) as [->|Hc].
      * by rewrite decide_False by (by intros [_ ?]).
      * rewrite decide_True; [done|]. split; [done|]. congruence.
Qed.

(** ** The pytest suite and the harness *)

Lemma and_then_passed (o rest : test_outcome) :
  and_then o rest = TestPassed ↔ o = TestPassed ∧ rest = TestPassed.
Proof. destruct o; cbn; split; try done; by intros [? ?]. Qed.

Lemma assert_field_passed (expected actual : dict) (sentence : value)
    (section key message : str) :
  is_Some (field actual section key) →
  assert_field expected actual sentence section key message = TestPassed ↔
  field expected section key = field actual section key.
Proof.
  intros [av Hav]. unfold assert_field.
  fold (read_field actual section key). fold (read_field expected section key).
  rewrite (proj2 (read_field_Ok _ _ _ _) Hav), Hav. cbn.
  destruct (read_field expected section key) as [ev|e] eqn:He; cbn.
  - apply read_field_Ok in He. rewrite He.
    case_bool_decide; split; try done; congruence.
  - split; [done|]. intros Hf. apply read_field_Ok in Hf. congruence.
Qed.

Lemma field_test_result_entry (sentence : value) (t : transcription)
    (section key : str) :
  section ∈ sections → key ∈ fields →
  field (test_result_entry t) section key =
  field (result_entry sentence t) section key.
Proof.
  intros Hs Hk.
  apply elem_of_sections in Hs as [->|[->| ->]];
    apply elem_of_fields in Hk as [->| ->]; by vm_compute.
Qed.

Lemma count_compared_passed (i : nat) (expected : dict) (sentence : value)
    (t : transcription) (results : RunSummary) :
  count_compared i expected sentence (Ok t) results = count_passed results ↔
  compare_results expected (result_entry sentence t) = Ok (VDict ∅).
Proof.
  unfold count_compared.
  destruct (compare_results expected (result_entry sentence t)) as [v|e] eqn:Hc.
  - destruct (compare_results_is_dict _ _ _ Hc) as [d ->]. unfold truthy.
    case_bool_decide as Hd; cbn.
    + subst d. by split.
    + split; [|congruence]. intros H. apply (f_equal passed) in H.
      cbn in H. lia.
  - split; [|done]. intros H. apply (f_equal passed) in H. cbn in H. lia.
Qed.

Lemma assert_entry_structure_result_entry (sentence : value)
    (t : transcription) :
  assert_entry_structure (result_entry sentence t) = TestPassed.
Proof. by vm_compute. Qed.

Lemma test_golden_dataset_structure_passed (golden_data : list dict) :
  Forall (λ entry, assert_entry_structure entry = TestPassed) golden_data →
  test_golden_dataset_structure golden_data = TestPassed.
Proof.
  intros H. unfold test_golden_dataset_structure.
  assert (Forall (λ entry, assert_entry_structure entry = TestPassed)
            (take 5 golden_data)) as H5 by by apply Forall_take.
  induction H5 as [|entry l He _ IH]; [done|].
  cbn [foldr]. by rewrite He.
Qed.

Section PytestProperties.
Context {Eng : Type}.
Variable Transcription : value → Eng → result transcription * Eng.
Variable json_dump : list dict → option (exn * exn).
Variable stdout_errors : errors_handler.
Implicit Types w : @world Eng.

Lemma test_transcribe_sentence_run (sentence : value) w :
  test_transcribe_sentence Transcription sentence w =
  (match (Transcription sentence (engine_state w)).1 with
   | Ok t => Ok (test_result_entry t)
   | Raise e => Raise e
   end,
   with_engine_state (Transcription sentence (engine_state w)).2 w).
Proof.
  unfold test_transcribe_sentence, call_engine, mbind, M_bind.
  by destruct (Transcription sentence (engine_state w)) as [[t|e] st].
Qed.

Lemma test_transcription_passed (entry : dict) (sentence : value)
    (t : transcription) w :
  entry !! k_input = Some sentence →
  (Transcription sentence (engine_state w)).1 = Ok t →
  (test_transcription_matches_golden Transcription entry w).1 = TestPassed ↔
  ∀ section key, section ∈ sections → key ∈ fields →
    field entry section key = field (result_entry sentence t) section key.
Proof.
  intros Hi Ht. unfold test_transcription_matches_golden, dict_getitem.
  rewrite Hi, test_transcribe_sentence_run, Ht. cbn [fst].
  rewrite !and_then_passed.
  rewrite !assert_field_passed
    by (rewrite (field_test_result_entry sentence)
          by (apply elem_of_sections || apply elem_of_fields; auto);
        apply result_entry_readable;
        (apply elem_of_sections || apply elem_of_fields); auto).
  rewrite !(field_test_result_entry sentence)
    by (apply elem_of_sections || apply elem_of_fields; auto).
  split.
  - intros (H1 & H2 & H3 & H4 & H5 & H6) section key Hs Hk.
    apply elem_of_sections in Hs as [->|[->| ->]];
      apply elem_of_fields in Hk as [->| ->]; done.
  - intros H.
    repeat split; apply H;
      (apply elem_of_sections || apply elem_of_fields); auto.
Qed.

(** X13. The pytest test and the harness agree on what passes: for a
    golden entry without ["error"], test_transcription_matches_golden
    passes exactly when run_tests, without [verbose], counts the entry
    as passed, and the two call the engine in the same way. *)
Theorem pytest_agrees_with_run_tests (entry : dict) (i : nat)
    (results : RunSummary) w :
  ¬ is_error_entry entry →
  ((test_transcription_matches_golden Transcription entry w).1 = TestPassed ↔
   (run_tests_entry Transcription stdout_errors false i entry results w).1 =
     Ok (count_passed results)) ∧
  engine_state (test_transcription_matches_golden Transcription entry w).2 =
  engine_state (run_tests_entry Transcription stdout_errors
      false i entry results w).2.
Proof.
  intros He. destruct (entry !! k_input) as [sentence|] eqn:Hi.
  2:{ rewrite (run_tests_entry_no_input _ _ _ _ _ _ _ Hi).
      unfold test_transcription_matches_golden, dict_getitem. rewrite Hi.
      by split. }
  rewrite (run_tests_entry_compared _ _ _ _ _ _ _ Hi He). cbn [fst snd].
  destruct ((Transcription sentence (engine_state w)).1) as [t|e] eqn:Ht.
  - split.
    + rewrite (test_transcription_passed entry sentence t w Hi Ht).
      rewrite <- compare_results_empty_iff by apply result_entry_readable.
      rewrite <- (count_compared_passed i entry sentence t results).
      split; congruence.
    + unfold test_transcription_matches_golden, dict_getitem.
      by rewrite Hi, test_transcribe_sentence_run, Ht.
  - unfold test_transcription_matches_golden, dict_getitem.
    rewrite Hi, test_transcribe_sentence_run, Ht. cbn. split; [|done].
    split; [done|]. intros H. injection H. lia.
Qed.

Lemma generated_valid_entries (sentences : list str)
    (responses : list (result transcription)) (entry : dict) :
  entry ∈ filter (λ entry : dict, entry !! k_error = None)
            (zip_with golden_entry sentences responses) →
  ∃ i sentence t,
    sentences !! i = Some sentence ∧ responses !! i = Some (Ok t) ∧
    entry = result_entry (VStr sentence) t.
Proof.
  intros [Hne Hin]%list_elem_of_filter.
  apply elem_of_lookup_zip_with in Hin as (i & sentence & r & -> & Hs & Hr).
  destruct r as [t|e].
  - by exists i, sentence, t.
  - cbn in Hne. by rewrite error_entry_error in Hne.
Qed.

(** X14. What a generate command that ended with [sys.exit(0)] has
    written has the structure that the pytest suite asks for: on the
    entries that its fixture keeps, those without ["error"],
    test_golden_dataset_structure passes, whatever the engine
    answered. *)
Theorem generated_data_has_structure (prog : str) (rest : list str) w
    (lines : list str) w1 :
  corpus_file w = Some lines →
  main Transcription json_dump stdout_errors (prog :: lit "generate" :: rest) w
    = (SysExit 0, w1) →
  ∃ valid_data,
    golden_data_fixture w1 = inr valid_data ∧
    test_golden_dataset_structure valid_data = TestPassed.
Proof.
  intros Hc Hgen.
  rewrite (main_generate_Ok Transcription json_dump stdout_errors
      prog rest w lines w1
             Hc Hgen).
  eexists. split; [done|].
  apply test_golden_dataset_structure_passed, Forall_forall.
  intros entry (i & sentence & t & _ & _ & ->)%generated_valid_entries.
  apply assert_entry_structure_result_entry.
Qed.

(** X15. With a deterministic engine, every entry that the fixture
    keeps of what a generate command that ended with [sys.exit(0)] has
    written passes test_transcription_matches_golden, from any state
    of the engine. *)
Theorem generated_data_passes_pytest (prog : str) (rest : list str) w
    (lines : list str) w1 :
  deterministic Transcription →
  corpus_file w = Some lines →
  main Transcription json_dump stdout_errors (prog :: lit "generate" :: rest) w
    = (SysExit 0, w1) →
  ∃ valid_data,
    golden_data_fixture w1 = inr valid_data ∧
    ∀ entry w', entry ∈ valid_data →
      (test_transcription_matches_golden Transcription entry w').1
        = TestPassed.
Proof.
  intros Hdet Hc Hgen.
  rewrite (main_generate_Ok Transcription json_dump stdout_errors
      prog rest w lines w1
             Hc Hgen).
  eexists. split; [done|].
  intros entry w' (i & sentence & t & Hs & Hr & ->)%generated_valid_entries.
  rewrite (engine_run_deterministic Transcription _ _ (engine_state w') Hdet)
    in Hr.
  rewrite <- list_fmap_compose, list_lookup_fmap, Hs in Hr.
  injection Hr as Hr.
  apply (test_transcription_passed _ (VStr sentence) t w').
  - apply result_entry_input.
  - exact Hr.
  - done.
Qed.

End PytestProperties.

(** ** The pytest suite: an empty fixture *)

Lemma golden_entry_no_error (sentence : str) (r : result transcription) :
  golden_entry sentence r !! k_error = None ↔ ¬ raised r.
Proof.
  destruct r as [t|e]; cbn [golden_entry raised].
  - rewrite result_entry_error. tauto.
  - rewrite error_entry_error. split; [done|tauto].
Qed.

Lemma zip_golden_entry_valid (sentences : list str)
    (responses : list (result transcription)) :
  length sentences = length responses →
  length (filter (λ entry : dict, entry !! k_error = None)
            (zip_with golden_entry sentences responses))
  = length (filter (λ r, ¬ raised r) responses).
Proof.
  revert responses.
  induction sentences as [|sentence sentences IH]; intros [|r responses] Hlen;
    try done.
  injection Hlen as Hlen. cbn [zip_with]. rewrite !filter_cons.
  pose proof (golden_entry_no_error sentence r).
  destruct (decide (¬ raised r)).
  - rewrite decide_True by tauto. cbn. by rewrite IH.
  - rewrite decide_False by tauto. by rewrite IH.
Qed.

Lemma filter_length_pos {A} (P : A → Prop) `{!∀ x, Decision (P x)}
    (l : list A) :
  0 < length (filter P l) ↔ Exists P l.
Proof.
  induction l as [|x l IH].
  - rewrite filter_nil. cbn. split; [lia|by intros ?%Exists_nil].
  - rewrite filter_cons, Exists_cons. destruct (decide (P x)); cbn.
    + split; [tauto|lia].
    + rewrite IH. tauto.
Qed.

Section PytestFixtureProperties.
Context {Eng : Type}.
Variable Transcription : value → Eng → result transcription * Eng.
Variable json_dump : list dict → option (exn * exn).
Variable stdout_errors : errors_handler.
Implicit Types w : @world Eng.

(** X17. On what a generate command that ended with [sys.exit(0)] has
    written, the fixture of the pytest suite is not empty, and
    test_golden_dataset_not_empty passes, exactly when the engine
    answered at least one sentence without raising: a golden file of
    error entries only counts as empty. *)
Theorem generated_data_not_empty (prog : str) (rest : list str) w
    (lines : list str) w1 :
  corpus_file w = Some lines →
  main Transcription json_dump stdout_errors (prog :: lit "generate" :: rest) w
    = (SysExit 0, w1) →
  ∃ valid_data,
    golden_data_fixture w1 = inr valid_data ∧
    (test_golden_dataset_not_empty valid_data = TestPassed ↔
     Exists (λ r, ¬ raised r)
       (engine_run Transcription (VStr <$> corpus_sentences lines)
          (engine_state w)).1).
Proof.
  intros Hc Hgen.
  rewrite (main_generate_Ok Transcription json_dump stdout_errors
      prog rest w lines w1
             Hc Hgen).
  eexists. split; [done|].
  unfold test_golden_dataset_not_empty, assert_.
  rewrite zip_golden_entry_valid
    by (by rewrite engine_run_length, length_fmap).
  rewrite <- filter_length_pos. by case_bool_decide.
Qed.


End PytestFixtureProperties.

(** * The further statements on the example data *)

(** X1 on [hola] against [hola_extra]. *)
Lemma compare_results_pass_iff_equal_witness :
  (compare_results hola hola_extra = Ok (VDict ∅) ↔
   ∀ section key, section ∈ sections → key ∈ fields →
     field hola section key = field hola_extra section key) ∧
  (compare_results hola hola_extra = Ok (VDict ∅) → readable hola).
Proof.
  apply (compare_results_pass_iff_equal hola hola_extra). by_compute.
Defined.

(** X2 on the scenario of the specification. *)
Lemma compare_results_reports_exactly_witness :
  ∃ d,
    compare_results hola hola_s = Ok (VDict d) ∧
    (∀ section key ev av,
       section ∈ sections → key ∈ fields →
       field hola section key = Some ev →
       field hola_s section key = Some av →
       field d section key =
       if decide (ev ≠ av) then Some (diff_entry ev av) else None) ∧
    (∀ section v,
       d !! section = Some v →
       section ∈ sections ∧
       ∃ sd, v = VDict sd ∧ sd ≠ ∅ ∧
             ∀ key x, sd !! key = Some x → key ∈ fields).
Proof.
  apply (compare_results_reports_exactly hola hola_s); by_compute.
Defined.

(** X3 on [hola] and [hola_no_sampa] as expected results against
    [hola_no_sampa], and on a result without sections. *)
Lemma compare_results_expected_read_witness :
  compare_results hola hola_no_sampa =
    compare_results hola_no_sampa hola_no_sampa ∧
  compare_results hola hola_input_only = Ok (VDict all_sections_missing).
Proof.
  split.
  - apply (proj1 (compare_results_expected_read hola hola_no_sampa
                    hola_no_sampa)).
    intros section key Hs Hk Hsome.
    section_cases Hs; field_cases Hk; try (by vm_compute);
      vm_compute in Hsome; by destruct Hsome.
  - apply (proj2 (compare_results_expected_read hola hola hola_input_only)).
    intros section Hs. section_cases Hs; by vm_compute.
Defined.

(** X4 on the example dataset. *)
Lemma run_tests_failures_indexed_witness :
  ∃ results w',
    run_tests toy_engine Strict dataset false toy_test_world
        = (Ok results, w') ∧
    Forall (λ f, 1 ≤ failure_index f ≤ length toy_golden ∧
                 ∃ entry, toy_golden !! (failure_index f - 1) = Some entry ∧
                          ¬ is_error_entry entry ∧
                          entry !! k_input = Some (failure_sentence f))
      (failures results) ∧
    StronglySorted lt (failure_index <$> failures results).
Proof.
  apply (run_tests_failures_indexed toy_engine Strict dataset toy_test_world
           toy_golden); [reflexivity|by_compute].
Defined.

(** X5 on an entry for "bad" and on an entry that has lost a field. *)
Lemma run_tests_entry_exceptions_witness :
  (run_tests_entry toy_engine Strict false 2 toy_entry_bad
     {| total := 3; passed := 1; failed := 0; errors := 0; failures := [] |}
     toy_test_world).1 =
    Ok {| total := 3; passed := 1; failed := 0; errors := 0 + 1;
          failures := [] ++ [FailureError 2 (VStr (lit "bad"))
                               (exn_str (Exception (lit "boom")))] |} ∧
  ∃ key',
    (run_tests_entry toy_engine Strict false 1 toy_entry_no_syllables
       {| total := 3; passed := 0; failed := 0; errors := 0; failures := [] |}
       toy_test_world).1 =
    Ok (count_exception 1 (VStr (lit "Hola.")) (KeyError key')
          {| total := 3; passed := 0; failed := 0; errors := 0;
             failures := [] |}).
Proof.
  split.
  - apply (proj1 (run_tests_entry_exceptions toy_engine Strict 2 toy_entry_bad
                    (VStr (lit "bad"))
                    {| total := 3; passed := 1; failed := 0; errors := 0;
                       failures := [] |}
                    toy_test_world
                    ltac:(by vm_compute) ltac:(by_compute))).
    by vm_compute.
  - apply (proj2 (run_tests_entry_exceptions toy_engine Strict 1
                    toy_entry_no_syllables (VStr (lit "Hola.")) _
                    toy_test_world ltac:(by vm_compute) ltac:(by_compute))
             (toy_transcription (lit "Hola.")) k_sampa k_syllables).
    + by vm_compute.
    + by_compute.
    + by_compute.
    + by_compute.
    + by vm_compute.
Defined.

(** X6 on a dataset whose second entry has no ["input"]. *)
Lemma run_tests_entry_without_input_witness :
  run_tests toy_engine Strict dataset false toy_no_input_world =
    (Raise (KeyError (lit "'input'")),
     with_engine_state 1 toy_no_input_world) ∧
  main toy_engine toy_json_dump Strict [lit "golden_dataset.py"; lit "test"]
    toy_no_input_world =
    (Uncaught (KeyError (lit "'input'")),
     with_engine_state 1 toy_no_input_world).
Proof.
  apply (run_tests_entry_without_input toy_engine toy_json_dump Strict
           [result_entry (VStr (lit "Hola."))
              (toy_transcription (lit "Hola."))]
           {[ k_error := VStr (lit "boom") ]}
           [result_entry (VStr adios) (toy_transcription adios)]
           toy_no_input_world).
  - reflexivity.
  - by_compute.
  - by vm_compute.
  - reflexivity.
Defined.

(** X8 on the example worlds. The command U+DC80 ends with the
    UnicodeEncodeError under "strict" and with [sys.exit(1)] under
    "surrogateescape". *)
Lemma main_cannot_start_witness :
  main toy_engine toy_json_dump Strict [lit "golden_dataset.py"; lit "Help"]
    toy_world = (SysExit 1, toy_world) ∧
  (∃ msg,
     main toy_engine toy_json_dump Strict
       [lit "golden_dataset.py"; escaped_byte] toy_world
       = (Uncaught (UnicodeEncodeError msg), toy_world)) ∧
  main toy_engine toy_json_dump SurrogateEscape
    [lit "golden_dataset.py"; escaped_byte] toy_world
    = (SysExit 1, toy_world) ∧
  main toy_engine toy_json_dump Strict [lit "golden_dataset.py"; lit "test"]
    toy_world =
    (Uncaught (FileNotFoundError golden_missing_message), toy_world) ∧
  ∃ msg,
    main toy_engine toy_json_dump Strict
      [lit "golden_dataset.py"; lit "generate"] toy_test_world =
    (Uncaught (FileNotFoundError msg), toy_test_world).
Proof.
  destruct (main_cannot_start toy_engine toy_json_dump Strict toy_world)
    as (_ & _ & Hunknown & Htest & _).
  destruct (main_cannot_start toy_engine toy_json_dump SurrogateEscape
              toy_world) as (_ & _ & Hescape & _ & _).
  destruct (main_cannot_start toy_engine toy_json_dump Strict toy_test_world)
    as (_ & _ & _ & _ & Hgenerate).
  split; [|split; [|split; [|split]]].
  - apply (Hunknown (lit "golden_dataset.py") (lit "Help") []); by_compute.
  - apply (Hunknown (lit "golden_dataset.py") escaped_byte []); by_compute.
  - apply (Hescape (lit "golden_dataset.py") escaped_byte []); by_compute.
  - apply Htest. reflexivity.
  - apply Hgenerate. reflexivity.
Defined.


(** X10 on the example corpus, where the engine raises on "bad". *)
Lemma main_generate_then_test_witness :
  exit_status
    (main toy_engine toy_json_dump Strict
       [lit "golden_dataset.py"; lit "test"; lit "--verbose"]
       (main toy_engine toy_json_dump Strict
          [lit "golden_dataset.py"; lit "generate"] toy_world).2).1 = 0%Z ↔
  corpus_sentences toy_lines ≠ [] ∧
  Forall (λ sentence, ¬ raised (toy_engine (VStr sentence) 0).1)
    (corpus_sentences toy_lines).
Proof.
  apply (main_generate_then_test toy_engine toy_json_dump Strict
           (lit "golden_dataset.py") (lit "golden_dataset.py") []
           [lit "--verbose"] toy_world toy_lines).
  - exact toy_engine_deterministic.
  - reflexivity.
  - by_compute.
  - by vm_compute.
Defined.

(** X13 on the first entry of the example dataset. *)
Lemma pytest_agrees_with_run_tests_witness :
  ((test_transcription_matches_golden toy_engine
      (result_entry (VStr (lit "Hola.")) (toy_transcription (lit "Hola.")))
      toy_test_world).1 = TestPassed ↔
   (run_tests_entry toy_engine Strict false 1
      (result_entry (VStr (lit "Hola.")) (toy_transcription (lit "Hola.")))
      {| total := 3; passed := 0; failed := 0; errors := 0; failures := [] |}
      toy_test_world).1 =
     Ok (count_passed
           {| total := 3; passed := 0; failed := 0; errors := 0;
              failures := [] |})) ∧
  engine_state
    (test_transcription_matches_golden toy_engine
       (result_entry (VStr (lit "Hola.")) (toy_transcription (lit "Hola.")))
       toy_test_world).2 =
  engine_state
    (run_tests_entry toy_engine Strict false 1
       (result_entry (VStr (lit "Hola.")) (toy_transcription (lit "Hola.")))
       {| total := 3; passed := 0; failed := 0; errors := 0; failures := [] |}
       toy_test_world).2.
Proof.
  apply (pytest_agrees_with_run_tests toy_engine). by_compute.
Defined.

(** X14 on the example corpus. *)
Lemma generated_data_has_structure_witness :
  ∃ valid_data,
    golden_data_fixture
      (main toy_engine toy_json_dump Strict
         [lit "golden_dataset.py"; lit "generate"] toy_world).2
      = inr valid_data ∧
    test_golden_dataset_structure valid_data = TestPassed.
Proof.
  apply (generated_data_has_structure toy_engine toy_json_dump Strict
           (lit "golden_dataset.py") [] toy_world toy_lines).
  - reflexivity.
  - by vm_compute.
Defined.

(** X15 on the example corpus. *)
Lemma generated_data_passes_pytest_witness :
  ∃ valid_data,
    golden_data_fixture
      (main toy_engine toy_json_dump Strict
         [lit "golden_dataset.py"; lit "generate"] toy_world).2
      = inr valid_data ∧
    ∀ entry w', entry ∈ valid_data →
      (test_transcription_matches_golden toy_engine entry w').1 = TestPassed.
Proof.
  apply (generated_data_passes_pytest toy_engine toy_json_dump Strict
           (lit "golden_dataset.py") [] toy_world toy_lines).
  - exact toy_engine_deterministic.
  - reflexivity.
  - by vm_compute.
Defined.

(** X16 on the example dataset. *)
Lemma main_test_exit_status_nonempty_witness :
  ∃ results w',
    run_tests toy_engine Strict dataset false toy_test_world
        = (Ok results, w') ∧
    (main toy_engine toy_json_dump Strict [lit "golden_dataset.py"; lit "test"]
       toy_test_world).2 = w' ∧
    (exit_status
       (main toy_engine toy_json_dump Strict
           [lit "golden_dataset.py"; lit "test"]
          toy_test_world).1 = 0%Z
     ↔ failed results = 0 ∧ errors results = 0) ∧
    (for_each (take 10 (failures results)) tt (λ _ f, print_failure Strict f)
       = Ok tt →
     main toy_engine toy_json_dump Strict [lit "golden_dataset.py"; lit "test"]
       toy_test_world =
     (SysExit (if decide (failed results = 0 ∧ errors results = 0)
               then 0 else 1), w')).
Proof.
  apply (main_test_exit_status_nonempty toy_engine toy_json_dump Strict
           (lit "golden_dataset.py") [] toy_test_world toy_golden).
  - reflexivity.
  - by_compute.
  - by_compute.
  - reflexivity.
Defined.

(** X17 on the example corpus. *)
Lemma generated_data_not_empty_witness :
  ∃ valid_data,
    golden_data_fixture
      (main toy_engine toy_json_dump Strict
         [lit "golden_dataset.py"; lit "generate"] toy_world).2
      = inr valid_data ∧
    (test_golden_dataset_not_empty valid_data = TestPassed ↔
     Exists (λ r, ¬ raised r)
       (engine_run toy_engine (VStr <$> corpus_sentences toy_lines) 0).1).
Proof.
  apply (generated_data_not_empty toy_engine toy_json_dump Strict
           (lit "golden_dataset.py") [] toy_world toy_lines).
  - reflexivity.
  - by vm_compute.
Defined.

(** X18 on the example dataset: one entry passes, one is the error
    variant, one fails. *)
Lemma run_tests_counts_witness :
  ∃ results w',
    run_tests toy_engine Strict dataset false toy_test_world
        = (Ok results, w') ∧
    total results = 3 ∧
    total results = passed results + failed results + errors results ∧
    1 ≤ errors results ∧
    passed results + failed results ≤ 2 ∧
    length (failures results) + 1 = failed results + errors results ∧
    engine_state w' = 2.
Proof.
  apply (run_tests_counts toy_engine Strict dataset toy_test_world toy_golden).
  - reflexivity.
  - by_compute.
Defined.

(** X19 on the example corpus, where the engine raises on one sentence
    of three. *)
Lemma generate_golden_data_entries_witness :
  ∃ golden_data w',
    generate_golden_data toy_engine Strict dataset toy_world
        = (Ok golden_data, w') ∧
    length golden_data = 3 ∧
    golden_data !! 1 = Some (error_entry (VStr (lit "bad"))
                               (Exception (lit "boom"))) ∧
    length (filter is_error_entry golden_data) = 1 ∧
    length (filter is_full_result golden_data) = 2.
Proof.
  destruct (generate_golden_data_entries toy_engine Strict dataset toy_world
              toy_lines eq_refl ltac:(by_compute) ltac:(by_compute))
    as (golden_data & w' & Hrun & Hlen & Hinput & Hzip & _ & _ & Hone).
  destruct Hone as [Hone_error Hone_full]; [by vm_compute|].
  exists golden_data, w'.
  split; [exact Hrun|]. split; [exact Hlen|].
  split; [by rewrite Hzip|]. split; [exact Hone_error|exact Hone_full].
Defined.

